(** * The prompt task relay: producer (API routes) and consumer (worker)

    A shallow embedding of [backend/src/prompt_agent/routes.ts] and
    [backend/src/prompt_agent/worker.ts].

    Both files are event-driven: an [async] function runs until its next
    [await], is suspended, and is resumed when the awaited promise settles;
    meanwhile other callbacks (timers, connection events, requests, message
    deliveries) run to their own next [await].  The embedding keeps that
    shape:

    - every segment of code between two suspension points is a handler in a
      small state-and-trace monad over the module's mutable variables;
    - a suspended [async] invocation is a [Task] that remembers where it is
      waiting;
    - what the broker, the HTTP layer and the timers do is an [Event], and
      [step] dispatches an event to the handler the source registered for it.

    Every call into a collaborator ([amqplib], the logger, the HTTP response,
    the prompt service) is recorded, in order, in the trace.

    Calls that the source awaits or guards with [try] are given both
    outcomes: [amqp.connect], [createChannel], [assertQueue], [close],
    [sendToQueue], [processPrompt], [JSON.parse] and the property reads on
    its result.  The logger, the HTTP response, [on], [consume], [ack],
    [nack] and [setTimeout] are taken to return normally. *)

From stdpp Require Import base option list strings.
From Stdlib Require Import QArith Lia.

Local Close Scope Q_scope.
Local Open Scope string_scope.
Local Open Scope list_scope.

(** ** JavaScript values as the two files see them *)

Module Js.

(** What [JSON.parse] can return. *)
#[warnings="-register-all"]
Inductive json : Type :=
| JNull
| JBool (b : bool)
| JNum (q : Q)
| JStr (s : string)
| JArr (items : list json)
| JObj (fields : list (string * json)).

(** A property read or an optional argument: [None] is [undefined]. *)
Definition value : Type := option json.

(** A completion: a normal value, or a thrown error (its message). *)
Inductive result (A : Type) : Type :=
| Ok (a : A)
| Throw (message : string).
Arguments Ok {A} a.
Arguments Throw {A} message.

Fixpoint assoc (k : string) (fields : list (string * json)) : value :=
  match fields with
  | [] => None
  | (k', v) :: rest => if String.eqb k k' then Some v else assoc k rest
  end.

(** [v.k]: reading a property of [null] throws a TypeError, a primitive or
    an array has none of the message's keys, an object is looked up. *)
Definition prop (v : json) (k : string) : result value :=
  match v with
  | JNull => Throw ("Cannot read properties of null (reading '" +:+ k +:+ "')")
  | JObj fields => Ok (assoc k fields)
  | _ => Ok None
  end.

(** ToBoolean. *)
Definition truthy (v : value) : bool :=
  match v with
  | None => false
  | Some JNull => false
  | Some (JBool b) => b
  | Some (JNum q) => negb (Qeq_bool q 0%Q)
  | Some (JStr s) => negb (String.eqb s "")
  | Some (JArr _) => true
  | Some (JObj _) => true
  end.

(** ToBoolean on a value typed [string | undefined]. *)
Definition truthy_string (o : option string) : bool :=
  match o with
  | None => false
  | Some s => negb (String.eqb s "")
  end.

End Js.
Export Js.

(** ** The collaborators shared by both roles *)

Module Amqp.

(** An [amqp.Connection] handle.  [conn_inner_null] is the outcome of the
    one test the source makes on it, [handle.connection === null]. *)
Record Conn : Type := MkConn { conn_id : nat; conn_inner_null : bool }.

Record Chan : Type := MkChan { chan_id : nat }.

(** A delivery ([amqp.ConsumeMessage]): the body and the broker's tag. *)
Record Message : Type := MkMessage { content : string; deliveryTag : nat }.

#[global] Instance Conn_eq_dec : EqDecision Conn.
Proof. solve_decision. Defined.
#[global] Instance Chan_eq_dec : EqDecision Chan.
Proof. solve_decision. Defined.

Inductive Level : Type := Info | Warn | Error.

Inductive EmitterEvent : Type := OnError | OnClose.

(** The body of the POST /submit request, and of the published message
    ([PromptRequestPayload]). *)
Record PromptRequestPayload : Type := MkPayload {
  promptText : option string;
  requestedModel : option string;
  enhance : option bool;
  promptId : option string
}.

(** The JSON body of an HTTP response: [{ message }] or [{ error }]. *)
Inductive ResponseBody : Type :=
| MessageBody (text : string)
| ErrorBody (text : string).

(** Every call the two files make on a collaborator. *)
Inductive Effect : Type :=
| Log (level : Level) (text : string)
| Connect (url : string)
| ConnOn (c : Conn) (ev : EmitterEvent)
| CreateChannel (c : Conn)
| ChanOn (ch : Chan) (ev : EmitterEvent)
| AssertQueue (ch : Chan) (queue : string) (durable : bool)
| SendToQueue (ch : Chan) (queue : string) (payload : string) (persistent : bool)
| Consume (ch : Chan) (queue : string) (noAck : bool)
| Ack (ch : Chan) (msg : Message)
| Nack (ch : Chan) (msg : Message) (allUpTo requeue : bool)
| ChanClose (ch : Chan)
| ConnClose (c : Conn)
| SetTimeout (ms : nat)
| ProcessPrompt (promptText requestedModel enhance promptId : Js.value)
| Respond (status : nat) (body : ResponseBody)
| MountRouter (path : string)
| ProcessExit (code : nat).

Definition Trace : Type := list Effect.

(** What [channel.sendToQueue] does when called: it returns [true], returns
    [false] (write buffer full), or throws. *)
Inductive SendResult : Type :=
| SendTrue
| SendFalse
| SendThrows (message : string).

(** What the runtime supplies: the environment variable read at module
    load, and the two JSON built-ins. *)
Record Platform : Type := MkPlatform {
  env_RABBITMQ_URL : option string;
  JSON_parse : string -> option Js.json;
  JSON_stringify : PromptRequestPayload -> string
}.

(** [process.env.RABBITMQ_URL || 'amqp://localhost'] *)
Definition RABBITMQ_URL (P : Platform) : string :=
  if Js.truthy_string (env_RABBITMQ_URL P)
  then default "" (env_RABBITMQ_URL P)
  else "amqp://localhost".

Definition QUEUE_NAME : string := "prompt_tasks_queue".
Definition RECONNECT_DELAY_MS : nat := 5000.

(** [`${RECONNECT_DELAY_MS / 1000}`] *)
Definition RECONNECT_DELAY_S : string := "5".

(** Kinds of calls, to count them in a trace. *)
Definition is_connect (e : Effect) : bool :=
  match e with Connect _ => true | _ => false end.
Definition is_publish (e : Effect) : bool :=
  match e with SendToQueue _ _ _ _ => true | _ => false end.
Definition is_assert (e : Effect) : bool :=
  match e with AssertQueue _ _ _ => true | _ => false end.
Definition is_process (e : Effect) : bool :=
  match e with ProcessPrompt _ _ _ _ => true | _ => false end.
(** The calls made on the broker library, as opposed to the logger, the
    HTTP layer, the timer and the prompt service. *)
Definition is_queue_call (e : Effect) : bool :=
  match e with
  | Log _ _ | Respond _ _ | MountRouter _ | ProcessExit _
  | SetTimeout _ | ProcessPrompt _ _ _ _ => false
  | _ => true
  end.

(** What the caller of /submit is told, in the words of the interface:
    202 is [Accepted], 400 [Rejected], 503 [Unavailable], and 500 the
    internal fault. *)
Inductive Outcome : Type :=
| Accepted
| Rejected (reason : string)
| Unavailable (reason : string)
| InternalFault (reason : string).

Definition outcome_of (status : nat) (body : ResponseBody) : option Outcome :=
  match body with
  | MessageBody _ => if Nat.eqb status 202 then Some Accepted else None
  | ErrorBody reason =>
      if Nat.eqb status 400 then Some (Rejected reason)
      else if Nat.eqb status 503 then Some (Unavailable reason)
      else if Nat.eqb status 500 then Some (InternalFault reason)
      else None
  end.

(** The responses sent in a trace, in order. *)
Fixpoint responses (t : Trace) : list (option Outcome) :=
  match t with
  | [] => []
  | Respond status body :: rest => outcome_of status body :: responses rest
  | _ :: rest => responses rest
  end.

Definition is_settlement (e : Effect) : bool :=
  match e with Ack _ _ | Nack _ _ _ _ => true | _ => false end.

(** The acknowledgements and discards in a trace, in order. *)
Definition settlements (t : Trace) : Trace := List.filter is_settlement t.

(** The broker calls of a trace, in order. *)
Definition queue_calls (t : Trace) : Trace := List.filter is_queue_call t.

Fixpoint count (p : Effect -> bool) (t : Trace) : nat :=
  match t with
  | [] => 0
  | e :: rest => (if p e then 1 else 0) + count p rest
  end.

End Amqp.
Export Amqp.

(** ** Handlers: state and trace *)

Module Handler.

(** A segment of code over the mutable state [S]. *)
Definition M (S A : Type) : Type := S -> A * S.

#[global] Instance M_ret {S} : MRet (M S) := fun A a s => (a, s).
#[global] Instance M_bind {S} : MBind (M S) :=
  fun A B f m s => let '(a, s') := m s in f a s'.

Definition gets {S A} (f : S -> A) : M S A := fun s => (f s, s).
Definition modify {S} (f : S -> S) : M S unit := fun s => (tt, f s).
Definition exec {S A} (m : M S A) (s : S) : S := snd (m s).

End Handler.
Export Handler.

(** ** The producer: [routes.ts] *)

Module Producer.

(** Who called [connectToRabbitMQ]: [initializePromptRoutes] (which awaits
    it), a reconnect timer, or the /submit handler (which does not). *)
Inductive Origin : Type := FromInit | FromTimer | FromSubmit.

(** The [await] a [connectToRabbitMQ] invocation is suspended at. *)
Inductive Stage : Type :=
| AwaitConnect
| AwaitCreateChannel
| AwaitAssertQueue.

(** A suspended [async] invocation. *)
Inductive Task : Type :=
| TConnect (o : Origin) (st : Stage)
| TSubmit (message : PromptRequestPayload).

(** The module's state: the two module-level variables, and what the event
    loop holds for it (suspended invocations, pending timers, connections
    carrying its listeners, whether the router is mounted). *)
Record Sys : Type := MkSys {
  rabbitConnection : option Conn;
  rabbitChannel : option Chan;
  tasks : list Task;
  timers : nat;
  listening : list Conn;
  mounted : bool;
  trace : Trace
}.

Definition initial : Sys :=
  {| rabbitConnection := None; rabbitChannel := None; tasks := [];
     timers := 0; listening := []; mounted := false; trace := [] |}.

Definition set_rabbitConnection (c : option Conn) : M Sys unit :=
  modify (fun s => MkSys c (rabbitChannel s) (tasks s) (timers s)
                     (listening s) (mounted s) (trace s)).
Definition set_rabbitChannel (ch : option Chan) : M Sys unit :=
  modify (fun s => MkSys (rabbitConnection s) ch (tasks s) (timers s)
                     (listening s) (mounted s) (trace s)).
Definition set_tasks (ts : list Task) : M Sys unit :=
  modify (fun s => MkSys (rabbitConnection s) (rabbitChannel s) ts (timers s)
                     (listening s) (mounted s) (trace s)).
Definition set_timers (n : nat) : M Sys unit :=
  modify (fun s => MkSys (rabbitConnection s) (rabbitChannel s) (tasks s) n
                     (listening s) (mounted s) (trace s)).
Definition set_listening (l : list Conn) : M Sys unit :=
  modify (fun s => MkSys (rabbitConnection s) (rabbitChannel s) (tasks s)
                     (timers s) l (mounted s) (trace s)).
Definition set_mounted (b : bool) : M Sys unit :=
  modify (fun s => MkSys (rabbitConnection s) (rabbitChannel s) (tasks s)
                     (timers s) (listening s) b (trace s)).
Definition emit (e : Effect) : M Sys unit :=
  modify (fun s => MkSys (rabbitConnection s) (rabbitChannel s) (tasks s)
                     (timers s) (listening s) (mounted s) (trace s ++ [e])).

Definition log (l : Level) (text : string) : M Sys unit := emit (Log l text).

(** Suspend the running invocation at an [await]. *)
Definition suspend (t : Task) : M Sys unit :=
  ts ← gets tasks; set_tasks (ts ++ [t]).

(** [setTimeout(connectToRabbitMQ, RECONNECT_DELAY_MS)] *)
Definition setTimeout_connect : M Sys unit :=
  emit (SetTimeout RECONNECT_DELAY_MS);;
  n ← gets timers; set_timers (S n).

(** [connection.on(ev, ...)] *)
Definition on (c : Conn) (ev : EmitterEvent) : M Sys unit :=
  emit (ConnOn c ev);;
  l ← gets listening;
  if bool_decide (c ∈ l) then mret tt else set_listening (l ++ [c]).

Section WithPlatform.
Context (P : Platform).

(** The rest of [initializePromptRoutes], after [await connectToRabbitMQ()]:
    the route is registered and the router mounted. *)
Definition initializePromptRoutes_rest : M Sys unit :=
  emit (MountRouter "/api/prompts");;
  set_mounted true;;
  log Info "Prompt agent API routes initialized and mounted to /api/prompts.".

(** [connectToRabbitMQ] returned: resume whoever awaits it. *)
Definition connect_return (o : Origin) : M Sys unit :=
  match o with
  | FromInit => initializePromptRoutes_rest
  | FromTimer | FromSubmit => mret tt
  end.

(** The [catch] block of [connectToRabbitMQ]. *)
Definition connect_catch (o : Origin) (message : string) : M Sys unit :=
  log Error ("Failed to connect to RabbitMQ for API routes: " +:+ message);;
  set_rabbitChannel None;;
  set_rabbitConnection None;;
  log Info ("Retrying RabbitMQ connection in " +:+ RECONNECT_DELAY_S +:+ "s...");;
  setTimeout_connect;;
  connect_return o.

(** [connectToRabbitMQ], up to [await amqp.connect(RABBITMQ_URL)]. *)
Definition connectToRabbitMQ (o : Origin) : M Sys unit :=
  log Info ("Attempting to connect to RabbitMQ at " +:+ RABBITMQ_URL P
            +:+ " for API routes...");;
  emit (Connect (RABBITMQ_URL P));;
  suspend (TConnect o AwaitConnect).

(** From [rabbitConnection = await amqp.connect(...)] to
    [await rabbitConnection.createChannel()]. *)
Definition connect_after_connect (o : Origin) (r : result Conn) : M Sys unit :=
  match r with
  | Ok c =>
      set_rabbitConnection (Some c);;
      log Info "Successfully connected to RabbitMQ for API routes.";;
      on c OnError;;
      on c OnClose;;
      emit (CreateChannel c);;
      suspend (TConnect o AwaitCreateChannel)
  | Throw message => connect_catch o message
  end.

(** From [rabbitChannel = await ...createChannel()] to
    [await rabbitChannel.assertQueue(...)]. *)
Definition connect_after_createChannel (o : Origin) (r : result Chan)
  : M Sys unit :=
  match r with
  | Ok ch =>
      set_rabbitChannel (Some ch);;
      log Info "RabbitMQ channel created successfully for API routes.";;
      emit (AssertQueue ch QUEUE_NAME true);;
      suspend (TConnect o AwaitAssertQueue)
  | Throw message => connect_catch o message
  end.

(** After [await rabbitChannel.assertQueue(...)]. *)
Definition connect_after_assertQueue (o : Origin) (r : result unit)
  : M Sys unit :=
  match r with
  | Ok _ =>
      log Info ("Queue '" +:+ QUEUE_NAME +:+ "' asserted by API router.");;
      connect_return o
  | Throw message => connect_catch o message
  end.

(** The ['error'] listener of the connection. *)
Definition on_connection_error (err : string) : M Sys unit :=
  log Error "RabbitMQ connection error (API routes):";;
  set_rabbitChannel None;;
  set_rabbitConnection None.

(** The ['close'] listener of the connection. *)
Definition on_connection_close : M Sys unit :=
  log Warn "RabbitMQ connection closed (API routes). Will attempt to reconnect on next request or periodically.";;
  set_rabbitChannel None;;
  set_rabbitConnection None;;
  setTimeout_connect.

(** [!rabbitConnection || rabbitConnection.connection === null] *)
Definition connection_unusable (s : Sys) : bool :=
  match rabbitConnection s with
  | None => true
  | Some c => conn_inner_null c
  end.

(** [!rabbitChannel || !rabbitConnection || rabbitConnection.connection === null] *)
Definition channel_unavailable (s : Sys) : bool :=
  match rabbitChannel s with
  | None => true
  | Some _ => connection_unusable s
  end.

(** The [catch] block of the /submit handler. *)
Definition submit_catch (message : string) : M Sys unit :=
  log Error ("Error publishing message to RabbitMQ or asserting queue: "
             +:+ message);;
  emit (Respond 500
    (ErrorBody "Failed to publish prompt request due to an internal error.")).

(** The branch taken when the validation fails. *)
Definition submit_invalid : M Sys unit :=
  log Warn "Invalid request to /submit: promptText or promptId is required.";;
  emit (Respond 400
    (ErrorBody "Either promptText or promptId must be provided.")).

(** The branch taken when the channel check fails.  The call of
    [connectToRabbitMQ] is not awaited: the handler goes on to respond while
    that invocation stays suspended. *)
Definition submit_unavailable : M Sys unit :=
  log Error "RabbitMQ channel not available. Cannot publish message. Attempting to reconnect...";;
  unusable ← gets connection_unusable;
  (if unusable : bool then connectToRabbitMQ FromSubmit else mret tt);;
  emit (Respond 503
    (ErrorBody "Service temporarily unavailable. Please try again later.")).

(** The [try] block, up to [await rabbitChannel.assertQueue(...)]. *)
Definition submit_try (message : PromptRequestPayload) : M Sys unit :=
  ch ← gets rabbitChannel;
  match ch with
  | Some ch =>
      emit (AssertQueue ch QUEUE_NAME true);;
      suspend (TSubmit message)
  | None =>
      submit_catch "Cannot read properties of null (reading 'assertQueue')"
  end.

(** The /submit handler, up to its first [await]. *)
Definition submit (req : PromptRequestPayload) : M Sys unit :=
  log Info "Received POST /submit request with payload:";;
  if negb (truthy_string (promptText req)) && negb (truthy_string (promptId req))
  then submit_invalid
  else
    unavailable ← gets channel_unavailable;
    if unavailable : bool then submit_unavailable
    else submit_try (MkPayload (promptText req) (requestedModel req)
                       (enhance req) (promptId req)).

(** The /submit handler, after [await rabbitChannel.assertQueue(...)]. *)
Definition submit_after_assertQueue (message : PromptRequestPayload)
    (r : result unit) (send : SendResult) : M Sys unit :=
  match r with
  | Throw err => submit_catch err
  | Ok _ =>
      ch ← gets rabbitChannel;
      match ch with
      | None =>
          submit_catch "Cannot read properties of null (reading 'sendToQueue')"
      | Some ch =>
          emit (SendToQueue ch QUEUE_NAME (JSON_stringify P message) true);;
          match send with
          | SendTrue =>
              log Info ("Message successfully published to queue '"
                        +:+ QUEUE_NAME +:+ "':");;
              emit (Respond 202
                (MessageBody "Prompt request received and is being processed."))
          | SendFalse =>
              log Error ("Failed to publish message to queue '" +:+ QUEUE_NAME
                +:+ "' due to full buffer or channel error. Payload:");;
              emit (Respond 503
                (ErrorBody "Service temporarily overloaded. Please try again."))
          | SendThrows err => submit_catch err
          end
      end
  end.

(** [initializePromptRoutes], up to [await connectToRabbitMQ()]. *)
Definition initializePromptRoutes : M Sys unit := connectToRabbitMQ FromInit.

(** *** The event loop *)

(** What can happen next: an awaited promise of the [i]-th suspended
    invocation settles, a reconnect timer fires, a connection emits, or a
    request arrives.  [send] is what [sendToQueue] will do if it is reached. *)
Inductive Event : Type :=
| ConnectSettled (i : nat) (r : result Conn)
| CreateChannelSettled (i : nat) (r : result Chan)
| AssertQueueSettled (i : nat) (r : result unit)
| SubmitAssertSettled (i : nat) (r : result unit) (send : SendResult)
| TimerFired
| ConnectionError (c : Conn) (err : string)
| ConnectionClose (c : Conn)
| Request (req : PromptRequestPayload).

(** The [i]-th suspended invocation is taken up again. *)
Definition resume (i : nat) : M Sys unit :=
  ts ← gets tasks; set_tasks (delete i ts).

(** A closed connection emits nothing more. *)
Definition forget (c : Conn) : M Sys unit :=
  l ← gets listening; set_listening (filter (fun c' => c' ≠ c) l).

(** One turn of the event loop; [None] when the event cannot occur in [s]
    (no such suspended invocation, no pending timer, no listener, router
    not mounted). *)
Definition step (s : Sys) (ev : Event) : option Sys :=
  match ev with
  | ConnectSettled i r =>
      match tasks s !! i with
      | Some (TConnect o AwaitConnect) =>
          Some (exec (resume i;; connect_after_connect o r) s)
      | _ => None
      end
  | CreateChannelSettled i r =>
      match tasks s !! i with
      | Some (TConnect o AwaitCreateChannel) =>
          Some (exec (resume i;; connect_after_createChannel o r) s)
      | _ => None
      end
  | AssertQueueSettled i r =>
      match tasks s !! i with
      | Some (TConnect o AwaitAssertQueue) =>
          Some (exec (resume i;; connect_after_assertQueue o r) s)
      | _ => None
      end
  | SubmitAssertSettled i r send =>
      match tasks s !! i with
      | Some (TSubmit message) =>
          Some (exec (resume i;; submit_after_assertQueue message r send) s)
      | _ => None
      end
  | TimerFired =>
      match timers s with
      | S n => Some (exec (set_timers n;; connectToRabbitMQ FromTimer) s)
      | O => None
      end
  | ConnectionError c err =>
      if bool_decide (c ∈ listening s)
      then Some (exec (on_connection_error err) s)
      else None
  | ConnectionClose c =>
      if bool_decide (c ∈ listening s)
      then Some (exec (forget c;; on_connection_close) s)
      else None
  | Request req =>
      if mounted s then Some (exec (submit req) s) else None
  end.

Fixpoint run (s : Sys) (evs : list Event) : option Sys :=
  match evs with
  | [] => Some s
  | ev :: rest =>
      match step s ev with
      | Some s' => run s' rest
      | None => None
      end
  end.

(** The process right after [initializePromptRoutes(app)] is called. *)
Definition boot : Sys := exec initializePromptRoutes initial.

End WithPlatform.

(** *** Observations *)

Definition is_attempt (t : Task) : bool :=
  match t with TConnect _ _ => true | TSubmit _ => false end.

(** The [connectToRabbitMQ] invocations that have started and not returned. *)
Definition in_flight (s : Sys) : nat :=
  length (List.filter is_attempt (tasks s)).

(** The trace a handler adds to a state. *)
Definition emitted (s s' : Sys) : Trace := drop (length (trace s)) (trace s').

Definition is_request (ev : Event) : bool :=
  match ev with Request _ => true | _ => false end.

(** The /submit calls suspended on their queue assertion. *)
Definition pending_submits (ts : list Task) : nat :=
  length (List.filter (fun t => negb (is_attempt t)) ts).

(** The answers given so far. *)
Definition answered (s : Sys) : nat := length (responses (trace s)).

(** Every answer given so far is one of the four outcomes. *)
Definition well_answered (s : Sys) : Prop :=
  Forall (fun o => is_Some o) (responses (trace s)).

(** Answers given plus calls still suspended. *)
Definition balance (s : Sys) : nat := answered s + pending_submits (tasks s).

(** The requests among the events of a run. *)
Definition requests (evs : list Event) : nat :=
  length (List.filter is_request evs).

(** A handler is quiet when it only appends to the trace, answers no
    request, and neither suspends nor resumes a /submit call. *)
Definition quiet {A : Type} (h : M Sys A) : Prop :=
  forall s, exists t,
    trace (snd (h s)) = trace s ++ t /\
    responses t = [] /\
    pending_submits (tasks (snd (h s))) = pending_submits (tasks s).

(** What the second segment of /submit adds to the trace. *)
Definition submit_second_trace (P : Platform) (s : Sys)
    (message : PromptRequestPayload) (r : result unit) (send : SendResult)
  : Trace :=
  match r, rabbitChannel s with
  | Throw err, _ =>
      [Log Error ("Error publishing message to RabbitMQ or asserting queue: " +:+ err);
       Respond 500 (ErrorBody "Failed to publish prompt request due to an internal error.")]
  | Ok _, None =>
      [Log Error "Error publishing message to RabbitMQ or asserting queue: Cannot read properties of null (reading 'sendToQueue')";
       Respond 500 (ErrorBody "Failed to publish prompt request due to an internal error.")]
  | Ok _, Some ch =>
      SendToQueue ch QUEUE_NAME (JSON_stringify P message) true ::
      match send with
      | SendTrue =>
          [Log Info ("Message successfully published to queue '" +:+ QUEUE_NAME +:+ "':");
           Respond 202 (MessageBody "Prompt request received and is being processed.")]
      | SendFalse =>
          [Log Error ("Failed to publish message to queue '" +:+ QUEUE_NAME
                      +:+ "' due to full buffer or channel error. Payload:");
           Respond 503 (ErrorBody "Service temporarily overloaded. Please try again.")]
      | SendThrows err =>
          [Log Error ("Error publishing message to RabbitMQ or asserting queue: " +:+ err);
           Respond 500 (ErrorBody "Failed to publish prompt request due to an internal error.")]
      end
  end.

End Producer.

(** ** The consumer: [worker.ts] *)

Module Consumer.

(** The [await] a [connectAndConsume] invocation is suspended at; the last
    two are inside its [catch] block. *)
Inductive Stage : Type :=
| AwaitConnect
| AwaitCreateChannel
| AwaitAssertQueue
| AwaitChannelClose
| AwaitConnectionClose.

(** A suspended [async] invocation: [connectAndConsume], or the consume
    callback waiting for [processPrompt]. *)
Inductive Task : Type :=
| TAttempt (st : Stage)
| TMessage (msg : Message).

(** The two variables local to [startWorker] and captured by every closure
    in it, and what the event loop holds for the worker. *)
Record Sys : Type := MkSys {
  connection : option Conn;
  channel : option Chan;
  tasks : list Task;
  timers : nat;
  conn_listening : list Conn;
  chan_listening : list Chan;
  consuming : list Chan;
  trace : Trace
}.

Definition initial : Sys :=
  {| connection := None; channel := None; tasks := []; timers := 0;
     conn_listening := []; chan_listening := []; consuming := [];
     trace := [] |}.

Definition set_connection (c : option Conn) : M Sys unit :=
  modify (fun s => MkSys c (channel s) (tasks s) (timers s)
    (conn_listening s) (chan_listening s) (consuming s) (trace s)).
Definition set_channel (ch : option Chan) : M Sys unit :=
  modify (fun s => MkSys (connection s) ch (tasks s) (timers s)
    (conn_listening s) (chan_listening s) (consuming s) (trace s)).
Definition set_tasks (ts : list Task) : M Sys unit :=
  modify (fun s => MkSys (connection s) (channel s) ts (timers s)
    (conn_listening s) (chan_listening s) (consuming s) (trace s)).
Definition set_timers (n : nat) : M Sys unit :=
  modify (fun s => MkSys (connection s) (channel s) (tasks s) n
    (conn_listening s) (chan_listening s) (consuming s) (trace s)).
Definition set_conn_listening (l : list Conn) : M Sys unit :=
  modify (fun s => MkSys (connection s) (channel s) (tasks s) (timers s)
    l (chan_listening s) (consuming s) (trace s)).
Definition set_chan_listening (l : list Chan) : M Sys unit :=
  modify (fun s => MkSys (connection s) (channel s) (tasks s) (timers s)
    (conn_listening s) l (consuming s) (trace s)).
Definition set_consuming (l : list Chan) : M Sys unit :=
  modify (fun s => MkSys (connection s) (channel s) (tasks s) (timers s)
    (conn_listening s) (chan_listening s) l (trace s)).
Definition emit (e : Effect) : M Sys unit :=
  modify (fun s => MkSys (connection s) (channel s) (tasks s) (timers s)
    (conn_listening s) (chan_listening s) (consuming s) (trace s ++ [e])).

Definition log (l : Level) (text : string) : M Sys unit := emit (Log l text).

Definition suspend (t : Task) : M Sys unit :=
  ts ← gets tasks; set_tasks (ts ++ [t]).

(** [setTimeout(connectAndConsume, RECONNECT_DELAY_MS)] *)
Definition setTimeout_connect : M Sys unit :=
  emit (SetTimeout RECONNECT_DELAY_MS);;
  n ← gets timers; set_timers (S n).

(** [connection.on(ev, ...)] and [channel.on(ev, ...)] *)
Definition conn_on (c : Conn) (ev : EmitterEvent) : M Sys unit :=
  emit (ConnOn c ev);;
  l ← gets conn_listening;
  if bool_decide (c ∈ l) then mret tt else set_conn_listening (l ++ [c]).
Definition chan_on (ch : Chan) (ev : EmitterEvent) : M Sys unit :=
  emit (ChanOn ch ev);;
  l ← gets chan_listening;
  if bool_decide (ch ∈ l) then mret tt else set_chan_listening (l ++ [ch]).

(** [channel?.ack(msg)]: the call is skipped when the variable holds [null]. *)
Definition ack_if_channel (msg : Message) : M Sys unit :=
  ch ← gets channel;
  match ch with
  | Some ch => emit (Ack ch msg)
  | None => mret tt
  end.

(** [channel?.nack(msg, false, false)] *)
Definition nack_if_channel (msg : Message) : M Sys unit :=
  ch ← gets channel;
  match ch with
  | Some ch => emit (Nack ch msg false false)
  | None => mret tt
  end.

(** [!messagePayload.promptText && !messagePayload.promptId], with the
    property reads it makes. *)
Definition lacks_prompt (payload : json) : result bool :=
  match prop payload "promptText" with
  | Throw e => Throw e
  | Ok text =>
      if truthy text then Ok false
      else match prop payload "promptId" with
           | Throw e => Throw e
           | Ok id => Ok (negb (truthy id))
           end
  end.

(** The four arguments of [processPrompt], read in order. *)
Definition prompt_arguments (payload : json)
  : result (value * value * value * value) :=
  match prop payload "promptText" with
  | Throw e => Throw e
  | Ok text =>
  match prop payload "requestedModel" with
  | Throw e => Throw e
  | Ok model =>
  match prop payload "enhance" with
  | Throw e => Throw e
  | Ok enh =>
  match prop payload "promptId" with
  | Throw e => Throw e
  | Ok id => Ok (text, model, enh, id)
  end end end end.

Section WithPlatform.
Context (P : Platform).

(** *** [connectAndConsume] *)

(** The end of the [catch] block. *)
Definition catch_end : M Sys unit := setTimeout_connect.

(** [if (connection) { try { await connection.close(); } ... }] *)
Definition catch_connection : M Sys unit :=
  c ← gets connection;
  match c with
  | Some c => emit (ConnClose c);; suspend (TAttempt AwaitConnectionClose)
  | None => catch_end
  end.

Definition catch_after_connection_close (r : result unit) : M Sys unit :=
  match r with
  | Ok _ => mret tt
  | Throw _ => log Error "Error closing connection during error handling:"
  end;;
  set_connection None;;
  catch_end.

Definition catch_after_channel_close (r : result unit) : M Sys unit :=
  match r with
  | Ok _ => mret tt
  | Throw _ => log Error "Error closing channel during error handling:"
  end;;
  set_channel None;;
  catch_connection.

(** The [catch] block, up to its first [await]. *)
Definition connect_catch (message : string) : M Sys unit :=
  log Error ("Failed to connect to RabbitMQ or setup consumer: " +:+ message
             +:+ ". Retrying in " +:+ RECONNECT_DELAY_S +:+ "s...");;
  ch ← gets channel;
  match ch with
  | Some ch => emit (ChanClose ch);; suspend (TAttempt AwaitChannelClose)
  | None => catch_connection
  end.

(** [connectAndConsume], up to [await amqp.connect(RABBITMQ_URL)]. *)
Definition connectAndConsume : M Sys unit :=
  log Info ("Connecting to RabbitMQ at " +:+ RABBITMQ_URL P +:+ "...");;
  emit (Connect (RABBITMQ_URL P));;
  suspend (TAttempt AwaitConnect).

Definition connect_after_connect (r : result Conn) : M Sys unit :=
  match r with
  | Ok c =>
      set_connection (Some c);;
      log Info "Successfully connected to RabbitMQ.";;
      conn_on c OnError;;
      conn_on c OnClose;;
      emit (CreateChannel c);;
      suspend (TAttempt AwaitCreateChannel)
  | Throw message => connect_catch message
  end.

Definition connect_after_createChannel (r : result Chan) : M Sys unit :=
  match r with
  | Ok ch =>
      set_channel (Some ch);;
      log Info "RabbitMQ channel created.";;
      chan_on ch OnError;;
      chan_on ch OnClose;;
      emit (AssertQueue ch QUEUE_NAME true);;
      suspend (TAttempt AwaitAssertQueue)
  | Throw message => connect_catch message
  end.

(** After [await channel.assertQueue(...)]: [channel.consume] is called on
    whatever the variable holds by then. *)
Definition connect_after_assertQueue (r : result unit) : M Sys unit :=
  match r with
  | Ok _ =>
      log Info ("Queue '" +:+ QUEUE_NAME +:+ "' asserted successfully (durable).");;
      log Info ("Worker is waiting for messages in queue '" +:+ QUEUE_NAME
                +:+ "'. To exit press CTRL+C");;
      ch ← gets channel;
      match ch with
      | Some ch =>
          emit (Consume ch QUEUE_NAME false);;
          l ← gets consuming;
          if bool_decide (ch ∈ l) then mret tt else set_consuming (l ++ [ch])
      | None =>
          connect_catch "Cannot read properties of null (reading 'consume')"
      end
  | Throw message => connect_catch message
  end.

(** *** The listeners *)

(** The connection's ['error'] listener: it logs, nothing else. *)
Definition on_connection_error (err : string) : M Sys unit :=
  log Error "RabbitMQ connection error:".

Definition on_connection_close : M Sys unit :=
  log Warn "RabbitMQ connection closed. Attempting to reconnect...";;
  set_connection None;;
  set_channel None;;
  setTimeout_connect.

Definition on_channel_error (err : string) : M Sys unit :=
  log Error "RabbitMQ channel error:".

Definition on_channel_close : M Sys unit :=
  log Info "RabbitMQ channel closed.";;
  set_channel None.

(** *** The consume callback *)

(** Its [catch] block. *)
Definition message_catch (msg : Message) : M Sys unit :=
  log Error "Error processing message or in prompt service:";;
  nack_if_channel msg;;
  log Warn "Message rejected (nack) due to processing error.".

(** The callback, up to [await defaultPromptService.processPrompt(...)]. *)
Definition on_message (delivery : option Message) : M Sys unit :=
  match delivery with
  | None =>
      log Warn "Received null message, consumer might have been cancelled or channel closed."
  | Some msg =>
      log Info ("Received message from queue '" +:+ QUEUE_NAME +:+ "': "
                +:+ content msg);;
      match JSON_parse P (content msg) with
      | None => message_catch msg
      | Some messagePayload =>
          match lacks_prompt messagePayload with
          | Throw _ => message_catch msg
          | Ok true =>
              log Error "Invalid message: promptText or promptId must be provided.";;
              nack_if_channel msg
          | Ok false =>
              log Info "Processing message with defaultPromptService...";;
              match prompt_arguments messagePayload with
              | Throw _ => message_catch msg
              | Ok (text, model, enh, id) =>
                  emit (ProcessPrompt text model enh id);;
                  suspend (TMessage msg)
              end
          end
      end
  end.

(** The callback, after [await ...processPrompt(...)]. *)
Definition on_message_after_process (msg : Message) (r : result string)
  : M Sys unit :=
  match r with
  | Ok _ =>
      log Info "Prompt processed successfully. Result:";;
      ack_if_channel msg;;
      log Info "Message acknowledged."
  | Throw _ => message_catch msg
  end.

(** *** Startup *)

(** [startWorker], up to [await connectAndConsume()].  [provider] and
    [service] say whether [defaultOpenAiLlmProvider] and
    [defaultPromptService] are truthy. *)
Definition startWorker (provider service : bool) : M Sys unit :=
  log Info "Attempting to start Prompt Agent Worker...";;
  if negb provider then
    log Warn "OpenAI LLM Provider is not available (likely missing OPENAI_API_KEY). Prompt Agent Worker will not start."
  else if negb service then
    log Warn "DefaultPromptService is not available. Prompt Agent Worker will not start."
  else connectAndConsume.

(** The [.catch] handler on [startWorker()].  No segment of [startWorker]
    or [connectAndConsume] lets an error escape, so the event loop below
    never runs it. *)
Definition on_startWorker_rejected : M Sys unit :=
  log Error "Unhandled error during worker startup or operation:";;
  emit (ProcessExit 1).

(** The statements at the end of the module. *)
Definition main (provider service : bool) : M Sys unit :=
  if provider && service then startWorker provider service
  else
    log Warn "Prompt Agent Worker will not start. LlmProvider (OpenAI) or PromptService is not available. This is likely due to a missing OPENAI_API_KEY or other configuration issues.".

(** *** The event loop *)

Inductive Event : Type :=
| ConnectSettled (i : nat) (r : result Conn)
| CreateChannelSettled (i : nat) (r : result Chan)
| AssertQueueSettled (i : nat) (r : result unit)
| ChannelCloseSettled (i : nat) (r : result unit)
| ConnectionCloseSettled (i : nat) (r : result unit)
| ProcessPromptSettled (i : nat) (r : result string)
| TimerFired
| ConnectionError (c : Conn) (err : string)
| ConnectionClose (c : Conn)
| ChannelError (ch : Chan) (err : string)
| ChannelClose (ch : Chan)
| Deliver (ch : Chan) (delivery : option Message).

Definition resume (i : nat) : M Sys unit :=
  ts ← gets tasks; set_tasks (delete i ts).

(** A closed connection or channel emits and delivers nothing more. *)
Definition forget_connection (c : Conn) : M Sys unit :=
  l ← gets conn_listening; set_conn_listening (filter (fun c' => c' ≠ c) l).
Definition forget_channel (ch : Chan) : M Sys unit :=
  l ← gets chan_listening; set_chan_listening (filter (fun c' => c' ≠ ch) l);;
  k ← gets consuming; set_consuming (filter (fun c' => c' ≠ ch) k).

(** One turn of the event loop; [None] when the event cannot occur in [s]. *)
Definition step (s : Sys) (ev : Event) : option Sys :=
  match ev with
  | ConnectSettled i r =>
      match tasks s !! i with
      | Some (TAttempt AwaitConnect) =>
          Some (exec (resume i;; connect_after_connect r) s)
      | _ => None
      end
  | CreateChannelSettled i r =>
      match tasks s !! i with
      | Some (TAttempt AwaitCreateChannel) =>
          Some (exec (resume i;; connect_after_createChannel r) s)
      | _ => None
      end
  | AssertQueueSettled i r =>
      match tasks s !! i with
      | Some (TAttempt AwaitAssertQueue) =>
          Some (exec (resume i;; connect_after_assertQueue r) s)
      | _ => None
      end
  | ChannelCloseSettled i r =>
      match tasks s !! i with
      | Some (TAttempt AwaitChannelClose) =>
          Some (exec (resume i;; catch_after_channel_close r) s)
      | _ => None
      end
  | ConnectionCloseSettled i r =>
      match tasks s !! i with
      | Some (TAttempt AwaitConnectionClose) =>
          Some (exec (resume i;; catch_after_connection_close r) s)
      | _ => None
      end
  | ProcessPromptSettled i r =>
      match tasks s !! i with
      | Some (TMessage msg) =>
          Some (exec (resume i;; on_message_after_process msg r) s)
      | _ => None
      end
  | TimerFired =>
      match timers s with
      | S n => Some (exec (set_timers n;; connectAndConsume) s)
      | O => None
      end
  | ConnectionError c err =>
      if bool_decide (c ∈ conn_listening s)
      then Some (exec (on_connection_error err) s)
      else None
  | ConnectionClose c =>
      if bool_decide (c ∈ conn_listening s)
      then Some (exec (forget_connection c;; on_connection_close) s)
      else None
  | ChannelError ch err =>
      if bool_decide (ch ∈ chan_listening s)
      then Some (exec (on_channel_error err) s)
      else None
  | ChannelClose ch =>
      if bool_decide (ch ∈ chan_listening s)
      then Some (exec (forget_channel ch;; on_channel_close) s)
      else None
  | Deliver ch delivery =>
      if bool_decide (ch ∈ consuming s)
      then Some (exec (on_message delivery) s)
      else None
  end.

Fixpoint run (s : Sys) (evs : list Event) : option Sys :=
  match evs with
  | [] => Some s
  | ev :: rest =>
      match step s ev with
      | Some s' => run s' rest
      | None => None
      end
  end.

(** The process right after the module is loaded. *)
Definition boot (provider service : bool) : Sys :=
  exec (main provider service) initial.

End WithPlatform.

(** *** Observations *)

Definition is_attempt (t : Task) : bool :=
  match t with TAttempt _ => true | TMessage _ => false end.

Definition in_flight (s : Sys) : nat :=
  length (List.filter is_attempt (tasks s)).

Definition emitted (s s' : Sys) : Trace := drop (length (trace s)) (trace s').

End Consumer.

(** ** Sample data *)

Module Demo.

(** An ASCII double quote. *)
Definition dq : string := String (Ascii.ascii_of_nat 34) EmptyString.

(** [{"promptText":"Hello AI"}] *)
Definition hello_json : string :=
  "{" +:+ dq +:+ "promptText" +:+ dq +:+ ":" +:+ dq +:+ "Hello AI" +:+ dq +:+ "}".

(** [{"promptText":""}] *)
Definition empty_body_json : string :=
  "{" +:+ dq +:+ "promptText" +:+ dq +:+ ":" +:+ dq +:+ dq +:+ "}".

(** A platform with [RABBITMQ_URL] unset, and the two JSON built-ins
    tabulated on the texts and objects used below.  On those they agree with
    the built-ins; the fallback entries ([JSON.parse] throwing, an empty
    object text) are reached by no example other than the text
    [{invalid json], which [JSON.parse] does reject. *)
Definition platform : Platform :=
  {| env_RABBITMQ_URL := None;
     JSON_parse := fun text =>
       if String.eqb text hello_json
       then Some (JObj [("promptText", JStr "Hello AI")])
       else if String.eqb text "{}" then Some (JObj [])
       else if String.eqb text "null" then Some JNull
       else None;
     JSON_stringify := fun message =>
       match message with
       | MkPayload (Some "Hello AI") None None None => hello_json
       | MkPayload (Some "") None None None => empty_body_json
       | _ => "{}"
       end |}.

Definition hello : PromptRequestPayload :=
  {| promptText := Some "Hello AI"; requestedModel := None;
     enhance := None; promptId := None |}.

Definition empty_body : PromptRequestPayload :=
  {| promptText := Some ""; requestedModel := None;
     enhance := None; promptId := None |}.

Definition nothing : PromptRequestPayload :=
  {| promptText := None; requestedModel := None;
     enhance := None; promptId := None |}.

Definition c1 : Conn := {| conn_id := 1; conn_inner_null := false |}.
Definition c2 : Conn := {| conn_id := 2; conn_inner_null := false |}.
Definition ch1 : Chan := {| chan_id := 1 |}.

Definition hello_msg : Message := {| content := hello_json; deliveryTag := 1 |}.
Definition broken_msg : Message := {| content := "{invalid json"; deliveryTag := 2 |}.
Definition empty_msg : Message := {| content := "{}"; deliveryTag := 3 |}.

(** The producer once its first connection attempt has gone through. *)
Definition producer_connected : option Producer.Sys :=
  Producer.run platform (Producer.boot platform)
    [Producer.ConnectSettled 0 (Ok c1);
     Producer.CreateChannelSettled 0 (Ok ch1);
     Producer.AssertQueueSettled 0 (Ok tt)].

(** The consumer once it is subscribed. *)
Definition consumer_subscribed : option Consumer.Sys :=
  Consumer.run platform (Consumer.boot platform true true)
    [Consumer.ConnectSettled 0 (Ok c1);
     Consumer.CreateChannelSettled 0 (Ok ch1);
     Consumer.AssertQueueSettled 0 (Ok tt)].

(** The same two processes as states. *)
Definition producer_ready : Producer.Sys :=
  default Producer.initial producer_connected.
Definition consumer_ready : Consumer.Sys :=
  default Consumer.initial consumer_subscribed.

Definition c3 : Conn := {| conn_id := 3; conn_inner_null := false |}.
Definition ch2 : Chan := {| chan_id := 2 |}.
Definition ch3 : Chan := {| chan_id := 3 |}.

(** The consumer after its connection dropped: the ['close'] listener has
    cleared both variables. *)
Definition consumer_dropped : Consumer.Sys :=
  exec Consumer.on_connection_close consumer_ready.

(** A run of the consumer that ends with a live subscription and a [null]
    channel variable.  The first attempt connects and fails to create its
    channel; its [catch] block closes the connection, whose ['close']
    listener schedules a retry, and then schedules its own: two timers.
    Both retries connect and subscribe, on [ch2] and on [ch3], and the
    variable holds [ch3].  Then the second connection drops: the variables
    are cleared while [ch2] still delivers. *)
Definition two_subscriptions_one_dropped : list Consumer.Event :=
  [Consumer.ConnectSettled 0 (Ok c1);
   Consumer.CreateChannelSettled 0 (Throw "channel refused");
   Consumer.ConnectionClose c1;
   Consumer.ConnectionCloseSettled 0 (Ok tt);
   Consumer.TimerFired;
   Consumer.TimerFired;
   Consumer.ConnectSettled 0 (Ok c2);
   Consumer.CreateChannelSettled 1 (Ok ch2);
   Consumer.AssertQueueSettled 1 (Ok tt);
   Consumer.ConnectSettled 0 (Ok c3);
   Consumer.CreateChannelSettled 0 (Ok ch3);
   Consumer.AssertQueueSettled 0 (Ok tt);
   Consumer.ChannelClose ch3;
   Consumer.ConnectionClose c3].

(** A run of the producer with two requests: the first is suspended on the
    queue assertion, the second is invalid, then the first is published. *)
Definition two_requests : list Producer.Event :=
  [Producer.ConnectSettled 0 (Ok c1);
   Producer.CreateChannelSettled 0 (Ok ch1);
   Producer.AssertQueueSettled 0 (Ok tt);
   Producer.Request hello;
   Producer.Request nothing;
   Producer.SubmitAssertSettled 0 (Ok tt) SendTrue].

(** What a run of the producer leaves to see: the answers given and the
    number of publish and connect calls made. *)
Definition producer_summary (s : Producer.Sys)
  : list (option Outcome) * nat * nat :=
  (responses (Producer.trace s), count is_publish (Producer.trace s),
   count is_connect (Producer.trace s)).

(** What a run of the consumer leaves to see: the two cached handles, the
    acknowledgements and discards, and the number of [processPrompt] calls. *)
Definition consumer_summary (s : Consumer.Sys)
  : option Conn * option Chan * Trace * nat :=
  (Consumer.connection s, Consumer.channel s,
   settlements (Consumer.trace s), count is_process (Consumer.trace s)).

End Demo.

(** ** Observations on runs *)

Module Watch.

(** The calls as the two files always make them: the one URL, the one
    queue, declared durable, published to persistently, consumed with manual
    acknowledgement, discarded without requeue, retried after the one
    delay; and the process is never exited. *)
Definition well_formed (P : Platform) (e : Effect) : Prop :=
  match e with
  | Connect url => url = RABBITMQ_URL P
  | AssertQueue _ queue durable => queue = QUEUE_NAME /\ durable = true
  | SendToQueue _ queue _ persistent => queue = QUEUE_NAME /\ persistent = true
  | Consume _ queue noAck => queue = QUEUE_NAME /\ noAck = false
  | Nack _ _ allUpTo requeue => allUpTo = false /\ requeue = false
  | SetTimeout ms => ms = RECONNECT_DELAY_MS
  | ProcessExit _ => False
  | _ => True
  end.

Definition is_timeout (e : Effect) : bool :=
  match e with SetTimeout _ => true | _ => false end.
Definition is_mount (e : Effect) : bool :=
  match e with MountRouter _ => true | _ => false end.
Definition is_accept (e : Effect) : bool :=
  match e with Respond 202 _ => true | _ => false end.
Definition is_ack (e : Effect) : bool :=
  match e with Ack _ _ => true | _ => false end.
Definition is_nack (e : Effect) : bool :=
  match e with Nack _ _ _ _ => true | _ => false end.
Definition is_consume (e : Effect) : bool :=
  match e with Consume _ _ _ => true | _ => false end.
Definition is_create (e : Effect) : bool :=
  match e with CreateChannel _ => true | _ => false end.

End Watch.

Module ProducerRun.
Import Producer.

(** The attempts suspended at [amqp.connect]. *)
Definition awaits_connect (t : Task) : bool :=
  match t with TConnect _ AwaitConnect => true | _ => false end.

(** The invocation [initializePromptRoutes] is waiting for. *)
Definition from_init (t : Task) : bool :=
  match t with TConnect FromInit _ => true | _ => false end.

(** What keeps the producer going: a pending retry, a connection that will
    report its end, or an attempt waiting for [amqp.connect]. *)
Definition prospects (s : Sys) : nat :=
  timers s + length (listening s) + length (List.filter awaits_connect (tasks s)).

(** The events of a run that make [connectToRabbitMQ] fail. *)
Definition is_failure (ev : Event) : bool :=
  match ev with
  | ConnectSettled _ (Throw _) | CreateChannelSettled _ (Throw _)
  | AssertQueueSettled _ (Throw _) => true
  | _ => false
  end.
Definition is_close (ev : Event) : bool :=
  match ev with ConnectionClose _ => true | _ => false end.
Definition is_timer (ev : Event) : bool :=
  match ev with TimerFired => true | _ => false end.

Definition occurrences (p : Event -> bool) (evs : list Event) : nat :=
  length (List.filter p evs).

End ProducerRun.

Module ConsumerRun.
Import Consumer.

Definition awaits_connect (t : Task) : bool :=
  match t with TAttempt AwaitConnect => true | _ => false end.

(** The attempts suspended inside the [catch] block. *)
Definition closing (t : Task) : bool :=
  match t with
  | TAttempt AwaitChannelClose | TAttempt AwaitConnectionClose => true
  | _ => false
  end.

Definition is_message (t : Task) : bool :=
  match t with TMessage _ => true | _ => false end.

(** What keeps the worker going: a pending retry, a connection that will
    report its end, an attempt waiting for [amqp.connect], or a [catch]
    block on its way to schedule a retry. *)
Definition prospects (s : Sys) : nat :=
  timers s + length (conn_listening s)
  + length (List.filter awaits_connect (tasks s))
  + length (List.filter closing (tasks s)).

(** The messages handed to the capability and not settled yet. *)
Definition in_process (s : Sys) : nat :=
  length (List.filter is_message (tasks s)).

(** The attempts suspended at [createChannel] and at [assertQueue]. *)
Definition awaits_create (t : Task) : bool :=
  match t with TAttempt AwaitCreateChannel => true | _ => false end.
Definition awaits_assert (t : Task) : bool :=
  match t with TAttempt AwaitAssertQueue => true | _ => false end.

(** A message handed to the callback, the capability settling, and the
    capability resolving. *)
Definition is_delivery (ev : Event) : bool :=
  match ev with Deliver _ (Some _) => true | _ => false end.
Definition is_outcome (ev : Event) : bool :=
  match ev with ProcessPromptSettled _ _ => true | _ => false end.
Definition is_resolution (ev : Event) : bool :=
  match ev with ProcessPromptSettled _ (Ok _) => true | _ => false end.
Definition is_timer (ev : Event) : bool :=
  match ev with TimerFired => true | _ => false end.
Definition is_close (ev : Event) : bool :=
  match ev with ConnectionClose _ => true | _ => false end.

Definition occurrences (p : Event -> bool) (evs : list Event) : nat :=
  length (List.filter p evs).

End ConsumerRun.

(** ** The message on the wire *)

Module Wire.

(** What [JSON.parse] makes of the text [JSON.stringify] made of a message:
    an object with the properties that are not [undefined], in the order
    the router lists them. *)
Definition field {A : Type} (k : string) (inj : A -> json) (v : option A)
  : list (string * json) :=
  match v with
  | Some a => [(k, inj a)]
  | None => []
  end.

Definition decoded (message : PromptRequestPayload) : json :=
  JObj (field "promptText" JStr (promptText message)
        ++ field "requestedModel" JStr (requestedModel message)
        ++ field "enhance" JBool (enhance message)
        ++ field "promptId" JStr (promptId message)).

(** The router's validation: [!promptText && !promptId]. *)
Definition rejected (req : PromptRequestPayload) : bool :=
  negb (truthy_string (promptText req)) && negb (truthy_string (promptId req)).

End Wire.

(** Runs to look at. *)
Module Runs.

(** The producer: the first attempt fails, the retry connects, a request is
    published, the connection closes, a request finds no channel. *)
Definition bumpy : list Producer.Event :=
  [Producer.ConnectSettled 0 (Throw "ECONNREFUSED");
   Producer.TimerFired;
   Producer.ConnectSettled 0 (Ok Demo.c1);
   Producer.CreateChannelSettled 0 (Ok Demo.ch1);
   Producer.AssertQueueSettled 0 (Ok tt);
   Producer.Request Demo.hello;
   Producer.SubmitAssertSettled 0 (Ok tt) SendTrue;
   Producer.ConnectionClose Demo.c1;
   Producer.Request Demo.hello].

Definition c4 : Conn := {| conn_id := 4; conn_inner_null := false |}.
Definition ch4 : Chan := {| chan_id := 4 |}.

(** The consumer: the first attempt fails at [createChannel], both retries
    subscribe and the second connection drops, which clears the variables;
    the surviving subscription delivers a message that is processed and,
    the channel variable being [null], not settled.  The next retry
    subscribes again, and a valid message, a broken one and one whose
    processing fails are handled. *)
Definition busy : list Consumer.Event :=
  Demo.two_subscriptions_one_dropped
  ++ [Consumer.Deliver Demo.ch2 (Some Demo.hello_msg);
      Consumer.ProcessPromptSettled 0 (Ok "done");
      Consumer.TimerFired;
      Consumer.ConnectSettled 0 (Ok c4);
      Consumer.CreateChannelSettled 0 (Ok ch4);
      Consumer.AssertQueueSettled 0 (Ok tt);
      Consumer.Deliver ch4 (Some Demo.hello_msg);
      Consumer.ProcessPromptSettled 0 (Ok "done");
      Consumer.Deliver ch4 (Some Demo.broken_msg);
      Consumer.Deliver ch4 (Some Demo.hello_msg);
      Consumer.ProcessPromptSettled 0 (Throw "LLM down")].

End Runs.

(** ** The prompt library lookup: [db.ts] *)

Module Db.

(** A row of the [prompts] table ([interface Prompt]); [created_at] is
    the timestamp in milliseconds. *)
Record Prompt : Type := MkPrompt {
  id : nat;
  name : string;
  prompt_text : string;
  model_provider : option string;
  model_name : option string;
  created_at : nat
}.

End Db.

(** ** The processing capability: [service.ts] and [llm_connector.ts] *)

Module Service.

(** A thrown value: an [Error] object with its message, or any other value,
    kept as a template string shows it. *)
Inductive thrown : Type :=
| ErrorObject (message : string)
| OtherValue (shown : string).

(** How an awaited call ends. *)
Inductive settled (A : Type) : Type :=
| Returns (a : A)
| Throws (e : thrown).
Arguments Returns {A} a.
Arguments Throws {A} e.

(** [`${error instanceof Error ? error.message : error}`] *)
Definition message_or_value (e : thrown) : string :=
  match e with
  | ErrorObject message => message
  | OtherValue shown => shown
  end.

(** [`${x}`] for [x : string | undefined], and for a boolean. *)
Definition show (x : option string) : string := default "undefined" x.
Definition show_bool (b : bool) : string := if b then "true" else "false".

(** The calls the two files make on their collaborators. *)
Inductive Call : Type :=
| ConsoleCall (level : Level) (text : string)
| LoggerCall (level : Level) (text : string)
| QueryCall (text : string) (params : list string)
| GenerateCompletionCall (prompt : string) (model : string)
| ChatCompletionsCreate (model : string) (prompt : string).

(** [interface LlmProvider]: [generateCompletion(prompt, model?)]. *)
Record LlmProvider : Type := MkLlmProvider {
  generateCompletion : string -> option string -> settled string
}.

(** An OpenAI chat completion, as far as [generateCompletion] reads it;
    [None] is a missing property ([undefined]) or [null]. *)
Record ChatMessage : Type := MkChatMessage { content : option string }.
Record Choice : Type := MkChoice { message : option ChatMessage }.
Record ChatCompletion : Type := MkChatCompletion {
  choices : option (list Choice)
}.

Definition is_log (c : Call) : bool :=
  match c with ConsoleCall _ _ | LoggerCall _ _ => true | _ => false end.
Definition is_query (c : Call) : bool :=
  match c with QueryCall _ _ => true | _ => false end.
Definition is_generate (c : Call) : bool :=
  match c with GenerateCompletionCall _ _ => true | _ => false end.

Definition lf : string := String (Ascii.ascii_of_nat 10) EmptyString.
Definition quote : string := String (Ascii.ascii_of_nat 34) EmptyString.

(** The text appended when [enhance] is set. *)
Definition ENHANCEMENT : string :=
  lf +:+ lf +:+ "Provide a detailed and comprehensive response. Ensure clarity and accuracy.".

Definition DEFAULT_MODEL : string := "gpt-3.5-turbo".

Section WithWorld.

(** [String.prototype.trim], and [pool.query] on the [prompts] table. *)
Variable trim : string -> string.
Variable query : string -> list string -> settled (list Db.Prompt).

(** *** [llm_connector.ts] *)

(** [completion.choices[0]?.message?.content]: indexing a missing [choices]
    throws a TypeError. *)
Definition first_content (completion : ChatCompletion)
  : settled (option string) :=
  match choices completion with
  | None => Throws (ErrorObject "Cannot read properties of undefined (reading '0')")
  | Some [] => Returns None
  | Some (choice :: _) =>
      Returns (match message choice with
               | None => None
               | Some m => content m
               end)
  end.

(** The [catch] block of [OpenAiLlmProvider.generateCompletion]. *)
Definition openai_catch (e : thrown) : list Call * settled string :=
  ([LoggerCall Error "Error generating completion from OpenAI:"],
   match e with
   | ErrorObject message =>
       Throws (ErrorObject ("OpenAI API request failed: " +:+ message))
   | OtherValue _ =>
       Throws (ErrorObject "OpenAI API request failed with an unknown error.")
   end).

(** [OpenAiLlmProvider.generateCompletion(prompt, model = 'gpt-3.5-turbo')];
    [create] is [openai.chat.completions.create]. *)
Definition openai_generateCompletion
    (create : string -> string -> settled ChatCompletion)
    (prompt : string) (model_arg : option string)
  : list Call * settled string :=
  let model := default DEFAULT_MODEL model_arg in
  let calls := [ChatCompletionsCreate model prompt] in
  match create model prompt with
  | Throws e => (calls ++ fst (openai_catch e), snd (openai_catch e))
  | Returns completion =>
      match first_content completion with
      | Throws e => (calls ++ fst (openai_catch e), snd (openai_catch e))
      | Returns None =>
          let e := ErrorObject "OpenAI API returned an empty or unexpected response." in
          (calls ++ fst (openai_catch e), snd (openai_catch e))
      | Returns (Some text) => (calls, Returns text)
      end
  end.

(** [OpenAiLlmProvider] as an [LlmProvider]. *)
Definition OpenAiLlmProvider
    (create : string -> string -> settled ChatCompletion) : LlmProvider :=
  {| generateCompletion := fun prompt model =>
       snd (openai_generateCompletion create prompt model) |}.

(** *** [db.ts] *)

(** [getPromptByName(name)]: the first row, or [null] when there is none. *)
Definition getPromptByName (name : string)
  : list Call * settled (option Db.Prompt) :=
  let text := "SELECT * FROM prompts WHERE name = $1" in
  ([QueryCall text [name]],
   match query text [name] with
   | Throws e => Throws e
   | Returns [] => Returns None
   | Returns (row :: _) => Returns (Some row)
   end).

(** *** [service.ts] *)

(** [currentPromptText] after [if (enhance) ...]. *)
Definition final_text (currentPromptText : option string) (enhance : bool)
  : option string :=
  if enhance then Some (show currentPromptText +:+ ENHANCEMENT)
  else currentPromptText.

(** [!currentPromptText || currentPromptText.trim() === ""] *)
Definition blank (text : option string) : bool :=
  negb (truthy_string text) || String.eqb (trim (show text)) "".

(** What the last [catch] block of [processPrompt] throws. *)
Definition send_catch (error : thrown) : settled string :=
  match error with
  | ErrorObject message =>
      Throws (ErrorObject
        ("Failed to process prompt and generate completion: " +:+ message))
  | OtherValue _ =>
      Throws (ErrorObject
        "Failed to process prompt and generate completion due to an unknown error.")
  end.

(** [processPrompt] from the enhancement on: the last [try] block and its
    [catch]. *)
Definition send_prompt (llm : LlmProvider) (currentPromptText : option string)
    (modelToUse : string) (enhance : bool) (calls : list Call)
  : list Call * settled string :=
  let currentPromptText := final_text currentPromptText enhance in
  let calls :=
    calls
    ++ (if enhance then [LoggerCall Info "Prompt enhancement applied."] else [])
    ++ [LoggerCall Info ("Selected LLM model: '" +:+ modelToUse +:+ "'.");
        LoggerCall Info ("Final prompt being sent to LLM: " +:+ quote
                         +:+ show currentPromptText +:+ quote)] in
  if blank currentPromptText then
    let errorMsg := "Final prompt text is empty or whitespace. Cannot send to LLM." in
    (calls ++ [LoggerCall Error errorMsg;
               LoggerCall Error "Error during prompt processing or LLM completion:"],
     send_catch (ErrorObject errorMsg))
  else
    let calls :=
      calls ++ [GenerateCompletionCall (show currentPromptText) modelToUse] in
    match generateCompletion llm (show currentPromptText) (Some modelToUse) with
    | Returns completion =>
        (calls ++ [LoggerCall Info "Prompt processed and completion received successfully."],
         Returns completion)
    | Throws e =>
        (calls ++ [LoggerCall Error "Error during prompt processing or LLM completion:"],
         send_catch e)
    end.

(** The [catch (dbError)] block: without a fallback text it throws, with one
    the call goes on with the text and model it had. *)
Definition lookup_catch (llm : LlmProvider) (promptText : option string)
    (modelToUse : string) (enhance : bool) (promptId : string)
    (dbError : thrown) (calls : list Call) : list Call * settled string :=
  let calls :=
    calls ++ [LoggerCall Error
      ("Error retrieving prompt '" +:+ promptId +:+ "' from database: "
       +:+ message_or_value dbError
       +:+ ". Proceeding with provided promptText if available.")] in
  if negb (truthy_string promptText) then
    (calls, Throws (ErrorObject
       ("Failed to retrieve prompt '" +:+ promptId
        +:+ "' from database and no fallback promptText provided.")))
  else send_prompt llm promptText modelToUse enhance calls.

(** [PromptService.processPrompt(promptText, requestedModel, enhance = false,
    promptId)], for a service constructed with [llmProvider]. *)
Definition processPrompt (llmProvider : option LlmProvider)
    (promptText requestedModel : option string) (enhance_arg : option bool)
    (promptId : option string) : list Call * settled string :=
  let enhance := default false enhance_arg in
  let calls :=
    [ConsoleCall Info
       ("Processing prompt: promptId='" +:+ show promptId +:+ "', enhance="
        +:+ show_bool enhance +:+ ", requestedModel='" +:+ show requestedModel
        +:+ "'")] in
  match llmProvider with
  | None =>
      let errorMessage := "LlmProvider is not available. Cannot process prompt." in
      (calls ++ [ConsoleCall Error errorMessage], Throws (ErrorObject errorMessage))
  | Some llm =>
      let modelToUse :=
        if truthy_string requestedModel then show requestedModel
        else DEFAULT_MODEL in
      if truthy_string promptId then
        let calls :=
          calls ++ [LoggerCall Info
            ("Attempting to retrieve prompt from database with name (promptId): '"
             +:+ show promptId +:+ "'")] in
        let calls := calls ++ fst (getPromptByName (show promptId)) in
        match snd (getPromptByName (show promptId)) with
        | Returns (Some dbPrompt) =>
            let currentPromptText :=
              Db.prompt_text dbPrompt
              +:+ (if truthy_string promptText then " " +:+ show promptText else "") in
            let calls :=
              calls ++ [LoggerCall Info
                ("Using prompt_text from database for prompt name '"
                 +:+ show promptId
                 +:+ "'. Original promptText (if any) was appended.")] in
            if truthy_string (Db.model_name dbPrompt)
               && negb (truthy_string requestedModel)
            then
              let modelToUse := show (Db.model_name dbPrompt) in
              send_prompt llm (Some currentPromptText) modelToUse enhance
                (calls ++ [LoggerCall Info
                   ("Using model_name '" +:+ modelToUse
                    +:+ "' from database prompt '" +:+ show promptId +:+ "'.")])
            else send_prompt llm (Some currentPromptText) modelToUse enhance calls
        | Returns None =>
            let calls :=
              calls ++ [LoggerCall Warn
                ("Prompt name '" +:+ show promptId
                 +:+ "' not found in database library. Using provided promptText if available.")] in
            if negb (truthy_string promptText) then
              lookup_catch llm promptText modelToUse enhance (show promptId)
                (ErrorObject ("Prompt name '" +:+ show promptId
                   +:+ "' not found in database and no fallback promptText provided."))
                calls
            else send_prompt llm promptText modelToUse enhance calls
        | Throws dbError =>
            lookup_catch llm promptText modelToUse enhance (show promptId)
              dbError calls
        end
      else if negb (truthy_string promptText) then
        let errorMessage :=
          "Cannot process prompt: Neither promptId nor promptText was provided." in
        (calls ++ [LoggerCall Error errorMessage], Throws (ErrorObject errorMessage))
      else send_prompt llm promptText modelToUse enhance calls
  end.

(** The library row [processPrompt] works with: the one [getPromptByName]
    resolves to, when [promptId] is given. *)
Definition library_prompt (promptId : option string) : option Db.Prompt :=
  if truthy_string promptId then
    match snd (getPromptByName (show promptId)) with
    | Returns (Some dbPrompt) => Some dbPrompt
    | _ => None
    end
  else None.

(** [modelToUse] and [currentPromptText] as the assignments of
    [processPrompt] leave them before the enhancement. *)
Definition selected_model (requestedModel promptId : option string) : string :=
  if truthy_string requestedModel then show requestedModel
  else match library_prompt promptId with
       | Some dbPrompt =>
           if truthy_string (Db.model_name dbPrompt)
           then show (Db.model_name dbPrompt) else DEFAULT_MODEL
       | None => DEFAULT_MODEL
       end.

Definition selected_text (promptText promptId : option string) : option string :=
  match library_prompt promptId with
  | Some dbPrompt =>
      Some (Db.prompt_text dbPrompt
            +:+ (if truthy_string promptText then " " +:+ show promptText else ""))
  | None => promptText
  end.

End WithWorld.

End Service.

(** ** What the modules do when they are loaded *)

Module Startup.
Import Service.

Section WithSdk.

(** [new OpenAI({ apiKey })]: the client's [chat.completions.create], or
    what the SDK's constructor throws. *)
Variable new_OpenAI
  : string -> settled (string -> string -> settled ChatCompletion).

(** [new OpenAiLlmProvider(apiKey)], with [process.env.OPENAI_API_KEY]. *)
Definition OpenAiLlmProvider_constructor
    (apiKey env_OPENAI_API_KEY : option string) : settled LlmProvider :=
  let key :=
    if truthy_string apiKey then show apiKey
    else if truthy_string env_OPENAI_API_KEY then show env_OPENAI_API_KEY
    else EmptyString in
  if negb (truthy_string (Some key)) then
    Throws (ErrorObject
      "OpenAI API key is not provided and not found in OPENAI_API_KEY environment variable.")
  else
    match new_OpenAI key with
    | Returns create => Returns (OpenAiLlmProvider create)
    | Throws e => Throws e
    end.

(** The [try] block at the end of [llm_connector.ts]: the value of
    [defaultOpenAiLlmProvider]. *)
Definition defaultOpenAiLlmProvider (env_OPENAI_API_KEY : option string)
  : list Call * option LlmProvider :=
  if truthy_string env_OPENAI_API_KEY then
    match OpenAiLlmProvider_constructor env_OPENAI_API_KEY env_OPENAI_API_KEY with
    | Returns provider =>
        ([LoggerCall Info "Default OpenAiLlmProvider initialized successfully."],
         Some provider)
    | Throws _ =>
        ([LoggerCall Warn "Failed to initialize Default OpenAiLlmProvider:"], None)
    end
  else
    ([LoggerCall Warn
        "OPENAI_API_KEY environment variable not set. Default OpenAiLlmProvider will not be available."],
     None).

(** [new PromptService(llmProvider)]: the service is its [llmProvider]
    field; the object itself is never [null]. *)
Definition PromptService_constructor (llmProvider : option LlmProvider)
  : list Call * option LlmProvider :=
  (match llmProvider with
   | Some _ => []
   | None =>
       [ConsoleCall Warn
          "PromptService initialized without a valid LlmProvider. Completions will not be available."]
   end,
   llmProvider).

(** The end of [service.ts]: [defaultPromptService]. *)
Definition defaultPromptService (env_OPENAI_API_KEY : option string)
  : list Call * option LlmProvider :=
  let provider := snd (defaultOpenAiLlmProvider env_OPENAI_API_KEY) in
  (fst (PromptService_constructor provider)
   ++ [match provider with
       | Some _ =>
           LoggerCall Info
             "Default PromptService initialized successfully with OpenAiLlmProvider."
       | None =>
           LoggerCall Warn
             "Default PromptService created, but defaultOpenAiLlmProvider is not available (likely missing API key). The service will not be functional until a valid LlmProvider is configured."
       end],
   snd (PromptService_constructor provider)).


End WithSdk.

End Startup.

(** Libraries and providers to run the capability on. *)
Module Library.

Definition empty : string -> list string -> Service.settled (list Db.Prompt) :=
  fun _ _ => Service.Returns [].
Definition unreachable : string -> list string -> Service.settled (list Db.Prompt) :=
  fun _ _ => Service.Throws (Service.ErrorObject "connection refused").
Definition echo : Service.LlmProvider :=
  Service.MkLlmProvider (fun prompt _ => Service.Returns prompt).

(** An SDK whose client answers every request with one choice that repeats
    the prompt. *)
Definition sdk
  : string -> Service.settled (string -> string -> Service.settled Service.ChatCompletion) :=
  fun _ => Service.Returns (fun _ prompt =>
    Service.Returns (Service.MkChatCompletion
      (Some [Service.MkChoice (Some (Service.MkChatMessage (Some prompt)))]))).

End Library.

(** ** Properties of the producer *)

Lemma producer_emitted_app (s s' : Producer.Sys) (t : Trace) :
  Producer.trace s' = Producer.trace s ++ t -> Producer.emitted s s' = t.
Proof.
  intros H. unfold Producer.emitted. rewrite H. apply drop_app_length.
Qed.

(** Unfold a producer handler on a symbolic state. *)
Ltac producer_unfold :=
  unfold exec, Producer.submit, Producer.submit_invalid,
    Producer.submit_unavailable, Producer.submit_try, Producer.submit_catch,
    Producer.submit_after_assertQueue, Producer.connectToRabbitMQ,
    Producer.on_connection_error, Producer.on_connection_close,
    Producer.setTimeout_connect, Producer.suspend, Producer.log,
    Producer.emit, Producer.set_tasks, Producer.set_timers,
    Producer.set_rabbitChannel, Producer.set_rabbitConnection,
    gets, modify, mbind, mret, M_bind, M_ret.

Ltac producer_run := do 3 (producer_unfold; cbn).

Lemma submit_missing_state (P : Platform) (s : Producer.Sys)
    (req : PromptRequestPayload) :
  truthy_string (promptText req) = false ->
  truthy_string (promptId req) = false ->
  exec (Producer.submit P req) s =
  Producer.MkSys (Producer.rabbitConnection s) (Producer.rabbitChannel s)
    (Producer.tasks s) (Producer.timers s) (Producer.listening s)
    (Producer.mounted s)
    (Producer.trace s ++
     [Log Info "Received POST /submit request with payload:";
      Log Warn "Invalid request to /submit: promptText or promptId is required.";
      Respond 400 (ErrorBody "Either promptText or promptId must be provided.")]).
Proof.
  intros Ht Hi. producer_run. rewrite Ht, Hi. cbn.
  rewrite <- ?app_assoc. reflexivity.
Qed.

(** C6.  A submission with neither a body nor a reference id is answered
    400 (Rejected), and the call touches the queue in no way: no broker call
    is made (no assert, no publish, no connect), nothing is left suspended
    or scheduled, and the cached handles are as they were. *)
Theorem submit_without_body_and_id_is_rejected (P : Platform)
    (s : Producer.Sys) (req : PromptRequestPayload) :
  promptText req = None ->
  promptId req = None ->
  let s' := exec (Producer.submit P req) s in
  responses (Producer.emitted s s')
    = [Some (Rejected "Either promptText or promptId must be provided.")] /\
  queue_calls (Producer.emitted s s') = [] /\
  count is_assert (Producer.emitted s s') = 0 /\
  count is_publish (Producer.emitted s s') = 0 /\
  count is_connect (Producer.emitted s s') = 0 /\
  Producer.tasks s' = Producer.tasks s /\
  Producer.timers s' = Producer.timers s /\
  Producer.rabbitConnection s' = Producer.rabbitConnection s /\
  Producer.rabbitChannel s' = Producer.rabbitChannel s.
Proof.
  intros Ht Hi s'.
  assert (E : Producer.emitted s s' =
    [Log Info "Received POST /submit request with payload:";
     Log Warn "Invalid request to /submit: promptText or promptId is required.";
     Respond 400 (ErrorBody "Either promptText or promptId must be provided.")]).
  { apply producer_emitted_app. subst s'.
    rewrite submit_missing_state by (rewrite ?Ht, ?Hi; reflexivity).
    reflexivity. }
  rewrite E. subst s'.
  rewrite submit_missing_state by (rewrite ?Ht, ?Hi; reflexivity).
  cbn. repeat split; reflexivity.
Qed.

Lemma submit_without_body_and_id_is_rejected_witness :
  responses (Producer.emitted Producer.initial
               (exec (Producer.submit Demo.platform Demo.nothing) Producer.initial))
    = [Some (Rejected "Either promptText or promptId must be provided.")] /\
  queue_calls (Producer.emitted Producer.initial
               (exec (Producer.submit Demo.platform Demo.nothing) Producer.initial))
    = [].
Proof.
  pose proof (submit_without_body_and_id_is_rejected Demo.platform
                Producer.initial Demo.nothing eq_refl eq_refl) as H.
  cbv zeta in H. destruct H as (H1 & H2 & _). split; assumption.
Defined.

(** The first segment of /submit when the request is valid and the channel
    check passes: the queue is re-asserted on the cached channel and the
    handler is suspended on that promise. *)
Lemma submit_available_state (P : Platform) (s : Producer.Sys)
    (req : PromptRequestPayload) (ch : Chan) :
  truthy_string (promptText req) || truthy_string (promptId req) = true ->
  Producer.rabbitChannel s = Some ch ->
  Producer.connection_unusable s = false ->
  exec (Producer.submit P req) s =
  Producer.MkSys (Producer.rabbitConnection s) (Producer.rabbitChannel s)
    (Producer.tasks s ++ [Producer.TSubmit req]) (Producer.timers s)
    (Producer.listening s) (Producer.mounted s)
    (Producer.trace s ++
     [Log Info "Received POST /submit request with payload:";
      AssertQueue ch QUEUE_NAME true]).
Proof.
  intros Hv Hch Hc. producer_run.
  replace (negb (truthy_string (promptText req))
           && negb (truthy_string (promptId req))) with false
    by (destruct (truthy_string (promptText req)),
                 (truthy_string (promptId req)); simpl in *; congruence).
  cbn. unfold Producer.channel_unavailable; cbn. rewrite Hch.
  unfold Producer.connection_unusable in *; cbn in *. rewrite Hc. cbn.
  rewrite <- ?app_assoc. destruct req; reflexivity.
Qed.

(** The first segment of /submit when the request is valid and the channel
    check fails. *)
Lemma submit_unavailable_state (P : Platform) (s : Producer.Sys)
    (req : PromptRequestPayload) :
  truthy_string (promptText req) || truthy_string (promptId req) = true ->
  Producer.channel_unavailable s = true ->
  exec (Producer.submit P req) s =
  if Producer.connection_unusable s then
    Producer.MkSys (Producer.rabbitConnection s) (Producer.rabbitChannel s)
      (Producer.tasks s ++ [Producer.TConnect Producer.FromSubmit Producer.AwaitConnect])
      (Producer.timers s) (Producer.listening s) (Producer.mounted s)
      (Producer.trace s ++
       [Log Info "Received POST /submit request with payload:";
        Log Error "RabbitMQ channel not available. Cannot publish message. Attempting to reconnect...";
        Log Info ("Attempting to connect to RabbitMQ at " +:+ RABBITMQ_URL P
                  +:+ " for API routes...");
        Connect (RABBITMQ_URL P);
        Respond 503 (ErrorBody "Service temporarily unavailable. Please try again later.")])
  else
    Producer.MkSys (Producer.rabbitConnection s) (Producer.rabbitChannel s)
      (Producer.tasks s) (Producer.timers s) (Producer.listening s)
      (Producer.mounted s)
      (Producer.trace s ++
       [Log Info "Received POST /submit request with payload:";
        Log Error "RabbitMQ channel not available. Cannot publish message. Attempting to reconnect...";
        Respond 503 (ErrorBody "Service temporarily unavailable. Please try again later.")]).
Proof.
  intros Hv Hu. producer_run.
  replace (negb (truthy_string (promptText req))
           && negb (truthy_string (promptId req))) with false
    by (destruct (truthy_string (promptText req)),
                 (truthy_string (promptId req)); simpl in *; congruence).
  cbn. unfold Producer.channel_unavailable, Producer.connection_unusable in *.
  destruct (Producer.rabbitChannel s) as [ch|],
    (Producer.rabbitConnection s) as [[n []]|];
    cbn in *; try discriminate; rewrite <- ?app_assoc; reflexivity.
Qed.

Lemma submit_after_assertQueue_state (P : Platform) (s : Producer.Sys)
    (message : PromptRequestPayload) (r : result unit) (send : SendResult) :
  exec (Producer.submit_after_assertQueue P message r send) s =
  Producer.MkSys (Producer.rabbitConnection s) (Producer.rabbitChannel s)
    (Producer.tasks s) (Producer.timers s) (Producer.listening s)
    (Producer.mounted s)
    (Producer.trace s ++ Producer.submit_second_trace P s message r send).
Proof.
  unfold Producer.submit_second_trace.
  destruct s as [c [ch|] ts n l m t], r as [[]|err], send;
    producer_run; rewrite <- ?app_assoc; reflexivity.
Qed.

Lemma submit_first_emitted_available (P : Platform) (s : Producer.Sys)
    (req : PromptRequestPayload) :
  truthy_string (promptText req) || truthy_string (promptId req) = true ->
  Producer.channel_unavailable s = false ->
  exists ch,
    Producer.rabbitChannel s = Some ch /\
    Producer.emitted s (exec (Producer.submit P req) s) =
      [Log Info "Received POST /submit request with payload:";
       AssertQueue ch QUEUE_NAME true] /\
    Producer.tasks (exec (Producer.submit P req) s) =
      Producer.tasks s ++ [Producer.TSubmit req].
Proof.
  intros Hv Hu. unfold Producer.channel_unavailable in Hu.
  destruct (Producer.rabbitChannel s) as [ch|] eqn:Hch; [|discriminate].
  exists ch. split; [reflexivity|].
  rewrite (submit_available_state P s req ch Hv Hch Hu).
  split; [apply producer_emitted_app|]; reflexivity.
Qed.

Lemma submit_second_emitted (P : Platform) (s : Producer.Sys)
    (message : PromptRequestPayload) (r : result unit) (send : SendResult) :
  Producer.emitted s (exec (Producer.submit_after_assertQueue P message r send) s)
  = Producer.submit_second_trace P s message r send.
Proof.
  rewrite submit_after_assertQueue_state. apply producer_emitted_app.
  reflexivity.
Qed.

(** C2, as the code has it.  A submission with a non-empty body and no
    reference id, made while a channel is available: the first segment
    re-asserts the queue on the cached channel and answers nothing yet.
    When that assertion resolves and a channel is still cached, the second
    segment makes exactly one publish call, persistent, whose payload is the
    JSON encoding of the input fields; the answer is Accepted when the
    publish returns true, Unavailable when it returns false, and the
    internal fault when it throws. *)
Theorem submit_asserts_then_publishes_once (P : Platform)
    (s s2 : Producer.Sys) (req : PromptRequestPayload) (ch2 : Chan)
    (send : SendResult) :
  truthy_string (promptText req) = true ->
  promptId req = None ->
  Producer.channel_unavailable s = false ->
  Producer.rabbitChannel s2 = Some ch2 ->
  let s1 := exec (Producer.submit P req) s in
  let s3 := exec (Producer.submit_after_assertQueue P req (Ok tt) send) s2 in
  (exists ch, Producer.rabbitChannel s = Some ch /\
     queue_calls (Producer.emitted s s1) = [AssertQueue ch QUEUE_NAME true]) /\
  responses (Producer.emitted s s1) = [] /\
  Producer.tasks s1 = Producer.tasks s ++ [Producer.TSubmit req] /\
  queue_calls (Producer.emitted s2 s3)
    = [SendToQueue ch2 QUEUE_NAME (JSON_stringify P req) true] /\
  responses (Producer.emitted s2 s3)
    = match send with
      | SendTrue => [Some Accepted]
      | SendFalse =>
          [Some (Unavailable "Service temporarily overloaded. Please try again.")]
      | SendThrows _ =>
          [Some (InternalFault "Failed to publish prompt request due to an internal error.")]
      end.
Proof.
  intros Ht Hi Hu Hch2 s1 s3. subst s1 s3.
  assert (Hv : truthy_string (promptText req) || truthy_string (promptId req) = true)
    by (rewrite Ht; reflexivity).
  destruct (submit_first_emitted_available P s req Hv Hu) as (ch & Hch & He & Hts).
  rewrite He, Hts, submit_second_emitted.
  unfold Producer.submit_second_trace. rewrite Hch2.
  repeat split.
  - exists ch. split; [assumption|reflexivity].
  - destruct send; reflexivity.
  - destruct send; reflexivity.
Qed.

Lemma submit_asserts_then_publishes_once_witness :
  queue_calls (Producer.emitted Demo.producer_ready
                 (exec (Producer.submit Demo.platform Demo.hello) Demo.producer_ready))
    = [AssertQueue Demo.ch1 QUEUE_NAME true] /\
  queue_calls (Producer.emitted Demo.producer_ready
                 (exec (Producer.submit_after_assertQueue Demo.platform Demo.hello
                          (Ok tt) SendTrue) Demo.producer_ready))
    = [SendToQueue Demo.ch1 QUEUE_NAME Demo.hello_json true] /\
  responses (Producer.emitted Demo.producer_ready
               (exec (Producer.submit_after_assertQueue Demo.platform Demo.hello
                        (Ok tt) SendTrue) Demo.producer_ready))
    = [Some Accepted].
Proof.
  pose proof (submit_asserts_then_publishes_once Demo.platform
                Demo.producer_ready Demo.producer_ready Demo.hello Demo.ch1
                SendTrue eq_refl eq_refl eq_refl eq_refl) as H.
  cbv zeta in H.
  destruct H as ((ch & Hch & H1) & _ & _ & H2 & H3).
  injection Hch as <-.
  split; [exact H1|]. split; [exact H2|exact H3].
Defined.

(** C2 fails as stated in two ways.  A body that is the empty string is
    treated as missing: the call is answered Rejected and nothing is
    published.  And when the queue re-assertion rejects, no publish call
    follows and the answer is the internal fault. *)
Lemma submit_with_body_may_not_publish :
  (promptText Demo.empty_body = Some "" /\
   promptId Demo.empty_body = None /\
   Producer.channel_unavailable Demo.producer_ready = false /\
   responses (Producer.emitted Demo.producer_ready
                (exec (Producer.submit Demo.platform Demo.empty_body)
                      Demo.producer_ready))
     = [Some (Rejected "Either promptText or promptId must be provided.")] /\
   queue_calls (Producer.emitted Demo.producer_ready
                  (exec (Producer.submit Demo.platform Demo.empty_body)
                        Demo.producer_ready)) = [] /\
   Producer.tasks (exec (Producer.submit Demo.platform Demo.empty_body)
                        Demo.producer_ready) = [])
  /\
  Demo.producer_summary <$>
    Producer.run Demo.platform (Producer.boot Demo.platform)
      [Producer.ConnectSettled 0 (Ok Demo.c1);
       Producer.CreateChannelSettled 0 (Ok Demo.ch1);
       Producer.AssertQueueSettled 0 (Ok tt);
       Producer.Request Demo.hello;
       Producer.SubmitAssertSettled 0 (Throw "PRECONDITION_FAILED") SendTrue]
  = Some ([Some (InternalFault "Failed to publish prompt request due to an internal error.")],
          0, 1).
Proof. vm_compute. repeat split. Qed.

(** C4, as the code has it.  A valid submission made while no usable channel
    is available is answered 503 (Unavailable) in the same segment, so
    nothing is awaited; a connection attempt is started, exactly one and left
    suspended on its own, when the cached connection handle is absent or its
    inner connection is null, and none is started otherwise. *)
Theorem submit_unavailable_nudges_when_connection_unusable (P : Platform)
    (s : Producer.Sys) (req : PromptRequestPayload) :
  truthy_string (promptText req) || truthy_string (promptId req) = true ->
  Producer.channel_unavailable s = true ->
  let s' := exec (Producer.submit P req) s in
  responses (Producer.emitted s s')
    = [Some (Unavailable "Service temporarily unavailable. Please try again later.")] /\
  count is_connect (Producer.emitted s s')
    = (if Producer.connection_unusable s then 1 else 0) /\
  Producer.tasks s'
    = Producer.tasks s ++
      (if Producer.connection_unusable s
       then [Producer.TConnect Producer.FromSubmit Producer.AwaitConnect]
       else []) /\
  Producer.timers s' = Producer.timers s.
Proof.
  intros Hv Hu s'. subst s'.
  rewrite (submit_unavailable_state P s req Hv Hu).
  destruct (Producer.connection_unusable s).
  - repeat split; try reflexivity;
      erewrite producer_emitted_app by reflexivity; reflexivity.
  - repeat split; try reflexivity;
      try (erewrite producer_emitted_app by reflexivity; reflexivity).
    cbn. rewrite app_nil_r. reflexivity.
Qed.

Lemma submit_unavailable_nudges_when_connection_unusable_witness :
  responses (Producer.emitted Producer.initial
               (exec (Producer.submit Demo.platform Demo.hello) Producer.initial))
    = [Some (Unavailable "Service temporarily unavailable. Please try again later.")] /\
  count is_connect (Producer.emitted Producer.initial
               (exec (Producer.submit Demo.platform Demo.hello) Producer.initial))
    = 1.
Proof.
  pose proof (submit_unavailable_nudges_when_connection_unusable Demo.platform
                Producer.initial Demo.hello eq_refl eq_refl) as H.
  cbv zeta in H. destruct H as (H1 & H2 & _). split; [exact H1|exact H2].
Defined.

(** C4 fails as stated when a connection handle is cached and healthy but
    the channel is not there yet.  The connection closes, the timer starts a
    new attempt, its [amqp.connect] resolves, and a request arrives before
    [createChannel] does: the answer is Unavailable and no further connect
    call is made (one by the first attempt, one by the timer's, none by the
    request). *)
Lemma submit_unavailable_without_nudge :
  truthy_string (promptText Demo.hello) = true /\
  (fun s => (Producer.rabbitConnection s, Producer.rabbitChannel s,
             Producer.channel_unavailable s, Demo.producer_summary s)) <$>
    Producer.run Demo.platform (Producer.boot Demo.platform)
      [Producer.ConnectSettled 0 (Ok Demo.c1);
       Producer.CreateChannelSettled 0 (Ok Demo.ch1);
       Producer.AssertQueueSettled 0 (Ok tt);
       Producer.ConnectionClose Demo.c1;
       Producer.TimerFired;
       Producer.ConnectSettled 0 (Ok Demo.c2)]
  = Some (Some Demo.c2, None, true, ([], 0, 2))
  /\
  Demo.producer_summary <$>
    Producer.run Demo.platform (Producer.boot Demo.platform)
      [Producer.ConnectSettled 0 (Ok Demo.c1);
       Producer.CreateChannelSettled 0 (Ok Demo.ch1);
       Producer.AssertQueueSettled 0 (Ok tt);
       Producer.ConnectionClose Demo.c1;
       Producer.TimerFired;
       Producer.ConnectSettled 0 (Ok Demo.c2);
       Producer.Request Demo.hello]
  = Some ([Some (Unavailable "Service temporarily unavailable. Please try again later.")],
          0, 2).
Proof. vm_compute. repeat split. Qed.

(** The two segments of a /submit call, seen from the caller: the first
    either answers once, Rejected or Unavailable, and suspends no publish, or
    answers nothing and suspends on the queue assertion; the second answers
    exactly once, Accepted, Unavailable or the internal fault. *)
Lemma submit_segments_answer (P : Platform)
    (s s2 : Producer.Sys) (req message : PromptRequestPayload)
    (r : result unit) (send : SendResult) :
  let s1 := exec (Producer.submit P req) s in
  let s3 := exec (Producer.submit_after_assertQueue P message r send) s2 in
  ((responses (Producer.emitted s s1) = [] /\
    Producer.tasks s1 = Producer.tasks s ++ [Producer.TSubmit req])
   \/
   ((exists reason, responses (Producer.emitted s s1) = [Some (Rejected reason)]
                    \/ responses (Producer.emitted s s1) = [Some (Unavailable reason)]) /\
    List.filter (fun t => negb (Producer.is_attempt t)) (Producer.tasks s1)
      = List.filter (fun t => negb (Producer.is_attempt t)) (Producer.tasks s)))
  /\
  (exists o, responses (Producer.emitted s2 s3) = [Some o] /\
     match o with Rejected _ => False | _ => True end) /\
  Producer.tasks s3 = Producer.tasks s2.
Proof.
  intros s1 s3. subst s1 s3. split; [|split].
  - destruct (truthy_string (promptText req) || truthy_string (promptId req)) eqn:Hv.
    + destruct (Producer.channel_unavailable s) eqn:Hu.
      * right. rewrite (submit_unavailable_state P s req Hv Hu).
        destruct (Producer.connection_unusable s);
          (split; [eexists; right; erewrite producer_emitted_app by reflexivity;
                   reflexivity|]).
        -- cbn. rewrite List.filter_app. cbn. rewrite app_nil_r. reflexivity.
        -- reflexivity.
      * left.
        destruct (submit_first_emitted_available P s req Hv Hu)
          as (ch & Hch & He & Hts).
        rewrite He, Hts. split; reflexivity.
    + right. apply orb_false_elim in Hv. destruct Hv as [Ht Hi].
      rewrite (submit_missing_state P s req Ht Hi). split.
      * eexists. left. erewrite producer_emitted_app by reflexivity. reflexivity.
      * reflexivity.
  - rewrite submit_second_emitted. unfold Producer.submit_second_trace.
    destruct r as [[]|err]; [destruct (Producer.rabbitChannel s2); [destruct send|]|];
      eexists; (split; [reflexivity|exact I]).
  - rewrite submit_after_assertQueue_state. reflexivity.
Qed.

(** *** Every request is answered once *)

Lemma responses_app (t1 t2 : Trace) :
  responses (t1 ++ t2) = responses t1 ++ responses t2.
Proof.
  induction t1 as [|e t1 IH]; [reflexivity|].
  destruct e; cbn; rewrite ?IH; reflexivity.
Qed.

Create HintDb quiet.

Lemma quiet_ret {A : Type} (a : A) : Producer.quiet (mret a).
Proof.
  intros s. exists []. cbn. rewrite app_nil_r. repeat split.
Qed.

Lemma quiet_bind {A B : Type} (m : M Producer.Sys A) (k : A -> M Producer.Sys B) :
  Producer.quiet m -> (forall a, Producer.quiet (k a)) -> Producer.quiet (m ≫= k).
Proof.
  intros Hm Hk s. unfold mbind, M_bind.
  destruct (Hm s) as (t1 & H1 & R1 & T1).
  destruct (m s) as [a s1] eqn:E. cbn in *.
  destruct (Hk a s1) as (t2 & H2 & R2 & T2).
  exists (t1 ++ t2). rewrite H2, H1, T2, T1, responses_app, R1, R2, app_assoc.
  repeat split.
Qed.

Lemma quiet_gets {A : Type} (f : Producer.Sys -> A) : Producer.quiet (gets f).
Proof.
  intros s. exists []. cbn. rewrite app_nil_r. repeat split.
Qed.

Lemma quiet_emit (e : Effect) :
  match e with Respond _ _ => False | _ => True end ->
  Producer.quiet (Producer.emit e).
Proof.
  intros He s. exists [e]. cbn. destruct e; try contradiction; repeat split.
Qed.

Lemma quiet_log (l : Level) (text : string) : Producer.quiet (Producer.log l text).
Proof. apply quiet_emit. exact I. Qed.

Lemma quiet_set_rabbitConnection c : Producer.quiet (Producer.set_rabbitConnection c).
Proof. intros s. exists []. cbn. rewrite app_nil_r. repeat split. Qed.

Lemma quiet_set_rabbitChannel ch : Producer.quiet (Producer.set_rabbitChannel ch).
Proof. intros s. exists []. cbn. rewrite app_nil_r. repeat split. Qed.

Lemma quiet_set_timers n : Producer.quiet (Producer.set_timers n).
Proof. intros s. exists []. cbn. rewrite app_nil_r. repeat split. Qed.

Lemma quiet_set_listening l : Producer.quiet (Producer.set_listening l).
Proof. intros s. exists []. cbn. rewrite app_nil_r. repeat split. Qed.

Lemma quiet_set_mounted b : Producer.quiet (Producer.set_mounted b).
Proof. intros s. exists []. cbn. rewrite app_nil_r. repeat split. Qed.

Lemma quiet_suspend_attempt o st :
  Producer.quiet (Producer.suspend (Producer.TConnect o st)).
Proof.
  intros s. exists []. producer_run. rewrite app_nil_r.
  unfold Producer.pending_submits. rewrite List.filter_app. cbn.
  rewrite app_nil_r. repeat split.
Qed.

#[local] Hint Resolve quiet_ret quiet_gets quiet_log quiet_set_rabbitConnection
  quiet_set_rabbitChannel quiet_set_timers quiet_set_listening
  quiet_set_mounted quiet_suspend_attempt : quiet.

Ltac quiet_step :=
  first [ solve [auto with quiet]
        | apply quiet_emit; exact I
        | apply quiet_bind; [|intros ?]
        | match goal with |- Producer.quiet (if ?b then _ else _) => destruct b end
        | match goal with |- Producer.quiet (match ?x with _ => _ end) => destruct x end ].

Ltac quiet_solve := repeat quiet_step.

Lemma quiet_setTimeout_connect : Producer.quiet Producer.setTimeout_connect.
Proof. unfold Producer.setTimeout_connect. quiet_solve. Qed.

Lemma quiet_on c ev : Producer.quiet (Producer.on c ev).
Proof. unfold Producer.on. quiet_solve. Qed.

Lemma quiet_forget c : Producer.quiet (Producer.forget c).
Proof. unfold Producer.forget. quiet_solve. Qed.

#[local] Hint Resolve quiet_setTimeout_connect quiet_on quiet_forget : quiet.

Lemma quiet_connect_return o : Producer.quiet (Producer.connect_return o).
Proof.
  unfold Producer.connect_return, Producer.initializePromptRoutes_rest.
  quiet_solve.
Qed.

#[local] Hint Resolve quiet_connect_return : quiet.

Lemma quiet_connect_catch o message :
  Producer.quiet (Producer.connect_catch o message).
Proof. unfold Producer.connect_catch. quiet_solve. Qed.

#[local] Hint Resolve quiet_connect_catch : quiet.

Lemma quiet_connectToRabbitMQ P o : Producer.quiet (Producer.connectToRabbitMQ P o).
Proof. unfold Producer.connectToRabbitMQ. quiet_solve. Qed.

Lemma quiet_connect_after_connect o r :
  Producer.quiet (Producer.connect_after_connect o r).
Proof. unfold Producer.connect_after_connect. quiet_solve. Qed.

Lemma quiet_connect_after_createChannel o r :
  Producer.quiet (Producer.connect_after_createChannel o r).
Proof. unfold Producer.connect_after_createChannel. quiet_solve. Qed.

Lemma quiet_connect_after_assertQueue o r :
  Producer.quiet (Producer.connect_after_assertQueue o r).
Proof. unfold Producer.connect_after_assertQueue. quiet_solve. Qed.

Lemma quiet_on_connection_error err :
  Producer.quiet (Producer.on_connection_error err).
Proof. unfold Producer.on_connection_error. quiet_solve. Qed.

Lemma quiet_on_connection_close : Producer.quiet Producer.on_connection_close.
Proof. unfold Producer.on_connection_close. quiet_solve. Qed.

#[local] Hint Resolve quiet_connectToRabbitMQ quiet_connect_after_connect
  quiet_connect_after_createChannel quiet_connect_after_assertQueue
  quiet_on_connection_error quiet_on_connection_close : quiet.

Lemma quiet_balance {A : Type} (h : M Producer.Sys A) (s : Producer.Sys) :
  Producer.quiet h -> Producer.balance (snd (h s)) = Producer.balance s.
Proof.
  intros Hq. destruct (Hq s) as (t & Ht & Hr & Hp).
  unfold Producer.balance, Producer.answered.
  rewrite Ht, Hp, responses_app, Hr, app_nil_r. reflexivity.
Qed.

Lemma pending_delete_attempt (ts : list Producer.Task) (i : nat) o st :
  ts !! i = Some (Producer.TConnect o st) ->
  Producer.pending_submits (delete i ts) = Producer.pending_submits ts.
Proof.
  revert i. induction ts as [|t ts IH]; intros [|i] H; try discriminate.
  - cbn in H. injection H as ->. reflexivity.
  - cbn in H. specialize (IH i H). unfold Producer.pending_submits in *.
    cbn. destruct (negb (Producer.is_attempt t)); cbn;
      first [exact IH | apply (f_equal S); exact IH].
Qed.

Lemma pending_delete_submit (ts : list Producer.Task) (i : nat) message :
  ts !! i = Some (Producer.TSubmit message) ->
  S (Producer.pending_submits (delete i ts)) = Producer.pending_submits ts.
Proof.
  revert i. induction ts as [|t ts IH]; intros [|i] H; try discriminate.
  - cbn in H. injection H as ->. reflexivity.
  - cbn in H. specialize (IH i H). unfold Producer.pending_submits in *.
    cbn. destruct (negb (Producer.is_attempt t)); cbn;
      first [exact IH | apply (f_equal S); exact IH].
Qed.

(** The state in which the [i]-th suspended invocation is taken up. *)
Lemma exec_resume_then {A : Type} (i : nat) (h : M Producer.Sys A)
    (s : Producer.Sys) :
  exec (Producer.resume i;; h) s = exec h (exec (Producer.resume i) s).
Proof. reflexivity. Qed.

Lemma resume_state (i : nat) (s : Producer.Sys) :
  exec (Producer.resume i) s
  = Producer.MkSys (Producer.rabbitConnection s) (Producer.rabbitChannel s)
      (delete i (Producer.tasks s)) (Producer.timers s)
      (Producer.listening s) (Producer.mounted s) (Producer.trace s).
Proof. reflexivity. Qed.

Lemma balance_resume_attempt (s : Producer.Sys) (i : nat) o st :
  Producer.tasks s !! i = Some (Producer.TConnect o st) ->
  Producer.balance (exec (Producer.resume i) s) = Producer.balance s.
Proof.
  intros E. rewrite resume_state. unfold Producer.balance, Producer.answered.
  cbn [Producer.tasks Producer.trace].
  rewrite (pending_delete_attempt _ _ _ _ E). reflexivity.
Qed.

Lemma balance_resume_submit (s : Producer.Sys) (i : nat) message :
  Producer.tasks s !! i = Some (Producer.TSubmit message) ->
  S (Producer.balance (exec (Producer.resume i) s)) = Producer.balance s.
Proof.
  intros E. rewrite resume_state. unfold Producer.balance, Producer.answered.
  cbn [Producer.tasks Producer.trace].
  rewrite <- (pending_delete_submit _ _ _ E). lia.
Qed.

Lemma balance_submit_after_assertQueue (P : Platform) (s : Producer.Sys)
    message r send :
  Producer.balance (exec (Producer.submit_after_assertQueue P message r send) s)
  = S (Producer.balance s).
Proof.
  rewrite submit_after_assertQueue_state.
  unfold Producer.balance, Producer.answered.
  cbn [Producer.tasks Producer.trace]. rewrite responses_app, length_app.
  assert (L : length (responses (Producer.submit_second_trace P s message r send)) = 1).
  { unfold Producer.submit_second_trace.
    destruct r as [[]|]; [destruct (Producer.rabbitChannel s); [destruct send|]|];
      reflexivity. }
  rewrite L. lia.
Qed.

Lemma balance_submit (P : Platform) (s : Producer.Sys)
    (req : PromptRequestPayload) :
  Producer.balance (exec (Producer.submit P req) s) = S (Producer.balance s).
Proof.
  destruct (truthy_string (promptText req) || truthy_string (promptId req)) eqn:Hv.
  - destruct (Producer.channel_unavailable s) eqn:Hu.
    + rewrite (submit_unavailable_state P s req Hv Hu).
      unfold Producer.balance, Producer.answered, Producer.pending_submits.
      destruct (Producer.connection_unusable s);
        cbn [Producer.tasks Producer.trace];
        rewrite responses_app, length_app, ?List.filter_app, ?length_app;
        cbn; lia.
    + destruct (submit_first_emitted_available P s req Hv Hu)
        as (ch & Hch & _ & _).
      unfold Producer.channel_unavailable in Hu. rewrite Hch in Hu.
      rewrite (submit_available_state P s req ch Hv Hch Hu).
      unfold Producer.balance, Producer.answered, Producer.pending_submits.
      cbn [Producer.tasks Producer.trace].
      rewrite responses_app, !length_app, List.filter_app, length_app.
      cbn. lia.
  - apply orb_false_elim in Hv. destruct Hv as [Ht Hi].
    rewrite (submit_missing_state P s req Ht Hi).
    unfold Producer.balance, Producer.answered.
    cbn [Producer.tasks Producer.trace].
    rewrite responses_app, length_app. cbn. lia.
Qed.

(** One turn of the event loop answers exactly the request it takes up or
    resumes: the balance grows by one on a request and is kept otherwise. *)
Lemma step_balance (P : Platform) (s s' : Producer.Sys) (ev : Producer.Event) :
  Producer.step P s ev = Some s' ->
  Producer.balance s'
  = Producer.balance s + (if Producer.is_request ev then 1 else 0).
Proof.
  destruct ev as [i r|i r|i r|i r send| |c err|c|req];
    cbn [Producer.step Producer.is_request]; rewrite ?Nat.add_0_r.
  - destruct (Producer.tasks s !! i) as [[o []|]|] eqn:E; try discriminate.
    intros [= <-]. rewrite exec_resume_then. unfold exec at 1.
    rewrite quiet_balance by auto with quiet.
    apply (balance_resume_attempt _ _ _ _ E).
  - destruct (Producer.tasks s !! i) as [[o []|]|] eqn:E; try discriminate.
    intros [= <-]. rewrite exec_resume_then. unfold exec at 1.
    rewrite quiet_balance by auto with quiet.
    apply (balance_resume_attempt _ _ _ _ E).
  - destruct (Producer.tasks s !! i) as [[o []|]|] eqn:E; try discriminate.
    intros [= <-]. rewrite exec_resume_then. unfold exec at 1.
    rewrite quiet_balance by auto with quiet.
    apply (balance_resume_attempt _ _ _ _ E).
  - destruct (Producer.tasks s !! i) as [[|message]|] eqn:E; try discriminate.
    intros [= <-]. rewrite exec_resume_then, balance_submit_after_assertQueue.
    rewrite (balance_resume_submit _ _ _ E). reflexivity.
  - destruct (Producer.timers s) as [|n] eqn:E; try discriminate.
    intros [= <-]. unfold exec.
    rewrite quiet_balance by (apply quiet_bind; auto with quiet).
    reflexivity.
  - destruct (bool_decide (c ∈ Producer.listening s)); try discriminate.
    intros [= <-]. unfold exec. rewrite quiet_balance by auto with quiet.
    reflexivity.
  - destruct (bool_decide (c ∈ Producer.listening s)); try discriminate.
    intros [= <-]. unfold exec.
    rewrite quiet_balance by (apply quiet_bind; auto with quiet).
    reflexivity.
  - destruct (Producer.mounted s); try discriminate. intros [= <-].
    rewrite balance_submit. lia.
Qed.

Lemma run_balance (P : Platform) (evs : list Producer.Event)
    (s s' : Producer.Sys) :
  Producer.run P s evs = Some s' ->
  Producer.balance s' = Producer.balance s + Producer.requests evs.
Proof.
  revert s. induction evs as [|ev evs IH]; intros s; cbn.
  - intros [= <-]. unfold Producer.requests. cbn. lia.
  - destruct (Producer.step P s ev) as [s1|] eqn:E; [|discriminate].
    intros H. rewrite (IH _ H), (step_balance _ _ _ _ E).
    unfold Producer.requests. cbn. destruct (Producer.is_request ev); cbn; lia.
Qed.

Lemma quiet_well_answered {A : Type} (h : M Producer.Sys A) (s : Producer.Sys) :
  Producer.quiet h ->
  Producer.well_answered s -> Producer.well_answered (snd (h s)).
Proof.
  intros Hq Hs. destruct (Hq s) as (t & Ht & Hr & _).
  unfold Producer.well_answered in *.
  rewrite Ht, responses_app, Hr, app_nil_r. exact Hs.
Qed.

Lemma well_answered_submit_after_assertQueue (P : Platform) (s : Producer.Sys)
    message r send :
  Producer.well_answered s ->
  Producer.well_answered
    (exec (Producer.submit_after_assertQueue P message r send) s).
Proof.
  intros Hs. rewrite submit_after_assertQueue_state.
  unfold Producer.well_answered in *. cbn [Producer.trace].
  rewrite responses_app. apply Forall_app. split; [exact Hs|].
  unfold Producer.submit_second_trace.
  destruct r as [[]|]; [destruct (Producer.rabbitChannel s); [destruct send|]|];
    cbn; repeat constructor; eexists; reflexivity.
Qed.

Lemma well_answered_submit (P : Platform) (s : Producer.Sys)
    (req : PromptRequestPayload) :
  Producer.well_answered s ->
  Producer.well_answered (exec (Producer.submit P req) s).
Proof.
  intros Hs. unfold Producer.well_answered in *.
  destruct (truthy_string (promptText req) || truthy_string (promptId req)) eqn:Hv.
  - destruct (Producer.channel_unavailable s) eqn:Hu.
    + rewrite (submit_unavailable_state P s req Hv Hu).
      destruct (Producer.connection_unusable s); cbn [Producer.trace];
        rewrite responses_app; apply Forall_app; (split; [exact Hs|]);
        cbn; repeat constructor; eexists; reflexivity.
    + destruct (submit_first_emitted_available P s req Hv Hu)
        as (ch & Hch & _ & _).
      unfold Producer.channel_unavailable in Hu. rewrite Hch in Hu.
      rewrite (submit_available_state P s req ch Hv Hch Hu).
      cbn [Producer.trace]. rewrite responses_app. cbn. rewrite app_nil_r.
      exact Hs.
  - apply orb_false_elim in Hv. destruct Hv as [Ht Hi].
    rewrite (submit_missing_state P s req Ht Hi). cbn [Producer.trace].
    rewrite responses_app. apply Forall_app. split; [exact Hs|].
    cbn. repeat constructor. eexists; reflexivity.
Qed.

Lemma step_well_answered (P : Platform) (s s' : Producer.Sys)
    (ev : Producer.Event) :
  Producer.step P s ev = Some s' ->
  Producer.well_answered s -> Producer.well_answered s'.
Proof.
  destruct ev as [i r|i r|i r|i r send| |c err|c|req]; cbn [Producer.step].
  - destruct (Producer.tasks s !! i) as [[o []|]|]; try discriminate.
    intros [= <-] Hs. rewrite exec_resume_then.
    apply quiet_well_answered; [auto with quiet|exact Hs].
  - destruct (Producer.tasks s !! i) as [[o []|]|]; try discriminate.
    intros [= <-] Hs. rewrite exec_resume_then.
    apply quiet_well_answered; [auto with quiet|exact Hs].
  - destruct (Producer.tasks s !! i) as [[o []|]|]; try discriminate.
    intros [= <-] Hs. rewrite exec_resume_then.
    apply quiet_well_answered; [auto with quiet|exact Hs].
  - destruct (Producer.tasks s !! i) as [[|message]|]; try discriminate.
    intros [= <-] Hs. rewrite exec_resume_then.
    apply well_answered_submit_after_assertQueue. exact Hs.
  - destruct (Producer.timers s) as [|n]; try discriminate.
    intros [= <-] Hs.
    apply quiet_well_answered; [apply quiet_bind; auto with quiet|exact Hs].
  - destruct (bool_decide (c ∈ Producer.listening s)); try discriminate.
    intros [= <-] Hs. apply quiet_well_answered; [auto with quiet|exact Hs].
  - destruct (bool_decide (c ∈ Producer.listening s)); try discriminate.
    intros [= <-] Hs.
    apply quiet_well_answered; [apply quiet_bind; auto with quiet|exact Hs].
  - destruct (Producer.mounted s); try discriminate. intros [= <-].
    apply well_answered_submit.
Qed.

Lemma run_well_answered (P : Platform) (evs : list Producer.Event)
    (s s' : Producer.Sys) :
  Producer.run P s evs = Some s' ->
  Producer.well_answered s -> Producer.well_answered s'.
Proof.
  revert s. induction evs as [|ev evs IH]; intros s; cbn.
  - intros [= <-] Hs. exact Hs.
  - destruct (Producer.step P s ev) as [s1|] eqn:E; [|discriminate].
    intros H Hs. apply (IH _ H). apply (step_well_answered _ _ _ _ E Hs).
Qed.

(** C8, as the code has it.  In every run of the producer from its start,
    each request is answered at most once, and exactly once unless its call
    is still suspended on the queue assertion: the answers given and the
    calls still suspended add up to the requests received.  Every answer is
    one of four outcomes: accepted, rejected, unavailable, or the internal
    fault. *)
Theorem submit_answers_once_with_one_of_four (P : Platform)
    (evs : list Producer.Event) (s : Producer.Sys) :
  Producer.run P (Producer.boot P) evs = Some s ->
  Producer.answered s + Producer.pending_submits (Producer.tasks s)
    = Producer.requests evs /\
  Forall (fun o => exists outcome : Outcome, o = Some outcome)
    (responses (Producer.trace s)).
Proof.
  intros H. split.
  - pose proof (run_balance P evs _ _ H) as B.
    unfold Producer.balance in B. rewrite B. reflexivity.
  - apply (run_well_answered P evs _ _ H).
    unfold Producer.well_answered. cbn. constructor.
Qed.

Lemma submit_answers_once_with_one_of_four_witness :
  exists s,
    Producer.run Demo.platform (Producer.boot Demo.platform) Demo.two_requests
      = Some s /\
    responses (Producer.trace s)
      = [Some (Rejected "Either promptText or promptId must be provided.");
         Some Accepted] /\
    Producer.answered s + Producer.pending_submits (Producer.tasks s)
      = Producer.requests Demo.two_requests.
Proof.
  destruct (Producer.run Demo.platform (Producer.boot Demo.platform)
              Demo.two_requests) as [s|] eqn:E.
  - exists s. split; [reflexivity|]. split.
    + vm_compute in E. injection E as <-. reflexivity.
    + exact (proj1 (submit_answers_once_with_one_of_four _ _ _ E)).
  - vm_compute in E. discriminate E.
Defined.

(** C8 fails as stated: when [sendToQueue] throws, the caller is answered
    500, which is none of accepted, rejected and unavailable. *)
Lemma submit_can_answer_internal_fault :
  Demo.producer_summary <$>
    Producer.run Demo.platform (Producer.boot Demo.platform)
      [Producer.ConnectSettled 0 (Ok Demo.c1);
       Producer.CreateChannelSettled 0 (Ok Demo.ch1);
       Producer.AssertQueueSettled 0 (Ok tt);
       Producer.Request Demo.hello;
       Producer.SubmitAssertSettled 0 (Ok tt) (SendThrows "Publishing failed")]
  = Some ([Some (InternalFault "Failed to publish prompt request due to an internal error.")],
          1, 1).
Proof. vm_compute. reflexivity. Qed.

(** C7 does not hold.  In the producer, the first attempt fails and its
    retry timer is pending; a request finds no connection and starts an
    attempt; a second request, or the timer, starts another while the first
    is still waiting for [amqp.connect]: two attempts are in flight.  Timers
    alone do it too, in both roles: when a connection closes while its
    attempt is still setting up, the ['close'] listener schedules a retry
    and the [catch] block of the attempt schedules another, and the two
    retries run side by side. *)
Theorem two_connection_attempts_in_flight :
  Producer.in_flight <$>
    Producer.run Demo.platform (Producer.boot Demo.platform)
      [Producer.ConnectSettled 0 (Throw "ECONNREFUSED");
       Producer.Request Demo.hello;
       Producer.Request Demo.hello]
  = Some 2
  /\
  Producer.in_flight <$>
    Producer.run Demo.platform (Producer.boot Demo.platform)
      [Producer.ConnectSettled 0 (Throw "ECONNREFUSED");
       Producer.Request Demo.hello;
       Producer.TimerFired]
  = Some 2
  /\
  Producer.in_flight <$>
    Producer.run Demo.platform (Producer.boot Demo.platform)
      [Producer.ConnectSettled 0 (Ok Demo.c1);
       Producer.ConnectionClose Demo.c1;
       Producer.CreateChannelSettled 0 (Throw "Connection closed");
       Producer.TimerFired;
       Producer.TimerFired]
  = Some 2
  /\
  Consumer.in_flight <$>
    Consumer.run Demo.platform (Consumer.boot Demo.platform true true)
      [Consumer.ConnectSettled 0 (Ok Demo.c1);
       Consumer.CreateChannelSettled 0 (Throw "channel refused");
       Consumer.ConnectionClose Demo.c1;
       Consumer.ConnectionCloseSettled 0 (Ok tt);
       Consumer.TimerFired;
       Consumer.TimerFired]
  = Some 2.
Proof. vm_compute. repeat split. Qed.

(** ** Properties of the consumer *)

Ltac consumer_unfold :=
  unfold exec, Consumer.on_message, Consumer.on_message_after_process,
    Consumer.message_catch, Consumer.ack_if_channel, Consumer.nack_if_channel,
    Consumer.on_connection_error, Consumer.on_connection_close,
    Consumer.on_channel_close, Consumer.startWorker, Consumer.main,
    Consumer.boot, Consumer.connectAndConsume,
    Consumer.setTimeout_connect, Consumer.suspend, Consumer.log,
    Consumer.emit, Consumer.set_tasks, Consumer.set_timers,
    Consumer.set_channel, Consumer.set_connection,
    gets, modify, mbind, mret, M_bind, M_ret.

Ltac consumer_run := do 3 (consumer_unfold; cbn).

(** Read off what a handler emitted on a state whose fields are explicit. *)
Ltac emitted_norm :=
  unfold Consumer.emitted, Producer.emitted; cbn;
  rewrite <- ?app_assoc;
  first [ rewrite drop_app_length | rewrite drop_all ]; cbn.

(** A payload that passes the check is an object or a primitive, so reading
    the four arguments of [processPrompt] cannot throw. *)
Lemma prompt_arguments_total (payload : json) (b : bool) :
  Consumer.lacks_prompt payload = Ok b ->
  exists text model enh id,
    Consumer.prompt_arguments payload = Ok (text, model, enh, id).
Proof.
  destruct payload; cbn; intros H; try discriminate;
    do 4 eexists; reflexivity.
Qed.

(** C3, as the code has it.  A message whose body [JSON.parse] rejects, or
    whose decoded value has no readable fields, or which decodes with
    neither a body nor a reference id, never reaches the processing
    capability and is not left suspended; it is discarded, once, by
    [nack] with [requeue = false], on the cached channel when there is one,
    and no settlement call is made when the cached channel is [null]. *)
Theorem invalid_message_is_discarded_unprocessed (P : Platform)
    (s : Consumer.Sys) (msg : Message) :
  (JSON_parse P (content msg) = None \/
   (exists payload e, JSON_parse P (content msg) = Some payload /\
                      Consumer.lacks_prompt payload = Throw e) \/
   (exists payload, JSON_parse P (content msg) = Some payload /\
                    Consumer.lacks_prompt payload = Ok true)) ->
  let s' := exec (Consumer.on_message P (Some msg)) s in
  count is_process (Consumer.emitted s s') = 0 /\
  Consumer.tasks s' = Consumer.tasks s /\
  settlements (Consumer.emitted s s')
    = match Consumer.channel s with
      | Some ch => [Nack ch msg false false]
      | None => []
      end.
Proof.
  intros H s'. subst s'.
  destruct s as [c ch ts n cl hl k t].
  destruct H as [H | [(payload & e & H & Hl) | (payload & H & Hl)]];
    consumer_run; rewrite H; cbn; rewrite ?Hl; cbn;
    destruct ch as [ch|]; consumer_run;
    (split; [|split]); try reflexivity; emitted_norm; reflexivity.
Qed.

Lemma invalid_message_is_discarded_unprocessed_witness :
  count is_process
    (Consumer.emitted Demo.consumer_ready
       (exec (Consumer.on_message Demo.platform (Some Demo.broken_msg))
             Demo.consumer_ready)) = 0 /\
  settlements
    (Consumer.emitted Demo.consumer_ready
       (exec (Consumer.on_message Demo.platform (Some Demo.broken_msg))
             Demo.consumer_ready))
  = [Nack Demo.ch1 Demo.broken_msg false false].
Proof.
  pose proof (invalid_message_is_discarded_unprocessed Demo.platform
                Demo.consumer_ready Demo.broken_msg (or_introl eq_refl)) as H.
  cbv zeta in H. destruct H as (H1 & _ & H2). split; [exact H1|exact H2].
Defined.

(** C3 fails as stated when the cached channel is [null].  After the
    connection dropped, the callback run on the undecodable message, and on
    the empty object, makes no [nack]; and in the run with two subscriptions
    the undecodable message delivered on the surviving channel is not
    discarded either. *)
Lemma invalid_message_not_discarded_without_channel :
  (Consumer.channel Demo.consumer_dropped = None /\
   JSON_parse Demo.platform (content Demo.broken_msg) = None /\
   settlements
     (Consumer.emitted Demo.consumer_dropped
        (exec (Consumer.on_message Demo.platform (Some Demo.broken_msg))
              Demo.consumer_dropped)) = [] /\
   JSON_parse Demo.platform (content Demo.empty_msg) = Some (JObj []) /\
   settlements
     (Consumer.emitted Demo.consumer_dropped
        (exec (Consumer.on_message Demo.platform (Some Demo.empty_msg))
              Demo.consumer_dropped)) = [])
  /\
  (fun s => (Consumer.consuming s, Demo.consumer_summary s)) <$>
    Consumer.run Demo.platform (Consumer.boot Demo.platform true true)
      Demo.two_subscriptions_one_dropped
  = Some ([Demo.ch2], (None, None, [], 0))
  /\
  Demo.consumer_summary <$>
    Consumer.run Demo.platform (Consumer.boot Demo.platform true true)
      (Demo.two_subscriptions_one_dropped
       ++ [Consumer.Deliver Demo.ch2 (Some Demo.broken_msg)])
  = Some (None, None, [], 0).
Proof. vm_compute. repeat split. Qed.

(** C1, as the code has it.  A message that decodes and carries a body or a
    reference id is handed to the processing capability once, with its four
    fields, and settled by no call while that runs.  When the capability settles, the message is
    settled by exactly one call on the channel cached at that moment: an
    [ack] if the capability resolved, a [nack] with [requeue = false] if it
    rejected; when no channel is cached at that moment, no settlement call
    is made. *)
Theorem valid_message_is_settled_by_outcome (P : Platform)
    (s s2 : Consumer.Sys) (msg : Message) (payload : json)
    (r : result string) :
  JSON_parse P (content msg) = Some payload ->
  Consumer.lacks_prompt payload = Ok false ->
  let s1 := exec (Consumer.on_message P (Some msg)) s in
  let s3 := exec (Consumer.on_message_after_process msg r) s2 in
  settlements (Consumer.emitted s s1) = [] /\
  (exists text model enh id,
     Consumer.prompt_arguments payload = Ok (text, model, enh, id) /\
     List.filter is_process (Consumer.emitted s s1)
       = [ProcessPrompt text model enh id]) /\
  Consumer.tasks s1 = Consumer.tasks s ++ [Consumer.TMessage msg] /\
  Consumer.tasks s3 = Consumer.tasks s2 /\
  settlements (Consumer.emitted s2 s3)
    = match Consumer.channel s2, r with
      | Some ch, Ok _ => [Ack ch msg]
      | Some ch, Throw _ => [Nack ch msg false false]
      | None, _ => []
      end.
Proof.
  intros Hp Hl s1 s3. subst s1 s3.
  destruct (prompt_arguments_total payload false Hl)
    as (text & model & enh & id & Ha).
  destruct s as [c ch ts n cl hl k t], s2 as [c2 ch2 ts2 n2 cl2 hl2 k2 t2].
  split; [|split; [|split; [|split]]].
  - consumer_run. rewrite Hp; cbn. rewrite Hl; cbn. rewrite Ha; cbn.
    emitted_norm. reflexivity.
  - exists text, model, enh, id. split; [exact Ha|].
    consumer_run. rewrite Hp; cbn. rewrite Hl; cbn. rewrite Ha; cbn.
    emitted_norm. reflexivity.
  - consumer_run. rewrite Hp; cbn. rewrite Hl; cbn. rewrite Ha; cbn.
    reflexivity.
  - destruct r, ch2; consumer_run; reflexivity.
  - destruct r, ch2; consumer_run; emitted_norm; reflexivity.
Qed.

Lemma valid_message_is_settled_by_outcome_witness :
  settlements
    (Consumer.emitted Demo.consumer_ready
       (exec (Consumer.on_message_after_process Demo.hello_msg (Ok "Processed successfully"))
             Demo.consumer_ready))
  = [Ack Demo.ch1 Demo.hello_msg] /\
  settlements
    (Consumer.emitted Demo.consumer_ready
       (exec (Consumer.on_message_after_process Demo.hello_msg (Throw "Service error"))
             Demo.consumer_ready))
  = [Nack Demo.ch1 Demo.hello_msg false false].
Proof.
  split.
  - pose proof (valid_message_is_settled_by_outcome Demo.platform
                  Demo.consumer_ready Demo.consumer_ready Demo.hello_msg
                  (JObj [("promptText", JStr "Hello AI")])
                  (Ok "Processed successfully") eq_refl eq_refl) as H.
    cbv zeta in H. destruct H as (_ & _ & _ & _ & H). exact H.
  - pose proof (valid_message_is_settled_by_outcome Demo.platform
                  Demo.consumer_ready Demo.consumer_ready Demo.hello_msg
                  (JObj [("promptText", JStr "Hello AI")])
                  (Throw "Service error") eq_refl eq_refl) as H.
    cbv zeta in H. destruct H as (_ & _ & _ & _ & H). exact H.
Defined.

(** C1 fails as stated when the channel closes while the capability runs:
    the valid message is delivered and dispatched, the channel's ['close']
    listener clears the variable, and when the capability resolves (or
    rejects) no [ack] and no [nack] is made. *)
Lemma valid_message_not_settled_after_channel_close :
  JSON_parse Demo.platform (content Demo.hello_msg)
    = Some (JObj [("promptText", JStr "Hello AI")]) /\
  Consumer.lacks_prompt (JObj [("promptText", JStr "Hello AI")]) = Ok false /\
  Demo.consumer_summary <$>
    Consumer.run Demo.platform (Consumer.boot Demo.platform true true)
      [Consumer.ConnectSettled 0 (Ok Demo.c1);
       Consumer.CreateChannelSettled 0 (Ok Demo.ch1);
       Consumer.AssertQueueSettled 0 (Ok tt);
       Consumer.Deliver Demo.ch1 (Some Demo.hello_msg);
       Consumer.ChannelClose Demo.ch1;
       Consumer.ProcessPromptSettled 0 (Ok "Processed successfully")]
  = Some (Some Demo.c1, None, [], 1)
  /\
  Demo.consumer_summary <$>
    Consumer.run Demo.platform (Consumer.boot Demo.platform true true)
      [Consumer.ConnectSettled 0 (Ok Demo.c1);
       Consumer.CreateChannelSettled 0 (Ok Demo.ch1);
       Consumer.AssertQueueSettled 0 (Ok tt);
       Consumer.Deliver Demo.ch1 (Some Demo.hello_msg);
       Consumer.ChannelClose Demo.ch1;
       Consumer.ProcessPromptSettled 0 (Throw "Service error")]
  = Some (Some Demo.c1, None, [], 1).
Proof. vm_compute. repeat split. Qed.

(** What the consume callback emits on a state with no cached channel has
    no settlement in it. *)
Lemma on_message_without_channel (P : Platform) (s : Consumer.Sys)
    (delivery : option Message) :
  Consumer.channel s = None ->
  settlements (Consumer.emitted s (exec (Consumer.on_message P delivery) s)) = [].
Proof.
  destruct s as [c ch ts n cl hl k t]; cbn. intros ->.
  destruct delivery as [msg|]; consumer_run; [|emitted_norm; reflexivity].
  destruct (JSON_parse P (content msg)) as [payload|]; cbn;
    [|emitted_norm; reflexivity].
  destruct (Consumer.lacks_prompt payload) as [[]|e] eqn:Hl; cbn;
    try (emitted_norm; reflexivity).
  destruct (prompt_arguments_total payload false Hl)
    as (text & model & enh & id & Ha).
  rewrite Ha; cbn. emitted_norm. reflexivity.
Qed.

(** C10.  With the cached channel [null], every settlement site is skipped
    without an error: the first segment of the callback (the [nack] of an
    invalid message, the [nack] of its [catch] block) emits no settlement,
    and the second segment logs as usual and emits neither [ack] nor
    [nack]. *)
Theorem null_channel_skips_settlement (P : Platform) (s : Consumer.Sys)
    (delivery : option Message) (msg : Message) (r : result string) :
  Consumer.channel s = None ->
  settlements (Consumer.emitted s (exec (Consumer.on_message P delivery) s)) = [] /\
  Consumer.emitted s (exec (Consumer.on_message_after_process msg r) s)
    = match r with
      | Ok _ =>
          [Log Info "Prompt processed successfully. Result:";
           Log Info "Message acknowledged."]
      | Throw _ =>
          [Log Error "Error processing message or in prompt service:";
           Log Warn "Message rejected (nack) due to processing error."]
      end.
Proof.
  intros Hch. split; [apply on_message_without_channel; assumption|].
  destruct s as [c ch ts n cl hl k t]; cbn in Hch; subst ch.
  destruct r; consumer_run; emitted_norm; reflexivity.
Qed.

Lemma null_channel_skips_settlement_witness :
  settlements
    (Consumer.emitted Demo.consumer_dropped
       (exec (Consumer.on_message Demo.platform (Some Demo.empty_msg))
             Demo.consumer_dropped)) = [] /\
  Consumer.emitted Demo.consumer_dropped
    (exec (Consumer.on_message_after_process Demo.hello_msg (Ok "Processed successfully"))
          Demo.consumer_dropped)
  = [Log Info "Prompt processed successfully. Result:";
     Log Info "Message acknowledged."].
Proof.
  exact (null_channel_skips_settlement Demo.platform Demo.consumer_dropped
           (Some Demo.empty_msg) Demo.hello_msg (Ok "Processed successfully")
           eq_refl).
Defined.

(** C9.  When the provider or the prompt service is missing, loading the
    module only logs a warning, and so does a direct call of [startWorker]:
    no connection is attempted, nothing is subscribed, suspended or
    scheduled, the process is not exited, and no event can ever reach the
    worker afterwards. *)
Theorem worker_does_not_start_without_capability (P : Platform)
    (provider service : bool) :
  provider && service = false ->
  let s := Consumer.boot P provider service in
  let s' := exec (Consumer.startWorker P provider service) Consumer.initial in
  (exists text, Consumer.trace s = [Log Warn text]) /\
  (exists text, Consumer.trace s' =
     [Log Info "Attempting to start Prompt Agent Worker..."; Log Warn text]) /\
  (Consumer.tasks s = [] /\ Consumer.timers s = 0 /\ Consumer.consuming s = []) /\
  (Consumer.tasks s' = [] /\ Consumer.timers s' = 0 /\ Consumer.consuming s' = []) /\
  (forall ev, Consumer.step P s ev = None) /\
  (forall ev, Consumer.step P s' ev = None).
Proof.
  intros H s s'. subst s s'.
  destruct provider, service; try discriminate; consumer_run;
    (split; [eexists; reflexivity|]); (split; [eexists; reflexivity|]);
    (split; [repeat split|]); (split; [repeat split|]);
    split; intros ev; destruct ev; vm_compute; reflexivity.
Qed.

Lemma worker_does_not_start_without_capability_witness :
  Consumer.trace (Consumer.boot Demo.platform false true)
  = [Log Warn "Prompt Agent Worker will not start. LlmProvider (OpenAI) or PromptService is not available. This is likely due to a missing OPENAI_API_KEY or other configuration issues."]
  /\
  Consumer.step Demo.platform (Consumer.boot Demo.platform false true)
    Consumer.TimerFired = None.
Proof.
  pose proof (worker_does_not_start_without_capability Demo.platform
                false true eq_refl) as H.
  cbv zeta in H. destruct H as ((text & Ht) & _ & _ & _ & Hs & _).
  split; [|apply Hs].
  rewrite Ht. vm_compute in Ht. injection Ht as <-. reflexivity.
Defined.

(** ** Both roles *)

(** C5, as the code has it.  The producer's connection ['error'] listener
    clears both cached handles, so the next channel check fails, and it
    schedules and starts nothing.  The consumer's only logs: both handles
    stay cached, and nothing is scheduled or started. *)
Theorem connection_error_listeners (sp : Producer.Sys) (sc : Consumer.Sys)
    (err : string) :
  let sp' := exec (Producer.on_connection_error err) sp in
  let sc' := exec (Consumer.on_connection_error err) sc in
  (Producer.rabbitConnection sp' = None /\
   Producer.rabbitChannel sp' = None /\
   Producer.channel_unavailable sp' = true /\
   Producer.timers sp' = Producer.timers sp /\
   Producer.tasks sp' = Producer.tasks sp /\
   Producer.emitted sp sp' = [Log Error "RabbitMQ connection error (API routes):"])
  /\
  (Consumer.connection sc' = Consumer.connection sc /\
   Consumer.channel sc' = Consumer.channel sc /\
   Consumer.timers sc' = Consumer.timers sc /\
   Consumer.tasks sc' = Consumer.tasks sc /\
   Consumer.emitted sc sc' = [Log Error "RabbitMQ connection error:"]).
Proof.
  intros sp' sc'. subst sp' sc'.
  destruct sp as [c ch ts n l m t], sc as [c' ch' ts' n' cl hl k t'].
  split.
  - producer_run. repeat split. emitted_norm. reflexivity.
  - consumer_run. repeat split. emitted_norm. reflexivity.
Qed.

(** C5 fails as stated for the consumer: after a connection error event on
    the subscribed worker, both handles are still cached. *)
Lemma consumer_keeps_handles_on_connection_error :
  Demo.consumer_summary <$>
    Consumer.run Demo.platform (Consumer.boot Demo.platform true true)
      [Consumer.ConnectSettled 0 (Ok Demo.c1);
       Consumer.CreateChannelSettled 0 (Ok Demo.ch1);
       Consumer.AssertQueueSettled 0 (Ok tt);
       Consumer.ConnectionError Demo.c1 "ECONNRESET"]
  = Some (Some Demo.c1, Some Demo.ch1, [], 0).
Proof. vm_compute. reflexivity. Qed.

(** ** Further properties: runs of the producer *)

Lemma count_append (p : Effect -> bool) (t1 t2 : Trace) :
  count p (t1 ++ t2) = count p t1 + count p t2.
Proof.
  induction t1 as [|e t1 IH]; simpl; [reflexivity|]. rewrite IH. lia.
Qed.

(** Every segment the producer's event loop can run, unfolded. *)
Ltac producer_open :=
  unfold exec, Producer.resume, Producer.forget,
    Producer.connect_after_connect, Producer.connect_after_createChannel,
    Producer.connect_after_assertQueue, Producer.connect_catch,
    Producer.connect_return, Producer.initializePromptRoutes_rest,
    Producer.initializePromptRoutes,
    Producer.submit, Producer.submit_invalid,
    Producer.submit_unavailable, Producer.submit_try, Producer.submit_catch,
    Producer.submit_after_assertQueue, Producer.connectToRabbitMQ,
    Producer.on_connection_error, Producer.on_connection_close,
    Producer.on, Producer.setTimeout_connect, Producer.suspend, Producer.log,
    Producer.emit, Producer.set_tasks, Producer.set_timers,
    Producer.set_listening, Producer.set_mounted,
    Producer.set_rabbitChannel, Producer.set_rabbitConnection,
    Producer.channel_unavailable, Producer.connection_unusable,
    gets, modify, mbind, mret, M_bind, M_ret in *.

(** Case analysis on whatever a segment branches on. *)
Ltac crunch_in H :=
  repeat (cbn in H;
    match type of H with
    | context [bool_decide ?Q] => destruct (bool_decide Q) eqn:?
    | context [@lookup _ _ _ _ ?i ?ts] => destruct (@lookup _ _ _ _ i ts) eqn:?
    | context [truthy_string ?o] => destruct (truthy_string o) eqn:?
    | context [match ?x with _ => _ end] => is_var x; destruct x
    | context [conn_inner_null ?x] => is_var x; destruct x
    end; try discriminate H).

(** A step of the producer, case by case: the state after it is explicit. *)
Ltac producer_step H :=
  match type of H with
  | Producer.step _ ?s ?ev = Some _ =>
      destruct s as [c ch ts n l m t]; destruct ev;
      cbn [Producer.step] in H; producer_open
  end;
  crunch_in H; injection H as <-; cbn.

Lemma filter_delete_length {A : Type} (p : A -> bool) (l : list A)
    (i : nat) (x : A) :
  l !! i = Some x ->
  length (List.filter p (delete i l)) + (if p x then 1 else 0)
  = length (List.filter p l).
Proof.
  revert i. induction l as [|y l IH]; intros [|i] H; try discriminate.
  - cbn in H. injection H as ->. cbn. destruct (p x); cbn; lia.
  - cbn in H. specialize (IH i H). cbn in *.
    destruct (p y); cbn in *; unfold delete in *; lia.
Qed.

Lemma listening_nonempty (c : Conn) (l : list Conn) :
  bool_decide (c ∈ l) = true -> 1 <= length l.
Proof.
  destruct l; cbn; [|lia]. intros H. apply bool_decide_eq_true in H.
  inversion H.
Qed.

(** What one turn of the producer's event loop does to the quantities
    followed below. *)
Lemma producer_step_facts (P : Platform) (s s' : Producer.Sys)
    (ev : Producer.Event) :
  Producer.step P s ev = Some s' ->
  (Forall (Watch.well_formed P) (Producer.trace s) ->
   Forall (Watch.well_formed P) (Producer.trace s')) /\
  count Watch.is_timeout (Producer.trace s')
    = count Watch.is_timeout (Producer.trace s)
      + (if ProducerRun.is_failure ev then 1 else 0)
      + (if ProducerRun.is_close ev then 1 else 0) /\
  Producer.timers s' + (if ProducerRun.is_timer ev then 1 else 0)
    = Producer.timers s
      + (if ProducerRun.is_failure ev then 1 else 0)
      + (if ProducerRun.is_close ev then 1 else 0) /\
  (1 <= ProducerRun.prospects s -> 1 <= ProducerRun.prospects s') /\
  count Watch.is_mount (Producer.trace s')
    + length (List.filter ProducerRun.from_init (Producer.tasks s'))
    = count Watch.is_mount (Producer.trace s)
      + length (List.filter ProducerRun.from_init (Producer.tasks s)) /\
  ((Producer.mounted s = true <-> 1 <= count Watch.is_mount (Producer.trace s)) ->
   (Producer.mounted s' = true <-> 1 <= count Watch.is_mount (Producer.trace s'))) /\
  count Watch.is_accept (Producer.trace s') + count is_publish (Producer.trace s)
    <= count Watch.is_accept (Producer.trace s) + count is_publish (Producer.trace s') /\
  count is_publish (Producer.trace s') + Producer.pending_submits (Producer.tasks s')
    <= count is_publish (Producer.trace s) + Producer.pending_submits (Producer.tasks s)
       + (if Producer.is_request ev then 1 else 0).
Proof.
  intros H. producer_step H;
    unfold ProducerRun.prospects, Producer.pending_submits;
    repeat match goal with
    | E : ?ts !! ?i = Some ?x |- _ =>
        pose proof (filter_delete_length ProducerRun.awaits_connect ts i x E);
        pose proof (filter_delete_length ProducerRun.from_init ts i x E);
        pose proof (filter_delete_length
                      (fun t => negb (Producer.is_attempt t)) ts i x E);
        clear E
    | E : bool_decide (_ ∈ _) = true |- _ =>
        apply listening_nonempty in E
    end;
    cbn in *; unfold delete in *;
    rewrite ?count_append, ?List.filter_app, ?length_app, ?Forall_app; cbn;
    repeat match goal with o : Producer.Origin |- _ => destruct o end;
    cbn in *;
    repeat split; intros;
    repeat match goal with
    | E : _ /\ _ |- _ => destruct E
    | E : _ <-> _ |- _ => destruct E
    end;
    first [ assumption | lia | discriminate | reflexivity
          | match goal with E : _ -> ?G |- ?G => apply E; lia end
          | match goal with E : ?A -> _, HA : ?A |- _ =>
              pose proof (E HA); lia end
          | solve [repeat constructor; auto] ].
Qed.

Lemma occurrences_cons {E : Type} (p : E -> bool) (ev : E) (evs : list E) :
  length (List.filter p (ev :: evs))
  = (if p ev then 1 else 0) + length (List.filter p evs).
Proof. cbn. destruct (p ev); reflexivity. Qed.

(** The same over a run. *)
Lemma producer_run_facts (P : Platform) (evs : list Producer.Event) :
  forall s s', Producer.run P s evs = Some s' ->
  (Forall (Watch.well_formed P) (Producer.trace s) ->
   Forall (Watch.well_formed P) (Producer.trace s')) /\
  count Watch.is_timeout (Producer.trace s')
    = count Watch.is_timeout (Producer.trace s)
      + ProducerRun.occurrences ProducerRun.is_failure evs
      + ProducerRun.occurrences ProducerRun.is_close evs /\
  Producer.timers s' + ProducerRun.occurrences ProducerRun.is_timer evs
    = Producer.timers s
      + ProducerRun.occurrences ProducerRun.is_failure evs
      + ProducerRun.occurrences ProducerRun.is_close evs /\
  (1 <= ProducerRun.prospects s -> 1 <= ProducerRun.prospects s') /\
  count Watch.is_mount (Producer.trace s')
    + length (List.filter ProducerRun.from_init (Producer.tasks s'))
    = count Watch.is_mount (Producer.trace s)
      + length (List.filter ProducerRun.from_init (Producer.tasks s)) /\
  ((Producer.mounted s = true <-> 1 <= count Watch.is_mount (Producer.trace s)) ->
   (Producer.mounted s' = true <-> 1 <= count Watch.is_mount (Producer.trace s'))) /\
  count Watch.is_accept (Producer.trace s') + count is_publish (Producer.trace s)
    <= count Watch.is_accept (Producer.trace s) + count is_publish (Producer.trace s') /\
  count is_publish (Producer.trace s') + Producer.pending_submits (Producer.tasks s')
    <= count is_publish (Producer.trace s) + Producer.pending_submits (Producer.tasks s)
       + Producer.requests evs.
Proof.
  induction evs as [|ev evs IH]; intros s s' H.
  - cbn in H. injection H as <-. unfold ProducerRun.occurrences, Producer.requests.
    cbn. repeat split; try tauto; try lia.
  - cbn [Producer.run] in H.
    destruct (Producer.step P s ev) as [s1|] eqn:E; [|discriminate].
    destruct (producer_step_facts P s s1 ev E)
      as (A1 & A2 & A3 & A4 & A5 & A6 & A7 & A8).
    destruct (IH s1 s' H) as (B1 & B2 & B3 & B4 & B5 & B6 & B7 & B8).
    unfold ProducerRun.occurrences, Producer.requests in *.
    rewrite !occurrences_cons.
    repeat split; try tauto; try lia.
Qed.

(** X1: in every run of the producer from start-up, each call it makes on
    the broker and on the timer has the one shape: [amqp.connect] on the
    configured URL, [assertQueue] on the task queue and durable,
    [sendToQueue] on the task queue and persistent, [setTimeout] with the
    five-second delay; and it never exits the process. *)
Theorem producer_calls_are_well_formed (P : Platform)
    (evs : list Producer.Event) (s : Producer.Sys) :
  Producer.run P (Producer.boot P) evs = Some s ->
  Forall (Watch.well_formed P) (Producer.trace s).
Proof.
  intros H. apply (producer_run_facts P evs _ _ H).
  cbn. repeat constructor.
Qed.

Lemma producer_calls_are_well_formed_witness :
  exists s,
    Producer.run Demo.platform (Producer.boot Demo.platform) Runs.bumpy = Some s /\
    Forall (Watch.well_formed Demo.platform) (Producer.trace s).
Proof.
  destruct (Producer.run Demo.platform (Producer.boot Demo.platform) Runs.bumpy)
    as [s|] eqn:E.
  - exists s. split; [reflexivity|].
    exact (producer_calls_are_well_formed _ _ _ E).
  - vm_compute in E. discriminate E.
Defined.

(** X2: the producer schedules one retry for each failure of a connection
    attempt (at [amqp.connect], [createChannel] or [assertQueue]) and one for
    each ['close'] of a connection, and none otherwise; the retries pending
    are those scheduled and not yet fired. *)
Theorem producer_retries_match_failures (P : Platform)
    (evs : list Producer.Event) (s : Producer.Sys) :
  Producer.run P (Producer.boot P) evs = Some s ->
  count Watch.is_timeout (Producer.trace s)
    = ProducerRun.occurrences ProducerRun.is_failure evs
      + ProducerRun.occurrences ProducerRun.is_close evs /\
  Producer.timers s + ProducerRun.occurrences ProducerRun.is_timer evs
    = ProducerRun.occurrences ProducerRun.is_failure evs
      + ProducerRun.occurrences ProducerRun.is_close evs.
Proof.
  intros H.
  destruct (producer_run_facts P evs _ _ H) as (_ & A2 & A3 & _).
  split; [exact A2|exact A3].
Qed.

Lemma producer_retries_match_failures_witness :
  exists s,
    Producer.run Demo.platform (Producer.boot Demo.platform) Runs.bumpy = Some s /\
    count Watch.is_timeout (Producer.trace s) = 2 /\
    Producer.timers s = 1.
Proof.
  destruct (Producer.run Demo.platform (Producer.boot Demo.platform) Runs.bumpy)
    as [s|] eqn:E.
  - exists s. split; [reflexivity|].
    destruct (producer_retries_match_failures _ _ _ E) as [H1 H2].
    split; [exact H1|]. cbn in H2. lia.
  - vm_compute in E. discriminate E.
Defined.

(** X3: the producer never comes to rest without a way back: in every state
    of every run from start-up a retry is pending, or a connection is open
    whose ['close'] will schedule one, or an attempt is waiting for
    [amqp.connect]. *)
Theorem producer_always_has_prospects (P : Platform)
    (evs : list Producer.Event) (s : Producer.Sys) :
  Producer.run P (Producer.boot P) evs = Some s ->
  1 <= ProducerRun.prospects s.
Proof.
  intros H. apply (producer_run_facts P evs _ _ H).
  vm_compute. lia.
Qed.

Lemma producer_always_has_prospects_witness :
  exists s,
    Producer.run Demo.platform (Producer.boot Demo.platform) Runs.bumpy = Some s /\
    1 <= ProducerRun.prospects s.
Proof.
  destruct (Producer.run Demo.platform (Producer.boot Demo.platform) Runs.bumpy)
    as [s|] eqn:E.
  - exists s. split; [reflexivity|].
    exact (producer_always_has_prospects _ _ _ E).
  - vm_compute in E. discriminate E.
Defined.

(** X4: [initializePromptRoutes] mounts the router exactly once, when the
    first connection attempt returns, whether it connected or failed, and
    never again: at any time either the first attempt is still suspended and
    the router is not mounted, or it has returned and the router was mounted
    once. *)
Theorem producer_mounts_router_once (P : Platform)
    (evs : list Producer.Event) (s : Producer.Sys) :
  Producer.run P (Producer.boot P) evs = Some s ->
  count Watch.is_mount (Producer.trace s)
    + length (List.filter ProducerRun.from_init (Producer.tasks s)) = 1 /\
  (Producer.mounted s = true <-> count Watch.is_mount (Producer.trace s) = 1).
Proof.
  intros H.
  destruct (producer_run_facts P evs _ _ H) as (_ & _ & _ & _ & A5 & A6 & _).
  assert (A : count Watch.is_mount (Producer.trace s)
              + length (List.filter ProducerRun.from_init (Producer.tasks s)) = 1)
    by exact A5.
  split; [exact A|].
  assert (B : Producer.mounted s = true
              <-> 1 <= count Watch.is_mount (Producer.trace s)).
  { apply A6. split; [discriminate|]. intros X. vm_compute in X. lia. }
  rewrite B. lia.
Qed.

Lemma producer_mounts_router_once_witness :
  exists s,
    Producer.run Demo.platform (Producer.boot Demo.platform)
      [Producer.ConnectSettled 0 (Throw "ECONNREFUSED")] = Some s /\
    Producer.mounted s = true /\
    count Watch.is_mount (Producer.trace s) = 1.
Proof.
  destruct (Producer.run Demo.platform (Producer.boot Demo.platform)
              [Producer.ConnectSettled 0 (Throw "ECONNREFUSED")]) as [s|] eqn:E.
  - exists s. split; [reflexivity|].
    destruct (producer_mounts_router_once _ _ _ E) as [H1 H2].
    assert (M : Producer.mounted s = true)
      by (vm_compute in E; injection E as <-; reflexivity).
    split; [exact M|]. apply H2. exact M.
  - vm_compute in E. discriminate E.
Defined.

(** X5: the producer answers 202 only for a message it has handed to
    [sendToQueue], and hands over at most one message per request: accepted
    answers never outnumber publish calls, and publish calls plus submit
    calls still suspended never outnumber the requests received. *)
Theorem producer_accepts_only_what_it_published (P : Platform)
    (evs : list Producer.Event) (s : Producer.Sys) :
  Producer.run P (Producer.boot P) evs = Some s ->
  count Watch.is_accept (Producer.trace s) <= count is_publish (Producer.trace s) /\
  count is_publish (Producer.trace s)
    + Producer.pending_submits (Producer.tasks s) <= Producer.requests evs.
Proof.
  intros H.
  destruct (producer_run_facts P evs _ _ H) as (_ & _ & _ & _ & _ & _ & A7 & A8).
  change (count Watch.is_accept (Producer.trace (Producer.boot P))) with 0 in A7.
  change (count is_publish (Producer.trace (Producer.boot P))) with 0 in A7, A8.
  change (Producer.pending_submits (Producer.tasks (Producer.boot P))) with 0 in A8.
  split; lia.
Qed.

Lemma producer_accepts_only_what_it_published_witness :
  exists s,
    Producer.run Demo.platform (Producer.boot Demo.platform) Runs.bumpy = Some s /\
    count Watch.is_accept (Producer.trace s) <= count is_publish (Producer.trace s).
Proof.
  destruct (Producer.run Demo.platform (Producer.boot Demo.platform) Runs.bumpy)
    as [s|] eqn:E.
  - exists s. split; [reflexivity|].
    exact (proj1 (producer_accepts_only_what_it_published _ _ _ E)).
  - vm_compute in E. discriminate E.
Defined.

(** ** Further properties: runs of the consumer *)

(** Every segment the consumer's event loop can run, unfolded. *)
Ltac consumer_open :=
  unfold exec, Consumer.resume, Consumer.forget_connection,
    Consumer.forget_channel,
    Consumer.connect_after_connect, Consumer.connect_after_createChannel,
    Consumer.connect_after_assertQueue, Consumer.connect_catch,
    Consumer.catch_after_channel_close, Consumer.catch_after_connection_close,
    Consumer.catch_connection, Consumer.catch_end,
    Consumer.connectAndConsume,
    Consumer.on_connection_error, Consumer.on_connection_close,
    Consumer.on_channel_error, Consumer.on_channel_close,
    Consumer.on_message, Consumer.on_message_after_process,
    Consumer.message_catch, Consumer.ack_if_channel, Consumer.nack_if_channel,
    Consumer.conn_on, Consumer.chan_on,
    Consumer.setTimeout_connect, Consumer.suspend, Consumer.log,
    Consumer.emit, Consumer.set_tasks, Consumer.set_timers,
    Consumer.set_conn_listening, Consumer.set_chan_listening,
    Consumer.set_consuming, Consumer.set_channel, Consumer.set_connection,
    gets, modify, mbind, mret, M_bind, M_ret in *.

Ltac consumer_crunch H :=
  repeat (cbn in H;
    match type of H with
    | context [bool_decide ?Q] => destruct (bool_decide Q) eqn:?
    | context [@lookup _ _ _ _ ?i ?ts] => destruct (@lookup _ _ _ _ i ts) eqn:?
    | context [JSON_parse ?P ?t] => destruct (JSON_parse P t)
    | context [Consumer.lacks_prompt ?j] =>
        destruct (Consumer.lacks_prompt j) as [[|]|]
    | context [Consumer.prompt_arguments ?j] =>
        destruct (Consumer.prompt_arguments j) as [[[[? ?] ?] ?]|]
    | context [match ?x with _ => _ end] => is_var x; destruct x
    end; try discriminate H).

(** A step of the consumer, case by case: the state after it is explicit. *)
Ltac consumer_step H :=
  match type of H with
  | Consumer.step _ ?s ?ev = Some _ =>
      destruct s as [c ch ts n l lc k t]; destruct ev;
      cbn [Consumer.step] in H; consumer_open
  end;
  consumer_crunch H; injection H as <-; cbn.

(** What one turn of the worker's event loop does to the quantities
    followed below. *)
Lemma consumer_step_facts (P : Platform) (s s' : Consumer.Sys)
    (ev : Consumer.Event) :
  Consumer.step P s ev = Some s' ->
  (Forall (Watch.well_formed P) (Consumer.trace s) ->
   Forall (Watch.well_formed P) (Consumer.trace s')) /\
  (1 <= ConsumerRun.prospects s -> 1 <= ConsumerRun.prospects s') /\
  (count Watch.is_ack (Consumer.trace s')
     <= count Watch.is_ack (Consumer.trace s)
        + (if ConsumerRun.is_resolution ev then 1 else 0) /\
   count Watch.is_ack (Consumer.trace s') + count Watch.is_nack (Consumer.trace s')
     + ConsumerRun.in_process s'
     <= count Watch.is_ack (Consumer.trace s) + count Watch.is_nack (Consumer.trace s)
        + ConsumerRun.in_process s
        + (if ConsumerRun.is_delivery ev then 1 else 0) /\
   count is_process (Consumer.trace s') + ConsumerRun.in_process s
     = count is_process (Consumer.trace s) + ConsumerRun.in_process s'
       + (if ConsumerRun.is_outcome ev then 1 else 0)) /\
  (Consumer.timers s' + (if ConsumerRun.is_timer ev then 1 else 0)
     + count Watch.is_timeout (Consumer.trace s)
     = Consumer.timers s + count Watch.is_timeout (Consumer.trace s') /\
   count is_connect (Consumer.trace s')
     = count is_connect (Consumer.trace s)
       + (if ConsumerRun.is_timer ev then 1 else 0) /\
   count is_connect (Consumer.trace s')
     + (if ConsumerRun.is_close ev then 1 else 0)
     + Consumer.in_flight s + count Watch.is_consume (Consumer.trace s)
     + count Watch.is_timeout (Consumer.trace s)
     = count is_connect (Consumer.trace s)
       + Consumer.in_flight s' + count Watch.is_consume (Consumer.trace s')
       + count Watch.is_timeout (Consumer.trace s')) /\
  (count Watch.is_consume (Consumer.trace s')
     + length (List.filter ConsumerRun.awaits_assert (Consumer.tasks s'))
     + count is_assert (Consumer.trace s)
     <= count Watch.is_consume (Consumer.trace s)
        + length (List.filter ConsumerRun.awaits_assert (Consumer.tasks s))
        + count is_assert (Consumer.trace s') /\
   count is_assert (Consumer.trace s')
     + length (List.filter ConsumerRun.awaits_create (Consumer.tasks s'))
     + count Watch.is_create (Consumer.trace s)
     <= count is_assert (Consumer.trace s)
        + length (List.filter ConsumerRun.awaits_create (Consumer.tasks s))
        + count Watch.is_create (Consumer.trace s') /\
   count Watch.is_create (Consumer.trace s')
     + length (List.filter ConsumerRun.awaits_connect (Consumer.tasks s'))
     + count is_connect (Consumer.trace s)
     <= count Watch.is_create (Consumer.trace s)
        + length (List.filter ConsumerRun.awaits_connect (Consumer.tasks s))
        + count is_connect (Consumer.trace s')).
Proof.
  intros H. consumer_step H;
    unfold ConsumerRun.prospects, ConsumerRun.in_process, Consumer.in_flight;
    repeat match goal with
    | E : ?ts !! ?i = Some ?x |- _ =>
        pose proof (filter_delete_length ConsumerRun.awaits_connect ts i x E);
        pose proof (filter_delete_length ConsumerRun.awaits_create ts i x E);
        pose proof (filter_delete_length ConsumerRun.awaits_assert ts i x E);
        pose proof (filter_delete_length ConsumerRun.closing ts i x E);
        pose proof (filter_delete_length ConsumerRun.is_message ts i x E);
        pose proof (filter_delete_length Consumer.is_attempt ts i x E);
        clear E
    | E : bool_decide (_ ∈ _) = true |- _ =>
        apply listening_nonempty in E
    | E : bool_decide (_ ∈ _) = false |- _ => clear E
    end;
    cbn in *; unfold delete in *;
    rewrite ?count_append, ?List.filter_app, ?length_app, ?Forall_app; cbn;
    repeat split; intros;
    repeat match goal with
    | E : _ /\ _ |- _ => destruct E
    end;
    first [ assumption | lia | discriminate | reflexivity
          | solve [repeat constructor; auto] ].
Qed.

(** The same over a run. *)
Lemma consumer_run_facts (P : Platform) (evs : list Consumer.Event) :
  forall s s', Consumer.run P s evs = Some s' ->
  (Forall (Watch.well_formed P) (Consumer.trace s) ->
   Forall (Watch.well_formed P) (Consumer.trace s')) /\
  (1 <= ConsumerRun.prospects s -> 1 <= ConsumerRun.prospects s') /\
  (count Watch.is_ack (Consumer.trace s')
     <= count Watch.is_ack (Consumer.trace s)
        + ConsumerRun.occurrences ConsumerRun.is_resolution evs /\
   count Watch.is_ack (Consumer.trace s') + count Watch.is_nack (Consumer.trace s')
     + ConsumerRun.in_process s'
     <= count Watch.is_ack (Consumer.trace s) + count Watch.is_nack (Consumer.trace s)
        + ConsumerRun.in_process s
        + ConsumerRun.occurrences ConsumerRun.is_delivery evs /\
   count is_process (Consumer.trace s') + ConsumerRun.in_process s
     = count is_process (Consumer.trace s) + ConsumerRun.in_process s'
       + ConsumerRun.occurrences ConsumerRun.is_outcome evs) /\
  (Consumer.timers s' + ConsumerRun.occurrences ConsumerRun.is_timer evs
     + count Watch.is_timeout (Consumer.trace s)
     = Consumer.timers s + count Watch.is_timeout (Consumer.trace s') /\
   count is_connect (Consumer.trace s')
     = count is_connect (Consumer.trace s)
       + ConsumerRun.occurrences ConsumerRun.is_timer evs /\
   count is_connect (Consumer.trace s')
     + ConsumerRun.occurrences ConsumerRun.is_close evs
     + Consumer.in_flight s + count Watch.is_consume (Consumer.trace s)
     + count Watch.is_timeout (Consumer.trace s)
     = count is_connect (Consumer.trace s)
       + Consumer.in_flight s' + count Watch.is_consume (Consumer.trace s')
       + count Watch.is_timeout (Consumer.trace s')) /\
  (count Watch.is_consume (Consumer.trace s')
     + length (List.filter ConsumerRun.awaits_assert (Consumer.tasks s'))
     + count is_assert (Consumer.trace s)
     <= count Watch.is_consume (Consumer.trace s)
        + length (List.filter ConsumerRun.awaits_assert (Consumer.tasks s))
        + count is_assert (Consumer.trace s') /\
   count is_assert (Consumer.trace s')
     + length (List.filter ConsumerRun.awaits_create (Consumer.tasks s'))
     + count Watch.is_create (Consumer.trace s)
     <= count is_assert (Consumer.trace s)
        + length (List.filter ConsumerRun.awaits_create (Consumer.tasks s))
        + count Watch.is_create (Consumer.trace s') /\
   count Watch.is_create (Consumer.trace s')
     + length (List.filter ConsumerRun.awaits_connect (Consumer.tasks s'))
     + count is_connect (Consumer.trace s)
     <= count Watch.is_create (Consumer.trace s)
        + length (List.filter ConsumerRun.awaits_connect (Consumer.tasks s))
        + count is_connect (Consumer.trace s')).
Proof.
  induction evs as [|ev evs IH]; intros s s' H.
  - cbn in H. injection H as <-. unfold ConsumerRun.occurrences.
    cbn. repeat split; try tauto; try lia.
  - cbn [Consumer.run] in H.
    destruct (Consumer.step P s ev) as [s1|] eqn:E; [|discriminate].
    destruct (consumer_step_facts P s s1 ev E)
      as (A1 & A2 & (A3 & A4 & A5) & (A6 & A7 & A8) & (A9 & A10 & A11)).
    destruct (IH s1 s' H)
      as (B1 & B2 & (B3 & B4 & B5) & (B6 & B7 & B8) & (B9 & B10 & B11)).
    unfold ConsumerRun.occurrences in *.
    rewrite !occurrences_cons.
    repeat split; try tauto; try lia.
Qed.

(** X6: in every run of the worker, whatever the capabilities at start-up,
    each call it makes has the one shape: [amqp.connect] on the configured
    URL, [assertQueue] on the task queue and durable, [consume] on the task
    queue with manual acknowledgement, [nack] of the one message and never
    to requeue it, [setTimeout] with the five-second delay; and it never
    exits the process. *)
Theorem consumer_calls_are_well_formed (P : Platform) (provider service : bool)
    (evs : list Consumer.Event) (s : Consumer.Sys) :
  Consumer.run P (Consumer.boot P provider service) evs = Some s ->
  Forall (Watch.well_formed P) (Consumer.trace s).
Proof.
  intros H. apply (consumer_run_facts P evs _ _ H).
  destruct provider, service; cbn; repeat constructor.
Qed.

Lemma consumer_calls_are_well_formed_witness :
  exists s,
    Consumer.run Demo.platform (Consumer.boot Demo.platform true true) Runs.busy
      = Some s /\
    Forall (Watch.well_formed Demo.platform) (Consumer.trace s).
Proof.
  destruct (Consumer.run Demo.platform (Consumer.boot Demo.platform true true)
              Runs.busy) as [s|] eqn:E.
  - exists s. split; [reflexivity|].
    exact (consumer_calls_are_well_formed _ _ _ _ _ E).
  - vm_compute in E. discriminate E.
Defined.

(** X7: a worker that started never comes to rest without a way back: in
    every state of every run a retry is pending, or a connection is open
    whose ['close'] will schedule one, or an attempt is waiting for
    [amqp.connect], or a [catch] block is on its way to schedule one. *)
Theorem consumer_always_has_prospects (P : Platform)
    (evs : list Consumer.Event) (s : Consumer.Sys) :
  Consumer.run P (Consumer.boot P true true) evs = Some s ->
  1 <= ConsumerRun.prospects s.
Proof.
  intros H. apply (consumer_run_facts P evs _ _ H).
  vm_compute. lia.
Qed.

Lemma consumer_always_has_prospects_witness :
  exists s,
    Consumer.run Demo.platform (Consumer.boot Demo.platform true true) Runs.busy
      = Some s /\
    1 <= ConsumerRun.prospects s.
Proof.
  destruct (Consumer.run Demo.platform (Consumer.boot Demo.platform true true)
              Runs.busy) as [s|] eqn:E.
  - exists s. split; [reflexivity|].
    exact (consumer_always_has_prospects _ _ _ E).
  - vm_compute in E. discriminate E.
Defined.

Lemma consumer_boot_quantities (P : Platform) (provider service : bool) :
  let s := Consumer.boot P provider service in
  count Watch.is_ack (Consumer.trace s) = 0 /\
  count Watch.is_nack (Consumer.trace s) = 0 /\
  count is_process (Consumer.trace s) = 0 /\
  ConsumerRun.in_process s = 0 /\
  Consumer.timers s = 0 /\
  count Watch.is_timeout (Consumer.trace s) = 0 /\
  count Watch.is_consume (Consumer.trace s) = 0 /\
  count is_assert (Consumer.trace s) = 0 /\
  count Watch.is_create (Consumer.trace s) = 0 /\
  length (List.filter ConsumerRun.awaits_assert (Consumer.tasks s)) = 0 /\
  length (List.filter ConsumerRun.awaits_create (Consumer.tasks s)) = 0 /\
  count is_connect (Consumer.trace s) = Consumer.in_flight s /\
  count is_connect (Consumer.trace s)
  = length (List.filter ConsumerRun.awaits_connect (Consumer.tasks s)) /\
  count is_connect (Consumer.trace s) = (if provider && service then 1 else 0).
Proof. destruct provider, service; vm_compute; repeat split. Qed.

(** X8: in every run of the worker, the acknowledgements made do not
    outnumber the resolutions of [processPrompt]; the acknowledgements, the
    discards and the messages still being processed together do not
    outnumber the messages delivered, so that no delivery is settled twice
    over; and every [processPrompt] call made is either still running or
    has settled. *)
Theorem consumer_settles_at_most_once (P : Platform) (provider service : bool)
    (evs : list Consumer.Event) (s : Consumer.Sys) :
  Consumer.run P (Consumer.boot P provider service) evs = Some s ->
  count Watch.is_ack (Consumer.trace s)
    <= ConsumerRun.occurrences ConsumerRun.is_resolution evs /\
  count Watch.is_ack (Consumer.trace s) + count Watch.is_nack (Consumer.trace s)
    + ConsumerRun.in_process s
    <= ConsumerRun.occurrences ConsumerRun.is_delivery evs /\
  count is_process (Consumer.trace s)
    = ConsumerRun.in_process s
      + ConsumerRun.occurrences ConsumerRun.is_outcome evs.
Proof.
  intros H.
  destruct (consumer_run_facts P evs _ _ H) as (_ & _ & (A3 & A4 & A5) & _).
  destruct (consumer_boot_quantities P provider service)
    as (Q1 & Q2 & Q3 & Q4 & _).
  cbv zeta in *. rewrite Q1 in A3, A4. rewrite Q2, Q4 in A4. rewrite Q3, Q4 in A5.
  repeat split; lia.
Qed.

Lemma consumer_settles_at_most_once_witness :
  exists s,
    Consumer.run Demo.platform (Consumer.boot Demo.platform true true) Runs.busy
      = Some s /\
    count Watch.is_ack (Consumer.trace s) = 1 /\
    count Watch.is_nack (Consumer.trace s) = 2 /\
    count Watch.is_ack (Consumer.trace s) + count Watch.is_nack (Consumer.trace s)
    + ConsumerRun.in_process s
    <= ConsumerRun.occurrences ConsumerRun.is_delivery Runs.busy.
Proof.
  destruct (Consumer.run Demo.platform (Consumer.boot Demo.platform true true)
              Runs.busy) as [s|] eqn:E.
  - exists s. split; [reflexivity|].
    split; [vm_compute in E; injection E as <-; reflexivity|].
    split; [vm_compute in E; injection E as <-; reflexivity|].
    exact (proj1 (proj2 (consumer_settles_at_most_once _ _ _ _ _ E))).
  - vm_compute in E. discriminate E.
Defined.

(** X9: the worker connects at start-up and when a retry timer fires, and at
    no other time; every retry scheduled is pending or has fired; and every
    attempt made is still running, or ended in a subscription, or ended in
    one scheduled retry, the ['close'] of a connection scheduling one more
    each time. *)
Theorem consumer_attempts_end_in_subscription_or_retry (P : Platform)
    (provider service : bool) (evs : list Consumer.Event) (s : Consumer.Sys) :
  Consumer.run P (Consumer.boot P provider service) evs = Some s ->
  count is_connect (Consumer.trace s)
    = (if provider && service then 1 else 0)
      + ConsumerRun.occurrences ConsumerRun.is_timer evs /\
  Consumer.timers s + ConsumerRun.occurrences ConsumerRun.is_timer evs
    = count Watch.is_timeout (Consumer.trace s) /\
  count is_connect (Consumer.trace s)
    + ConsumerRun.occurrences ConsumerRun.is_close evs
    = Consumer.in_flight s + count Watch.is_consume (Consumer.trace s)
      + count Watch.is_timeout (Consumer.trace s).
Proof.
  intros H.
  destruct (consumer_run_facts P evs _ _ H) as (_ & _ & _ & (A6 & A7 & A8) & _).
  destruct (consumer_boot_quantities P provider service)
    as (_ & _ & _ & _ & Q5 & Q6 & Q7 & _ & _ & _ & _ & Q12 & _ & Q14).
  cbv zeta in *. rewrite Q5, Q6 in A6. rewrite Q14 in A7.
  rewrite Q6, Q7, <- Q12 in A8.
  repeat split; lia.
Qed.

Lemma consumer_attempts_end_in_subscription_or_retry_witness :
  exists s,
    Consumer.run Demo.platform (Consumer.boot Demo.platform true true) Runs.busy
      = Some s /\
    count is_connect (Consumer.trace s) = 4 /\
    Consumer.timers s + 3 = count Watch.is_timeout (Consumer.trace s).
Proof.
  destruct (Consumer.run Demo.platform (Consumer.boot Demo.platform true true)
              Runs.busy) as [s|] eqn:E.
  - exists s. split; [reflexivity|].
    destruct (consumer_attempts_end_in_subscription_or_retry _ _ _ _ _ E)
      as (H1 & H2 & _).
    split; [exact H1|exact H2].
  - vm_compute in E. discriminate E.
Defined.

(** X10: the worker sets up in order.  At any time of any run, the
    subscriptions made plus the attempts waiting for [assertQueue] do not
    outnumber the queue assertions made; these plus the attempts waiting for
    [createChannel] do not outnumber the channels asked for; and these plus
    the attempts waiting for [amqp.connect] do not outnumber the connection
    attempts: no step of the set-up is taken before the one it follows. *)
Theorem consumer_sets_up_in_order (P : Platform) (provider service : bool)
    (evs : list Consumer.Event) (s : Consumer.Sys) :
  Consumer.run P (Consumer.boot P provider service) evs = Some s ->
  count Watch.is_consume (Consumer.trace s)
    + length (List.filter ConsumerRun.awaits_assert (Consumer.tasks s))
    <= count is_assert (Consumer.trace s) /\
  count is_assert (Consumer.trace s)
    + length (List.filter ConsumerRun.awaits_create (Consumer.tasks s))
    <= count Watch.is_create (Consumer.trace s) /\
  count Watch.is_create (Consumer.trace s)
    + length (List.filter ConsumerRun.awaits_connect (Consumer.tasks s))
    <= count is_connect (Consumer.trace s).
Proof.
  intros H.
  destruct (consumer_run_facts P evs _ _ H) as (_ & _ & _ & _ & (A9 & A10 & A11)).
  destruct (consumer_boot_quantities P provider service)
    as (_ & _ & _ & _ & _ & _ & Q7 & Q8 & Q9 & Q10 & Q11 & _ & Q13 & _).
  cbv zeta in *. rewrite Q7, Q8, Q10 in A9. rewrite Q8, Q9, Q11 in A10.
  rewrite Q9, <- Q13 in A11.
  repeat split; lia.
Qed.

Lemma consumer_sets_up_in_order_witness :
  exists s,
    Consumer.run Demo.platform (Consumer.boot Demo.platform true true) Runs.busy
      = Some s /\
    count Watch.is_consume (Consumer.trace s) = 3 /\
    count Watch.is_consume (Consumer.trace s)
    + length (List.filter ConsumerRun.awaits_assert (Consumer.tasks s))
    <= count is_assert (Consumer.trace s).
Proof.
  destruct (Consumer.run Demo.platform (Consumer.boot Demo.platform true true)
              Runs.busy) as [s|] eqn:E.
  - exists s. split; [reflexivity|].
    split; [vm_compute in E; injection E as <-; reflexivity|].
    exact (proj1 (consumer_sets_up_in_order _ _ _ _ _ E)).
  - vm_compute in E. discriminate E.
Defined.

(** ** Further properties: from the router to the worker *)

(** The worker's validation and argument reads on a decoded message. *)
Lemma decoded_reads (message : PromptRequestPayload) :
  Consumer.lacks_prompt (Wire.decoded message) = Ok (Wire.rejected message) /\
  Consumer.prompt_arguments (Wire.decoded message)
  = Ok (JStr <$> promptText message, JStr <$> requestedModel message,
        JBool <$> enhance message, JStr <$> promptId message).
Proof.
  destruct message as [[t|] [m|] [e|] [i|]];
    unfold Wire.rejected, Consumer.lacks_prompt, Consumer.prompt_arguments;
    cbn; repeat match goal with
         | |- context [String.eqb ?x ""] => destruct (String.eqb x "")
         end; cbn; split; reflexivity.
Qed.

(** X11: the worker validates as the router does, and processes what was
    sent.  The worker's validity test on the decoding of a request gives the
    router's verdict on that request; and for a message whose text is the
    router's encoding of a request that the router accepts, on a platform
    whose JSON built-ins take that request to its text and back, the worker
    hands [processPrompt] the four fields the caller sent, [undefined] where
    the caller sent none, and suspends on it without discarding the
    message. *)
Theorem published_request_is_processed_as_sent (P : Platform)
    (s : Consumer.Sys) (req : PromptRequestPayload) (msg : Message) :
  content msg = JSON_stringify P req ->
  JSON_parse P (JSON_stringify P req) = Some (Wire.decoded req) ->
  let s' := exec (Consumer.on_message P (Some msg)) s in
  Consumer.lacks_prompt (Wire.decoded req) = Ok (Wire.rejected req) /\
  (Wire.rejected req = false ->
   Consumer.emitted s s'
   = [Log Info ("Received message from queue '" +:+ QUEUE_NAME +:+ "': "
                +:+ content msg);
      Log Info "Processing message with defaultPromptService...";
      ProcessPrompt (JStr <$> promptText req) (JStr <$> requestedModel req)
        (JBool <$> enhance req) (JStr <$> promptId req)] /\
   Consumer.tasks s' = Consumer.tasks s ++ [Consumer.TMessage msg]).
Proof.
  intros Hc Hp s'. subst s'.
  destruct (decoded_reads req) as [Hl Ha]. split; [exact Hl|].
  intros Hv. rewrite Hv in Hl.
  destruct s as [c ch ts n l lc k t].
  unfold exec, Consumer.on_message. rewrite Hc, Hp, Hl, Ha.
  unfold Consumer.emitted, Consumer.suspend, Consumer.log, Consumer.emit,
    Consumer.set_tasks, gets, modify, mbind, mret, M_bind, M_ret.
  cbn [snd fst Consumer.trace Consumer.tasks Consumer.connection
       Consumer.channel Consumer.timers Consumer.conn_listening
       Consumer.chan_listening Consumer.consuming].
  split; [|reflexivity].
  rewrite <- !app_assoc. apply drop_app_length.
Qed.

Lemma published_request_is_processed_as_sent_witness :
  Consumer.emitted Demo.consumer_ready
    (exec (Consumer.on_message Demo.platform (Some Demo.hello_msg))
       Demo.consumer_ready)
  = [Log Info ("Received message from queue '" +:+ QUEUE_NAME +:+ "': "
               +:+ content Demo.hello_msg);
     Log Info "Processing message with defaultPromptService...";
     ProcessPrompt (Some (JStr "Hello AI")) None None None].
Proof.
  exact (proj1 (proj2 (published_request_is_processed_as_sent Demo.platform
    Demo.consumer_ready Demo.hello Demo.hello_msg eq_refl eq_refl) eq_refl)).
Defined.

(** ** Further properties: the processing capability *)

Lemma truthy_string_true (o : option string) :
  truthy_string o = true -> exists s, o = Some s /\ s <> "".
Proof.
  destruct o as [s|]; cbn; [|discriminate]. intros H. exists s. split; [reflexivity|].
  destruct (String.eqb_spec s ""); [discriminate|assumption].
Qed.

Lemma truthy_string_show (o : option string) :
  truthy_string o = true -> Service.show o <> "".
Proof.
  intros H. destruct (truthy_string_true _ H) as (s & -> & Hs). exact Hs.
Qed.

Lemma logs_filter (p : Service.Call -> bool) (logs : list Service.Call) :
  (forall c, Service.is_log c = true -> p c = false) ->
  forallb Service.is_log logs = true -> List.filter p logs = [].
Proof.
  intros Hp. induction logs as [|c logs IH]; cbn; [reflexivity|].
  intros H. apply andb_prop in H. destruct H as [Hc Hl].
  rewrite (Hp c Hc). apply IH. exact Hl.
Qed.

Lemma log_is_not_generate (c : Service.Call) :
  Service.is_log c = true -> Service.is_generate c = false.
Proof. destruct c; cbn; congruence. Qed.

Lemma log_is_not_query (c : Service.Call) :
  Service.is_log c = true -> Service.is_query c = false.
Proof. destruct c; cbn; congruence. Qed.

(** The last part of [processPrompt], from the caller's side: besides log
    lines it makes no call for a blank prompt and one call to the provider
    for any other, and settles accordingly. *)
Lemma send_prompt_spec (trim : string -> string) (llm : Service.LlmProvider)
    (cpt : option string) (model : string) (enh : bool)
    (calls : list Service.Call) :
  let text := Service.final_text cpt enh in
  let r := Service.send_prompt trim llm cpt model enh calls in
  exists logs1 logs2,
    forallb Service.is_log logs1 = true /\
    forallb Service.is_log logs2 = true /\
    fst r = calls ++ logs1
            ++ (if Service.blank trim text then []
                else [Service.GenerateCompletionCall (Service.show text) model])
            ++ logs2 /\
    snd r = if Service.blank trim text
            then Service.send_catch (Service.ErrorObject
                   "Final prompt text is empty or whitespace. Cannot send to LLM.")
            else match Service.generateCompletion llm (Service.show text) (Some model) with
                 | Service.Returns completion => Service.Returns completion
                 | Service.Throws e => Service.send_catch e
                 end.
Proof.
  intros text r. subst r. unfold Service.send_prompt. fold text.
  exists ((if enh then [Service.LoggerCall Info "Prompt enhancement applied."]
           else [])
          ++ [Service.LoggerCall Info ("Selected LLM model: '" +:+ model +:+ "'.");
              Service.LoggerCall Info
                ("Final prompt being sent to LLM: " +:+ Service.quote
                 +:+ Service.show text +:+ Service.quote)]).
  destruct (Service.blank trim text) eqn:Hb.
  - exists [Service.LoggerCall Error
              "Final prompt text is empty or whitespace. Cannot send to LLM.";
            Service.LoggerCall Error
              "Error during prompt processing or LLM completion:"].
    split; [destruct enh; reflexivity|]. split; [reflexivity|].
    split; [|reflexivity]. cbn [fst]. rewrite <- !app_assoc. reflexivity.
  - destruct (Service.generateCompletion llm (Service.show text) (Some model))
      as [completion|e] eqn:Hg.
    + exists [Service.LoggerCall Info
                "Prompt processed and completion received successfully."].
      split; [destruct enh; reflexivity|]. split; [reflexivity|].
      split; [|reflexivity]. cbn [fst]. rewrite <- !app_assoc. reflexivity.
    + exists [Service.LoggerCall Error
                "Error during prompt processing or LLM completion:"].
      split; [destruct enh; reflexivity|]. split; [reflexivity|].
      split; [|reflexivity]. cbn [fst]. rewrite <- !app_assoc. reflexivity.
Qed.

Lemma blank_false (trim : string -> string) (text : option string) :
  Service.blank trim text = false ->
  Service.show text <> "" /\ trim (Service.show text) <> "".
Proof.
  unfold Service.blank. intros H. apply orb_false_elim in H. destruct H as [Ht Hb].
  apply negb_false_iff in Ht. split; [apply truthy_string_show; exact Ht|].
  destruct (String.eqb_spec (trim (Service.show text)) ""); [discriminate|assumption].
Qed.

(** [processPrompt] with a provider, as a whole: after the log lines and the
    library lookup it either throws at once, when there is neither a usable
    library row nor a text, or goes on to [send_prompt] with the selected
    text and model. *)
Lemma processPrompt_shape (trim : string -> string)
    (query : string -> list string -> Service.settled (list Db.Prompt))
    (llm : Service.LlmProvider) (pt rm : option string) (enh : option bool)
    (pid : option string) :
  let r := Service.processPrompt trim query (Some llm) pt rm enh pid in
  exists pre,
    List.filter Service.is_generate pre = [] /\
    List.filter Service.is_query pre
    = (if truthy_string pid
       then [Service.QueryCall "SELECT * FROM prompts WHERE name = $1"
               [Service.show pid]]
       else []) /\
    match Service.library_prompt query pid, truthy_string pt with
    | None, false =>
        r = (pre, Service.Throws (Service.ErrorObject
               (if truthy_string pid
                then "Failed to retrieve prompt '" +:+ Service.show pid
                     +:+ "' from database and no fallback promptText provided."
                else "Cannot process prompt: Neither promptId nor promptText was provided.")))
    | _, _ =>
        r = Service.send_prompt trim llm (Service.selected_text query pt pid)
              (Service.selected_model query rm pid) (default false enh) pre
    end.
Proof.
  intros r. subst r.
  unfold Service.processPrompt, Service.selected_text, Service.selected_model,
    Service.library_prompt, Service.lookup_catch.
  destruct (truthy_string pid) eqn:Hpid.
  - cbn [Service.getPromptByName fst snd].
    destruct (query "SELECT * FROM prompts WHERE name = $1" [Service.show pid])
      as [[|row rows]|e] eqn:Hq.
    + destruct (truthy_string pt) eqn:Hpt; cbn [negb];
        eexists; (split; [|split; [|reflexivity]]);
        rewrite ?List.filter_app; reflexivity.
    + destruct (truthy_string (Db.model_name row)) eqn:Hm,
        (truthy_string rm) eqn:Hrm, (truthy_string pt) eqn:Hpt;
        cbn [negb andb];
        eexists; (split; [|split; [|reflexivity]]);
        rewrite ?List.filter_app; reflexivity.
    + destruct (truthy_string pt) eqn:Hpt; cbn [negb];
        eexists; (split; [|split; [|reflexivity]]);
        rewrite ?List.filter_app; reflexivity.
  - destruct (truthy_string pt) eqn:Hpt; cbn [negb];
      eexists; (split; [|split; [|reflexivity]]);
      rewrite ?List.filter_app; reflexivity.
Qed.

Lemma filter_logs_generate (logs : list Service.Call) :
  forallb Service.is_log logs = true -> List.filter Service.is_generate logs = [].
Proof. apply logs_filter. exact log_is_not_generate. Qed.

Lemma filter_logs_query (logs : list Service.Call) :
  forallb Service.is_log logs = true -> List.filter Service.is_query logs = [].
Proof. apply logs_filter. exact log_is_not_query. Qed.

Lemma send_prompt_generate (trim : string -> string) (llm : Service.LlmProvider)
    (cpt : option string) (model : string) (enh : bool)
    (calls : list Service.Call) :
  List.filter Service.is_generate calls = [] ->
  List.filter Service.is_generate
    (fst (Service.send_prompt trim llm cpt model enh calls))
  = if Service.blank trim (Service.final_text cpt enh) then []
    else [Service.GenerateCompletionCall
            (Service.show (Service.final_text cpt enh)) model].
Proof.
  intros Hc.
  destruct (send_prompt_spec trim llm cpt model enh calls)
    as (logs1 & logs2 & H1 & H2 & Hf & _).
  rewrite Hf, !List.filter_app, Hc, (filter_logs_generate _ H1),
    (filter_logs_generate _ H2).
  destruct (Service.blank trim (Service.final_text cpt enh)); reflexivity.
Qed.

Lemma send_prompt_query (trim : string -> string) (llm : Service.LlmProvider)
    (cpt : option string) (model : string) (enh : bool)
    (calls : list Service.Call) :
  List.filter Service.is_query
    (fst (Service.send_prompt trim llm cpt model enh calls))
  = List.filter Service.is_query calls.
Proof.
  destruct (send_prompt_spec trim llm cpt model enh calls)
    as (logs1 & logs2 & H1 & H2 & Hf & _).
  rewrite Hf, !List.filter_app, (filter_logs_query _ H1),
    (filter_logs_query _ H2).
  destruct (Service.blank trim (Service.final_text cpt enh));
    cbn; rewrite ?app_nil_r; reflexivity.
Qed.

Lemma selected_model_not_empty
    (query : string -> list string -> Service.settled (list Db.Prompt))
    (rm pid : option string) :
  Service.selected_model query rm pid <> "".
Proof.
  unfold Service.selected_model.
  destruct (truthy_string rm) eqn:Hrm; [apply truthy_string_show; exact Hrm|].
  destruct (Service.library_prompt query pid) as [row|]; [|discriminate].
  destruct (truthy_string (Db.model_name row)) eqn:Hm;
    [apply truthy_string_show; exact Hm|discriminate].
Qed.

(** The provider calls of [processPrompt], exactly. *)
Lemma processPrompt_generate (trim : string -> string)
    (query : string -> list string -> Service.settled (list Db.Prompt))
    (llmProvider : option Service.LlmProvider) (promptText requestedModel : option string)
    (enhance : option bool) (promptId : option string) :
  let text :=
    Service.final_text (Service.selected_text query promptText promptId)
      (default false enhance) in
  List.filter Service.is_generate
    (fst (Service.processPrompt trim query llmProvider promptText requestedModel
            enhance promptId))
  = match llmProvider, Service.library_prompt query promptId,
          truthy_string promptText with
    | None, _, _ | Some _, None, false => []
    | Some _, _, _ =>
        if Service.blank trim text then []
        else [Service.GenerateCompletionCall (Service.show text)
                (Service.selected_model query requestedModel promptId)]
    end.
Proof.
  intros text. subst text. destruct llmProvider as [llm|]; [|reflexivity].
  destruct (processPrompt_shape trim query llm promptText requestedModel enhance
              promptId) as (pre & Hg & _ & Hr).
  destruct (Service.library_prompt query promptId) as [row|],
    (truthy_string promptText);
    rewrite Hr; first [apply send_prompt_generate; exact Hg | exact Hg].
Qed.

(** X12: [processPrompt] calls the provider at most once, and exactly when
    there is a library row or a text to work with and the final prompt is
    not blank; the call carries the final text (library text, then the
    caller's text after a space, then the enhancement) and the selected
    model (the requested one, else the library row's, else the default). *)
Theorem processPrompt_provider_call (trim : string -> string)
    (query : string -> list string -> Service.settled (list Db.Prompt))
    (llmProvider : option Service.LlmProvider) (promptText requestedModel : option string)
    (enhance : option bool) (promptId : option string) :
  let text :=
    Service.final_text (Service.selected_text query promptText promptId)
      (default false enhance) in
  List.filter Service.is_generate
    (fst (Service.processPrompt trim query llmProvider promptText requestedModel
            enhance promptId))
  = match llmProvider, Service.library_prompt query promptId,
          truthy_string promptText with
    | None, _, _ | Some _, None, false => []
    | Some _, _, _ =>
        if Service.blank trim text then []
        else [Service.GenerateCompletionCall (Service.show text)
                (Service.selected_model query requestedModel promptId)]
    end.
Proof.
  exact (processPrompt_generate trim query llmProvider promptText requestedModel
           enhance promptId).
Qed.

(** X13: whatever the request, the library and the provider, no blank prompt
    and no empty model name ever reaches the provider. *)
Theorem processPrompt_never_sends_blank (trim : string -> string)
    (query : string -> list string -> Service.settled (list Db.Prompt))
    (llmProvider : option Service.LlmProvider) (promptText requestedModel : option string)
    (enhance : option bool) (promptId : option string) :
  Forall (fun c =>
            match c with
            | Service.GenerateCompletionCall prompt model =>
                prompt <> "" /\ trim prompt <> "" /\ model <> ""
            | _ => False
            end)
    (List.filter Service.is_generate
       (fst (Service.processPrompt trim query llmProvider promptText
               requestedModel enhance promptId))).
Proof.
  rewrite processPrompt_generate.
  set (text := Service.final_text _ _).
  assert (Hs : Forall (fun c =>
            match c with
            | Service.GenerateCompletionCall prompt model =>
                prompt <> "" /\ trim prompt <> "" /\ model <> ""
            | _ => False
            end)
    (if Service.blank trim text then []
     else [Service.GenerateCompletionCall (Service.show text)
             (Service.selected_model query requestedModel promptId)])).
  { destruct (Service.blank trim text) eqn:Hb; [constructor|].
    destruct (blank_false _ _ Hb) as [H1 H2].
    repeat constructor; [exact H1|exact H2|apply selected_model_not_empty]. }
  destruct llmProvider as [llm|]; [|constructor].
  destruct (Service.library_prompt query promptId) as [row|],
    (truthy_string promptText); first [exact Hs | constructor].
Qed.

(** X14: the library is queried only by a service that has a provider and only
    for a request that names a prompt; then exactly once, by that name, with
    the one parameterised statement. *)
Theorem processPrompt_queries_library_once (trim : string -> string)
    (query : string -> list string -> Service.settled (list Db.Prompt))
    (llmProvider : option Service.LlmProvider) (promptText requestedModel : option string)
    (enhance : option bool) (promptId : option string) :
  List.filter Service.is_query
    (fst (Service.processPrompt trim query llmProvider promptText requestedModel
            enhance promptId))
  = match llmProvider with
    | Some _ =>
        if truthy_string promptId
        then [Service.QueryCall "SELECT * FROM prompts WHERE name = $1"
                [Service.show promptId]]
        else []
    | None => []
    end.
Proof.
  destruct llmProvider as [llm|]; [|reflexivity].
  destruct (processPrompt_shape trim query llm promptText requestedModel enhance
              promptId) as (pre & _ & Hq & Hr).
  destruct (Service.library_prompt query promptId) as [row|],
    (truthy_string promptText);
    rewrite Hr, ?send_prompt_query; exact Hq.
Qed.

Lemma send_prompt_result (trim : string -> string) (llm : Service.LlmProvider)
    (cpt : option string) (model : string) (enh : bool)
    (calls : list Service.Call) :
  snd (Service.send_prompt trim llm cpt model enh calls)
  = if Service.blank trim (Service.final_text cpt enh)
    then Service.send_catch (Service.ErrorObject
           "Final prompt text is empty or whitespace. Cannot send to LLM.")
    else match Service.generateCompletion llm
                 (Service.show (Service.final_text cpt enh)) (Some model) with
         | Service.Returns completion => Service.Returns completion
         | Service.Throws e => Service.send_catch e
         end.
Proof.
  destruct (send_prompt_spec trim llm cpt model enh calls)
    as (logs1 & logs2 & _ & _ & _ & Hs). exact Hs.
Qed.

(** The ways [processPrompt] words its rejections. *)
Lemma send_catch_prefix (e : Service.thrown) :
  match Service.send_catch e with
  | Service.Throws (Service.ErrorObject message) =>
      String.prefix "Failed to process prompt and generate completion" message = true
  | _ => False
  end.
Proof. destruct e; reflexivity. Qed.

(** X15: [processPrompt] resolves only with what the provider returned for the
    one call made to it, and every rejection is an [Error] object whose
    message opens in one of four ways (no provider, nothing to process,
    library lookup without fallback, failure while sending); a value thrown
    by the provider that is not an [Error] never reaches the caller as it
    is. *)
Theorem processPrompt_settles (trim : string -> string)
    (query : string -> list string -> Service.settled (list Db.Prompt))
    (llmProvider : option Service.LlmProvider) (promptText requestedModel : option string)
    (enhance : option bool) (promptId : option string) :
  let r := Service.processPrompt trim query llmProvider promptText requestedModel
             enhance promptId in
  match snd r with
  | Service.Returns completion =>
      exists llm prompt model,
        llmProvider = Some llm /\
        List.filter Service.is_generate (fst r)
        = [Service.GenerateCompletionCall prompt model] /\
        Service.generateCompletion llm prompt (Some model)
        = Service.Returns completion
  | Service.Throws (Service.ErrorObject message) =>
      Exists (fun opening => String.prefix opening message = true)
        ["LlmProvider is not available";
         "Cannot process prompt";
         "Failed to retrieve prompt";
         "Failed to process prompt and generate completion"]
  | Service.Throws (Service.OtherValue _) => False
  end.
Proof.
  intros r. subst r. destruct llmProvider as [llm|];
    [|cbn; apply Exists_cons_hd; reflexivity].
  pose proof (processPrompt_generate trim query (Some llm) promptText
                requestedModel enhance promptId) as Hg. cbv zeta in Hg.
  destruct (processPrompt_shape trim query llm promptText requestedModel enhance
              promptId) as (pre & _ & _ & Hr).
  set (text := Service.final_text _ _) in *.
  set (model := Service.selected_model _ _ _) in *.
  assert (Hsend :
    snd (Service.send_prompt trim llm
           (Service.selected_text query promptText promptId) model
           (default false enhance) pre)
    = if Service.blank trim text
      then Service.send_catch (Service.ErrorObject
             "Final prompt text is empty or whitespace. Cannot send to LLM.")
      else match Service.generateCompletion llm (Service.show text) (Some model) with
           | Service.Returns completion => Service.Returns completion
           | Service.Throws e => Service.send_catch e
           end) by apply send_prompt_result.
  assert (Hfour : forall e,
    match Service.send_catch e with
    | Service.Returns _ => False
    | Service.Throws (Service.ErrorObject message) =>
        Exists (fun opening => String.prefix opening message = true)
          ["LlmProvider is not available";
           "Cannot process prompt";
           "Failed to retrieve prompt";
           "Failed to process prompt and generate completion"]
    | Service.Throws (Service.OtherValue _) => False
    end).
  { intros e. pose proof (send_catch_prefix e) as He.
    destruct (Service.send_catch e) as [|[message|]]; [exact He| |exact He].
    do 3 apply Exists_cons_tl. apply Exists_cons_hd. exact He. }
  assert (Hgo :
    Service.processPrompt trim query (Some llm) promptText requestedModel
      enhance promptId
    = Service.send_prompt trim llm
        (Service.selected_text query promptText promptId) model
        (default false enhance) pre ->
    List.filter Service.is_generate
      (fst (Service.processPrompt trim query (Some llm) promptText
              requestedModel enhance promptId))
    = (if Service.blank trim text then []
       else [Service.GenerateCompletionCall (Service.show text) model]) ->
    match snd (Service.processPrompt trim query (Some llm) promptText
                 requestedModel enhance promptId) with
    | Service.Returns completion =>
        exists llm0 prompt model0,
          Some llm = Some llm0 /\
          List.filter Service.is_generate
            (fst (Service.processPrompt trim query (Some llm) promptText
                    requestedModel enhance promptId))
          = [Service.GenerateCompletionCall prompt model0] /\
          Service.generateCompletion llm0 prompt (Some model0)
          = Service.Returns completion
    | Service.Throws (Service.ErrorObject message) =>
        Exists (fun opening => String.prefix opening message = true)
          ["LlmProvider is not available";
           "Cannot process prompt";
           "Failed to retrieve prompt";
           "Failed to process prompt and generate completion"]
    | Service.Throws (Service.OtherValue _) => False
    end).
  { intros Hr' Hg'. rewrite Hg'. rewrite Hr', Hsend.
    destruct (Service.blank trim text).
    - match goal with |- context [Service.send_catch ?e] =>
        pose proof (Hfour e) as He; destruct (Service.send_catch e) as [?|[?|?]]
      end; [contradiction|exact He|exact He].
    - destruct (Service.generateCompletion llm (Service.show text) (Some model))
        as [completion|e] eqn:Hc.
      + exists llm, (Service.show text), model. auto.
      + pose proof (Hfour e) as He.
        destruct (Service.send_catch e) as [?|[?|?]];
          [contradiction|exact He|exact He]. }
  destruct (Service.library_prompt query promptId) as [row|],
    (truthy_string promptText) eqn:Hpt; try (apply Hgo; assumption).
  rewrite Hr. cbn [snd].
  destruct (truthy_string promptId).
  - do 2 apply Exists_cons_tl. apply Exists_cons_hd. reflexivity.
  - apply Exists_cons_tl. apply Exists_cons_hd. reflexivity.
Qed.

(** X16: a request that names a prompt and brings no text of its own is
    rejected with the lookup failure message whenever the library yields no
    row, be it because the prompt is not there or because the query failed;
    the provider is not called. *)
Theorem processPrompt_without_fallback (trim : string -> string)
    (query : string -> list string -> Service.settled (list Db.Prompt))
    (llm : Service.LlmProvider) (promptText requestedModel : option string)
    (enhance : option bool) (promptId : option string) :
  truthy_string promptId = true ->
  truthy_string promptText = false ->
  Service.library_prompt query promptId = None ->
  let r := Service.processPrompt trim query (Some llm) promptText requestedModel
             enhance promptId in
  snd r = Service.Throws (Service.ErrorObject
            ("Failed to retrieve prompt '" +:+ Service.show promptId
             +:+ "' from database and no fallback promptText provided.")) /\
  List.filter Service.is_generate (fst r) = [].
Proof.
  intros Hpid Hpt Hlib r. subst r.
  destruct (processPrompt_shape trim query llm promptText requestedModel enhance
              promptId) as (pre & Hg & _ & Hr).
  rewrite Hlib, Hpt, Hpid in Hr. rewrite Hr. split; [reflexivity|exact Hg].
Qed.

Lemma processPrompt_without_fallback_witness :
  snd (Service.processPrompt id Library.empty (Some Library.echo) None None None
         (Some "summarize"))
  = Service.Throws (Service.ErrorObject
      "Failed to retrieve prompt 'summarize' from database and no fallback promptText provided.").
Proof.
  exact (proj1 (processPrompt_without_fallback id Library.empty Library.echo
    None None None (Some "summarize") eq_refl eq_refl eq_refl)).
Defined.

(** X17: for a request that brings a text, a lookup that yields no row (prompt
    not there, or query failed) changes nothing for the caller or for the
    provider: the call settles as the same request without [promptId] and
    makes the same provider call. *)
Theorem processPrompt_falls_back_to_text (trim : string -> string)
    (query : string -> list string -> Service.settled (list Db.Prompt))
    (llm : Service.LlmProvider) (promptText requestedModel : option string)
    (enhance : option bool) (promptId : option string) :
  truthy_string promptText = true ->
  Service.library_prompt query promptId = None ->
  let with_id := Service.processPrompt trim query (Some llm) promptText
                   requestedModel enhance promptId in
  let without := Service.processPrompt trim query (Some llm) promptText
                   requestedModel enhance None in
  snd with_id = snd without /\
  List.filter Service.is_generate (fst with_id)
  = List.filter Service.is_generate (fst without).
Proof.
  intros Hpt Hlib with_id without. subst with_id without. split.
  - destruct (processPrompt_shape trim query llm promptText requestedModel enhance
                promptId) as (pre1 & _ & _ & Hr1).
    destruct (processPrompt_shape trim query llm promptText requestedModel enhance
                None) as (pre2 & _ & _ & Hr2).
    rewrite Hlib, Hpt in Hr1. change (Service.library_prompt query None) with
      (@None Db.Prompt) in Hr2. rewrite Hpt in Hr2.
    rewrite Hr1, Hr2, !send_prompt_result.
    unfold Service.selected_text, Service.selected_model. rewrite Hlib.
    reflexivity.
  - rewrite !processPrompt_generate. rewrite Hlib, Hpt.
    unfold Service.selected_text, Service.selected_model. rewrite Hlib.
    reflexivity.
Qed.

Lemma processPrompt_falls_back_to_text_witness :
  snd (Service.processPrompt id Library.unreachable (Some Library.echo)
         (Some "Hello AI") None None (Some "summarize"))
  = snd (Service.processPrompt id Library.unreachable (Some Library.echo)
           (Some "Hello AI") None None None).
Proof.
  exact (proj1 (processPrompt_falls_back_to_text id Library.unreachable
    Library.echo (Some "Hello AI") None None (Some "summarize") eq_refl eq_refl)).
Defined.

(** How [generateCompletion] of the OpenAI provider settles. *)
Lemma openai_settles
    (create : string -> string -> Service.settled Service.ChatCompletion)
    (prompt : string) (model_arg : option string) :
  let model := default Service.DEFAULT_MODEL model_arg in
  let r := Service.openai_generateCompletion create prompt model_arg in
  (exists logs, fst r = Service.ChatCompletionsCreate model prompt :: logs /\
                forallb Service.is_log logs = true) /\
  (forall text,
     snd r = Service.Returns text <->
     exists completion,
       create model prompt = Service.Returns completion /\
       Service.first_content completion = Service.Returns (Some text)) /\
  match snd r with
  | Service.Returns _ => True
  | Service.Throws (Service.ErrorObject message) =>
      String.prefix "OpenAI API request failed" message = true
  | Service.Throws (Service.OtherValue _) => False
  end.
Proof.
  intros model r. subst r. unfold Service.openai_generateCompletion. fold model.
  destruct (create model prompt) as [completion|e] eqn:Hc.
  - destruct (Service.first_content completion) as [[text|]|e] eqn:Hf.
    + split; [exists []; split; reflexivity|]. split; [|exact I].
      intros text'. split.
      * intros H. exists completion. split; [reflexivity|]. cbn in H. congruence.
      * intros (completion' & H1 & H2). cbn. congruence.
    + split; [eexists; split; reflexivity|]. split; [|reflexivity].
      intros text'. split; [discriminate|].
      intros (completion' & H1 & H2). congruence.
    + split; [eexists; split; reflexivity|]. split.
      * intros text'. split; [destruct e; discriminate|].
        intros (completion' & H1 & H2). congruence.
      * destruct e; reflexivity.
  - split; [eexists; split; reflexivity|]. split.
    + intros text'. split; [destruct e; discriminate|].
      intros (completion' & H1 & H2). congruence.
    + destruct e; reflexivity.
Qed.

(** X18: [OpenAiLlmProvider.generateCompletion] makes one request, on the
    model given or else on the default one; it resolves exactly when the
    request returned a completion whose first choice has a content, the
    empty string included, and with that content; every rejection, the
    missing content and the missing [choices] included, is an [Error]
    object whose message opens with the one phrase. *)
Theorem openai_generateCompletion_settles
    (create : string -> string -> Service.settled Service.ChatCompletion)
    (prompt : string) (model_arg : option string) :
  let model := default Service.DEFAULT_MODEL model_arg in
  let r := Service.openai_generateCompletion create prompt model_arg in
  (exists logs, fst r = Service.ChatCompletionsCreate model prompt :: logs /\
                forallb Service.is_log logs = true) /\
  (forall text,
     snd r = Service.Returns text <->
     exists completion,
       create model prompt = Service.Returns completion /\
       Service.first_content completion = Service.Returns (Some text)) /\
  match snd r with
  | Service.Returns _ => True
  | Service.Throws (Service.ErrorObject message) =>
      String.prefix "OpenAI API request failed" message = true
  | Service.Throws (Service.OtherValue _) => False
  end.
Proof.
  exact (openai_settles create prompt model_arg).
Qed.

(** X19: the service over the OpenAI provider. When [processPrompt] resolves,
    its value is the first content of the completion that the one request
    returned, made on the selected model with the final prompt; when the
    provider was called and failed, the caller gets the failure wrapped
    twice, by the provider and by the service; and with no provider call
    the call is rejected. *)
Theorem processPrompt_with_openai (trim : string -> string)
    (query : string -> list string -> Service.settled (list Db.Prompt))
    (create : string -> string -> Service.settled Service.ChatCompletion)
    (promptText requestedModel : option string)
    (enhance : option bool) (promptId : option string) :
  let r := Service.processPrompt trim query
             (Some (Service.OpenAiLlmProvider create)) promptText
             requestedModel enhance promptId in
  match List.filter Service.is_generate (fst r), snd r with
  | [], Service.Throws (Service.ErrorObject _) => True
  | [Service.GenerateCompletionCall prompt model], Service.Returns text =>
      exists completion,
        create model prompt = Service.Returns completion /\
        Service.first_content completion = Service.Returns (Some text)
  | [Service.GenerateCompletionCall prompt model],
    Service.Throws (Service.ErrorObject message) =>
      String.prefix
        "Failed to process prompt and generate completion: OpenAI API request failed"
        message = true
  | _, _ => False
  end.
Proof.
  intros r. subst r.
  rewrite processPrompt_generate.
  destruct (processPrompt_shape trim query (Service.OpenAiLlmProvider create)
              promptText requestedModel enhance promptId) as (pre & _ & _ & Hr).
  set (text := Service.final_text _ _) in *.
  set (model := Service.selected_model _ _ _) in *.
  assert (Hgo :
    match
      (if Service.blank trim text then []
       else [Service.GenerateCompletionCall (Service.show text) model]),
      snd (Service.send_prompt trim (Service.OpenAiLlmProvider create)
             (Service.selected_text query promptText promptId) model
             (default false enhance) pre)
    with
    | [], Service.Throws (Service.ErrorObject _) => True
    | [Service.GenerateCompletionCall prompt model], Service.Returns text =>
        exists completion,
          create model prompt = Service.Returns completion /\
          Service.first_content completion = Service.Returns (Some text)
    | [Service.GenerateCompletionCall prompt model],
      Service.Throws (Service.ErrorObject message) =>
        String.prefix
          "Failed to process prompt and generate completion: OpenAI API request failed"
          message = true
    | _, _ => False
    end).
  { rewrite send_prompt_result. fold text.
    destruct (Service.blank trim text); [exact I|].
    cbn [Service.generateCompletion Service.OpenAiLlmProvider].
    destruct (openai_settles create (Service.show text)
                (Some model)) as (_ & Hret & Hthrow).
    cbn [default] in Hret.
    destruct (snd (Service.openai_generateCompletion create (Service.show text)
                     (Some model))) as [text'|[message|shown]].
    - apply Hret. reflexivity.
    - cbn. exact Hthrow.
    - contradiction. }
  destruct (Service.library_prompt query promptId) as [row|],
    (truthy_string promptText); rewrite Hr; first [exact Hgo | exact I].
Qed.

(** ** Further properties: start-up *)


(** X21: without [OPENAI_API_KEY] the default service rejects every request
    with the one message, and does so before looking at the request: the
    library is not queried and no provider is called. *)
Theorem default_service_without_key_rejects (trim : string -> string)
    (query : string -> list string -> Service.settled (list Db.Prompt))
    (new_OpenAI : string -> Service.settled
                    (string -> string -> Service.settled Service.ChatCompletion))
    (env_OPENAI_API_KEY promptText requestedModel : option string)
    (enhance : option bool) (promptId : option string) :
  truthy_string env_OPENAI_API_KEY = false ->
  let r := Service.processPrompt trim query
             (snd (Startup.defaultPromptService new_OpenAI env_OPENAI_API_KEY))
             promptText requestedModel enhance promptId in
  snd r = Service.Throws (Service.ErrorObject
            "LlmProvider is not available. Cannot process prompt.") /\
  List.filter Service.is_query (fst r) = [] /\
  List.filter Service.is_generate (fst r) = [].
Proof.
  intros Hk r. subst r.
  unfold Startup.defaultPromptService, Startup.PromptService_constructor,
    Startup.defaultOpenAiLlmProvider.
  rewrite Hk. cbn [snd]. repeat split.
Qed.

Lemma default_service_without_key_rejects_witness :
  snd (Service.processPrompt id Library.empty
         (snd (Startup.defaultPromptService Library.sdk None))
         (Some "Hello AI") None None None)
  = Service.Throws (Service.ErrorObject
      "LlmProvider is not available. Cannot process prompt.").
Proof.
  exact (proj1 (default_service_without_key_rejects id Library.empty Library.sdk
    None (Some "Hello AI") None None None eq_refl)).
Defined.
